(** * The agent registry and the uniform task-dispatch contract

    A shallow embedding of [src/core/base_agent.py], [src/core/agent_factory.py]
    and of the [execute]/[monitor] entry points of the concrete agents under
    [src/agents/], followed by the properties of the registry, of the metric
    log and of the ROI computation.

    Conventions of the embedding:
    - a Python dictionary with string keys is an insertion-ordered association
      list ([PyDict]), as [dict] is in Python 3.7+;
    - a Python object is its instance dictionary; a class is the record of the
      methods the factory calls on it;
    - [async def] methods are run to completion by their caller ([await]), so
      they are sequential computations in a state-and-exception monad;
    - numbers ([int] and [float]) are exact rationals: rounding, NaN, infinities
      and overflow of binary floating point are outside the model;
    - [datetime.utcnow()] reads the next value of a clock given as a function
      from the number of earlier readings to microseconds. *)

From Stdlib Require Import ZArith QArith Lia List String.
From stdpp Require Import base list strings pretty.
From Stdlib Require Import Qfield.

Set Warnings "-register-all".
Local Open Scope string_scope.
Local Open Scope list_scope.

(** ** Dictionaries *)

Module PyDict.
Section Ops.
Context {V : Type}.

(** [d.get(k)]: the value bound to [k], if any. *)
Fixpoint get (k : string) (d : list (string * V)) : option V :=
  match d with
  | [] => None
  | (k', v) :: d' => if String.eqb k k' then Some v else get k d'
  end.

(** [d[k] = v]: an existing key keeps its position, a new key goes last. *)
Fixpoint set (k : string) (v : V) (d : list (string * V)) : list (string * V) :=
  match d with
  | [] => [(k, v)]
  | (k', v') :: d' =>
      if String.eqb k k' then (k, v) :: d' else (k', v') :: set k v d'
  end.

(** [k in d] *)
Definition mem (k : string) (d : list (string * V)) : bool :=
  match get k d with Some _ => true | None => false end.

(** [d.get(k, default)] *)
Definition get_default (k : string) (default : V) (d : list (string * V)) : V :=
  match get k d with Some v => v | None => default end.

(** [list(d.keys())] *)
Definition keys (d : list (string * V)) : list string := map fst d.
End Ops.
End PyDict.

(** ** Values, exceptions, the world *)

Inductive value : Type :=
| VNone
| VBool (b : bool)
| VNum (q : Q)                          (* int and float *)
| VStr (s : string)
| VTime (t : Z)                         (* a datetime, in microseconds *)
| VLogger (n : string)                  (* logging.getLogger(n) *)
| VList (l : list value)
| VDict (d : list (string * value)).

Inductive exn : Type :=
| ValueError (msg : string)
| RuntimeError (msg : string)
| KeyError (key : string)
| AttributeError (what : string)
| TypeError (what : string)
| ZeroDivisionError.

Inductive result (A : Type) : Type :=
| Ok (a : A)
| Raise (e : exn).
Arguments Ok {A} a.
Arguments Raise {A} e.

(** One line written through the [logging] module. *)
Record log_record : Type := LogRecord {
  log_logger : string;
  log_level : string;
  log_message : string
}.

(** What lies outside every object: how often the clock was read, and the
    log. *)
Record world : Type := World {
  ticks : nat;
  logs : list log_record
}.

(** The state a method of an agent runs in: [self] and the world. *)
Record astate : Type := AState {
  self : list (string * value);
  env : world
}.

(** Computations over a state [S] that return or raise; what was written
    before an exception stays written. *)
Definition M (S A : Type) : Type := S -> result A * S.

Definition ret {S A : Type} (a : A) : M S A := fun s => (Ok a, s).

Definition raise {S A : Type} (e : exn) : M S A := fun s => (Raise e, s).

Definition bind {S A B : Type} (m : M S A) (k : A -> M S B) : M S B :=
  fun s =>
    match m s with
    | (Ok a, s') => k a s'
    | (Raise e, s') => (Raise e, s')
    end.

Declare Scope py_scope.
Delimit Scope py_scope with py.
Notation "x <~ m ;; k" := (bind m (fun x => k))
  (at level 100, m at next level, right associativity) : py_scope.
Notation "m ;;; k" := (bind m (fun _ => k))
  (at level 100, right associativity) : py_scope.
Local Open Scope py_scope.

Definition gets {S A : Type} (f : S -> A) : M S A := fun s => (Ok (f s), s).

Definition modify {S : Type} (f : S -> S) : M S unit := fun s => (Ok tt, f s).

(** ** Classes and agents *)

(** An agent class, as the factory sees it: [cls_init] is [__init__], run on
    an empty instance dictionary; [cls_initialize] is [initialize];
    [cls_members] are the names found on the class and its bases. *)
Record pyclass : Type := PyClass {
  cls_name : string;
  cls_members : list string;
  cls_init : string -> value -> M astate unit;
  cls_initialize : M astate bool
}.

Record agent : Type := Agent {
  agent_class : pyclass;
  agent_dict : list (string * value)
}.

(** What the Python runtime provides and the repository does not define. *)
Record builtins : Type := Builtins {
  clock : nat -> Z;                       (* the n-th reading of utcnow() *)
  isoformat : Z -> string;                (* datetime.isoformat() *)
  format_2f : Q -> string;                (* format(x, ",.2f") *)
  repr_value : value -> string;           (* str() of numbers and containers *)
  object_attrs : list string;             (* names inherited from object *)
  descriptor_set : string -> option (value -> agent -> result agent)
                                          (* names whose assignment a data
                                             descriptor of the runtime handles *)
}.

(** A call the factory makes on a class, with what came back. *)
Inductive call_event : Type :=
| Constructed (c : pyclass) (name : string) (config : value)
| Initialized (c : pyclass) (name : string) (returned : result bool).

(** The factory object: its two attributes, the journal of the calls it made
    on agent classes, and the world. *)
Record fstate : Type := FState {
  registered_agents : list (string * pyclass);
  logger : string;
  journal : list call_event;
  fenv : world
}.

(** ** Primitive operations on values *)

Definition Qltb (x y : Q) : bool := negb (Qle_bool y x).

(** The number a value stands for in arithmetic ([bool] is a subtype of
    [int]). *)
Definition as_num (v : value) : option Q :=
  match v with
  | VNum q => Some q
  | VBool true => Some 1%Q
  | VBool false => Some 0%Q
  | _ => None
  end.

(** [v == s] for a string literal [s]. *)
Definition is_str (v : value) (s : string) : bool :=
  match v with
  | VStr s' => String.eqb s' s
  | _ => false
  end.

(** Binary arithmetic where the source has a number on one side at least:
    any other operand raises [TypeError]. *)
Definition num_op {S : Type} (what : string) (f : Q -> Q -> Q) (a b : value)
  : M S value :=
  match as_num a, as_num b with
  | Some x, Some y => ret (VNum (f x y))
  | _, _ => raise (TypeError what)
  end.

Definition py_add {S : Type} : value -> value -> M S value := num_op "+" Qplus.
Definition py_sub {S : Type} : value -> value -> M S value := num_op "-" Qminus.
Definition py_mul {S : Type} : value -> value -> M S value := num_op "*" Qmult.

(** [a / b]: true division, which raises on a zero divisor. *)
Definition py_truediv {S : Type} (a b : value) : M S value :=
  match as_num a, as_num b with
  | Some x, Some y =>
      if Qeq_bool y 0 then raise ZeroDivisionError else ret (VNum (x / y))
  | _, _ => raise (TypeError "/")
  end.

(** [a < b] and [a > b] against a number. *)
Definition py_lt {S : Type} (a b : value) : M S bool :=
  match as_num a, as_num b with
  | Some x, Some y => ret (Qltb x y)
  | _, _ => raise (TypeError "<")
  end.

Definition py_gt {S : Type} (a b : value) : M S bool :=
  match as_num a, as_num b with
  | Some x, Some y => ret (Qltb y x)
  | _, _ => raise (TypeError ">")
  end.

(** [v.get(k, default)], a method only dictionaries have. *)
Definition py_get {S : Type} (v : value) (k : string) (default : value)
  : M S value :=
  match v with
  | VDict d => ret (PyDict.get_default k default d)
  | _ => raise (AttributeError "get")
  end.

(** [v[k]] for a string key. *)
Definition py_getitem {S : Type} (v : value) (k : string) : M S value :=
  match v with
  | VDict d =>
      match PyDict.get k d with
      | Some x => ret x
      | None => raise (KeyError k)
      end
  | _ => raise (TypeError "subscript")
  end.

(** [task[k]] on a task, which is a dictionary. *)
Definition task_item {S : Type} (task : list (string * value)) (k : string)
  : M S value :=
  match PyDict.get k task with
  | Some x => ret x
  | None => raise (KeyError k)
  end.

(** [len(v)] *)
Definition py_len {S : Type} (v : value) : M S nat :=
  match v with
  | VList l => ret (length l)
  | VDict d => ret (length d)
  | VStr s => ret (String.length s)
  | _ => raise (TypeError "len")
  end.

(** The entries of a value that must be a dictionary to be iterated with
    its keys and values. *)
Definition as_dict {S : Type} (v : value) : M S (list (string * value)) :=
  match v with
  | VDict d => ret d
  | _ => raise (TypeError "dict")
  end.

(** A [for] loop that threads an accumulator. *)
Fixpoint for_each {S A B : Type} (l : list A) (body : A -> B -> M S B) (acc : B)
  : M S B :=
  match l with
  | [] => ret acc
  | x :: l' => acc' <~ body x acc;; for_each l' body acc'
  end.

Definition of_nat (n : nat) : value := VNum (inject_Z (Z.of_nat n)).

(** ** Attributes, the clock and the log *)

(** [self.k], read. *)
Definition getattr (k : string) : M astate value :=
  fun s =>
    match PyDict.get k (self s) with
    | Some v => (Ok v, s)
    | None => (Raise (AttributeError k), s)
    end.

(** [self.k = v] *)
Definition setattr (k : string) (v : value) : M astate unit :=
  modify (fun s => AState (PyDict.set k v (self s)) (env s)).

Definition emit (n level msg : string) (w : world) : world :=
  World (ticks w) (logs w ++ [LogRecord n level msg]).

Definition tick (w : world) : world := World (S (ticks w)) (logs w).

(** ** A concrete runtime, to run the model on examples

    The clock advances by one second per reading; the formatting functions
    are simple stand-ins; assigning [__class__] is refused, as it is by the
    data descriptor of [object] for a value that is not a class. *)

Definition example_runtime : builtins :=
  Builtins
    (fun n => 1000000 * Z.of_nat n)%Z
    (fun t => "T+" +:+ pretty t)
    (fun q => pretty (Qnum q) +:+ "/" +:+ pretty (Zpos (Qden q)))
    (fun v => "<value>")
    ["__class__"; "__dict__"; "__doc__"; "__module__"]
    (fun k =>
       if String.eqb k "__class__"
       then Some (fun _ _ => Raise (TypeError "__class__ must be set to a class"))
       else None).

(** Handlers that refuse every call: the examples never reach one. *)
Definition no_handlers (name : string) (args : list value) : M astate value :=
  raise (RuntimeError name).

Definition empty_world : world := World 0 [].


Section Ecosystem.
Context (py : builtins).
(** The bodies of the task handlers this development leaves abstract: the
    private method of that name, applied to the arguments [execute] passes. *)
Context (handler : string -> list value -> M astate value).

(** [str(v)], as f-strings apply it. *)
Definition py_str (v : value) : string :=
  match v with
  | VStr s => s
  | VNone => "None"
  | VBool true => "True"
  | VBool false => "False"
  | _ => repr_value py v
  end.

(** [datetime.utcnow()] *)
Definition utcnow : M astate Z :=
  fun s => (Ok (clock py (ticks (env s))), AState (self s) (tick (env s))).

(** [(now - since).total_seconds()] *)
Definition total_seconds_since (now : Z) (since : value) : M astate value :=
  match since with
  | VTime t0 => ret (VNum ((now - t0) # 1000000))
  | _ => raise (TypeError "-")
  end.

(** [v.isoformat()] *)
Definition py_isoformat (v : value) : M astate value :=
  match v with
  | VTime t => ret (VStr (isoformat py t))
  | _ => raise (AttributeError "isoformat")
  end.

(** [self.logger.<level>(msg)]: the logger is looked up, then the message
    is built, then the line is written. *)
Definition logger_call (level : string) (msg : M astate string)
  : M astate unit :=
  l <~ getattr "logger";;
  match l with
  | VLogger n =>
      m <~ msg;;
      modify (fun s => AState (self s) (emit n level m (env s)))
  | _ => raise (AttributeError level)
  end.

(** *** [BaseAgent] *)

Definition BaseAgent_init (name : string) (config : value) : M astate unit :=
  setattr "name" (VStr name);;;
  setattr "config" config;;;
  t1 <~ utcnow;;
  setattr "created_at" (VTime t1);;;
  t2 <~ utcnow;;
  setattr "last_active" (VTime t2);;;
  setattr "status" (VStr "initialized");;;
  setattr "logger" (VLogger ("agent." +:+ name));;;
  setattr "metrics" (VList []).

Definition BaseAgent_monitor : M astate value :=
  n <~ getattr "name";;
  st <~ getattr "status";;
  la <~ getattr "last_active";;
  la_s <~ py_isoformat la;;
  now <~ utcnow;;
  c <~ getattr "created_at";;
  up <~ total_seconds_since now c;;
  ret (VDict [("name", n); ("status", st); ("last_active", la_s);
              ("uptime", up); ("metrics", VDict [])]).

Definition record_metric (name : string) (v : value) : M astate unit :=
  now <~ utcnow;;
  let metric := VDict [("name", VStr name); ("value", v);
                       ("timestamp", VStr (isoformat py now))] in
  ms <~ getattr "metrics";;
  match ms with
  | VList l => setattr "metrics" (VList (l ++ [metric]))
  | _ => raise (AttributeError "append")
  end;;;
  logger_call "debug"
    (ret ("Recorded metric: " +:+ name +:+ "=" +:+ py_str v)).


(** [snapshot["metrics"][k] = section], on the dictionary the base
    [monitor] returned. *)
Definition add_section (snapshot : value) (k : string) (section : value)
  : M astate value :=
  inner <~ py_getitem snapshot "metrics";;
  match snapshot, inner with
  | VDict d, VDict m =>
      ret (VDict (PyDict.set "metrics" (VDict (PyDict.set k section m)) d))
  | _, _ => raise (TypeError "item assignment")
  end.

(** The names a subclass of [BaseAgent] finds on its bases. *)
Definition BaseAgent_members : list string :=
  ["__init__"; "initialize"; "execute"; "monitor"; "record_metric";
   "report_metrics"; "collaborate"; "receive_message"; "optimize";
   "__str__"] ++ object_attrs py.

(** [task[k1], task[k2], ...], evaluated from left to right. *)
Fixpoint task_items (task : list (string * value)) (ks : list string)
  : M astate (list value) :=
  match ks with
  | [] => ret []
  | k :: ks' =>
      v <~ task_item task k;;
      vs <~ task_items task ks';;
      ret (v :: vs)
  end.

(** *** [ROIOptimizationAgent] *)

Definition ROIOptimizationAgent_init (name : string) (config : value)
  : M astate unit :=
  let config := match config with VNone => VDict [] | _ => config end in
  BaseAgent_init name config;;;
  target_roi <~ py_get config "target_roi" (VNum (15 # 100));;
  setattr "target_roi" target_roi;;;
  setattr "metrics" (VList []).

Definition ROIOptimizationAgent_initialize : M astate bool :=
  logger_call "info"
    (n <~ getattr "name";;
     ret ("Initializing ROI optimization agent: " +:+ py_str n));;;
  ret true.

Definition ROIOptimizationAgent__optimize_roi (data : value)
  : M astate value :=
  current_revenue <~ py_get data "current_revenue" (VNum 0);;
  current_costs <~ py_get data "current_costs" (VNum 0);;
  own_target <~ getattr "target_roi";;
  target_roi <~ py_get data "target_roi" own_target;;
  positive <~ py_gt current_costs (VNum 0);;
  current_roi <~
    (if positive
     then (profit <~ py_sub current_revenue current_costs;;
           py_truediv profit current_costs)
     else ret (VNum 0));;
  below <~ py_lt current_roi target_roi;;
  recommendations <~
    (if below
     then (a <~ py_add target_roi (VNum 1);;
           b <~ py_mul a current_costs;;
           revenue_gap <~ py_sub b current_revenue;;
           match revenue_gap with
           | VNum gap =>
               ret [VStr ("Increase revenue by $" +:+ format_2f py gap
                          +:+ " to reach target ROI");
                    VStr "Explore new revenue streams or optimize pricing";
                    VStr "Review and optimize marketing spend"]
           | _ => raise (TypeError "format")
           end)
     else ret []);;
  record_metric "current_roi" current_roi;;;
  record_metric "target_roi" target_roi;;;
  ret (VDict [("current_roi", current_roi); ("target_roi", target_roi);
              ("revenue", current_revenue); ("costs", current_costs);
              ("recommendations", VList recommendations);
              ("status", VStr "success")]).

Definition ROIOptimizationAgent_execute (task : list (string * value))
  : M astate value :=
  let task_type := PyDict.get_default "type" VNone task in
  let data := PyDict.get_default "data" (VDict []) task in
  if is_str task_type "optimize_roi"
  then ROIOptimizationAgent__optimize_roi data
  else raise (ValueError ("Unknown task type: " +:+ py_str task_type)).

Definition ROIOptimizationAgent_monitor : M astate value :=
  metrics <~ BaseAgent_monitor;;
  target_roi <~ getattr "target_roi";;
  ms <~ getattr "metrics";;
  n <~ py_len ms;;
  add_section metrics "roi_tracking"
    (VDict [("target_roi", target_roi); ("optimization_count", of_nat n)]).

Definition ROIOptimizationAgent : pyclass :=
  PyClass "ROIOptimizationAgent"
    (["_optimize_roi"] ++ BaseAgent_members)
    ROIOptimizationAgent_init ROIOptimizationAgent_initialize.

(** *** [MarketplaceManagerAgent] *)

Definition MarketplaceManagerAgent_init (name : string) (config : value)
  : M astate unit :=
  let config := match config with VNone => VDict [] | _ => config end in
  BaseAgent_init name config;;;
  commission_rate <~ py_get config "commission_rate" (VNum (10 # 100));;
  setattr "commission_rate" commission_rate;;;
  setattr "metrics" (VList []).

Definition MarketplaceManagerAgent_initialize : M astate bool :=
  logger_call "info"
    (n <~ getattr "name";;
     ret ("Initializing marketplace manager agent: " +:+ py_str n));;;
  ret true.

Definition MarketplaceManagerAgent_execute (task : list (string * value))
  : M astate value :=
  let task_type := PyDict.get_default "type" VNone task in
  let data := PyDict.get_default "data" (VDict []) task in
  if is_str task_type "analyze_marketplace"
  then handler "MarketplaceManagerAgent._analyze_marketplace" [data]
  else if is_str task_type "get_marketplace_stats"
  then handler "MarketplaceManagerAgent._get_marketplace_stats" []
  else raise (ValueError ("Unknown task type: " +:+ py_str task_type)).

Definition MarketplaceManagerAgent_monitor : M astate value :=
  metrics <~ BaseAgent_monitor;;
  commission_rate <~ getattr "commission_rate";;
  ms <~ getattr "metrics";;
  n <~ py_len ms;;
  add_section metrics "marketplace"
    (VDict [("commission_rate", commission_rate);
            ("transaction_count", of_nat n)]).

Definition MarketplaceManagerAgent : pyclass :=
  PyClass "MarketplaceManagerAgent"
    (["_analyze_marketplace"; "_get_marketplace_stats"] ++ BaseAgent_members)
    MarketplaceManagerAgent_init MarketplaceManagerAgent_initialize.

(** *** [AnalyticsAgent] *)

Definition AnalyticsAgent_init (name : string) (config : value)
  : M astate unit :=
  let config := match config with VNone => VDict [] | _ => config end in
  BaseAgent_init name config;;;
  metrics_window <~ py_get config "metrics_window" (VStr "24h");;
  setattr "metrics_window" metrics_window;;;
  setattr "metrics_data" (VDict []).

Definition AnalyticsAgent_initialize : M astate bool :=
  logger_call "info"
    (n <~ getattr "name";;
     ret ("Initializing analytics agent: " +:+ py_str n));;;
  ret true.

Definition AnalyticsAgent_execute (task : list (string * value))
  : M astate value :=
  let task_type := PyDict.get_default "type" VNone task in
  let data := PyDict.get_default "data" (VDict []) task in
  if is_str task_type "generate_report"
  then handler "AnalyticsAgent._generate_report" [data]
  else if is_str task_type "analyze_data"
  then handler "AnalyticsAgent._analyze_data" [data]
  else raise (ValueError ("Unknown task type: " +:+ py_str task_type)).

Definition AnalyticsAgent_monitor : M astate value :=
  metrics <~ BaseAgent_monitor;;
  metrics_window <~ getattr "metrics_window";;
  md <~ getattr "metrics_data";;
  n <~ py_len md;;
  now <~ utcnow;;
  add_section metrics "analytics"
    (VDict [("metrics_window", metrics_window); ("metrics_count", of_nat n);
            ("last_report", VStr (isoformat py now))]).

Definition AnalyticsAgent : pyclass :=
  PyClass "AnalyticsAgent"
    (["_generate_report"; "_analyze_data"; "_analyze_revenue";
      "_analyze_user_growth"; "_analyze_agent_performance"]
     ++ BaseAgent_members)
    AnalyticsAgent_init AnalyticsAgent_initialize.

(** *** [UserOnboardingAgent] *)

Definition strs (l : list string) : value := VList (map VStr l).

Definition default_onboarding_flows : value :=
  VDict
    [("default",
      VDict [("steps", strs ["welcome"; "feature_overview"; "first_agent";
                             "marketplace_intro"; "support_resources"]);
             ("completion_reward", VStr "premium_trial")]);
     ("developer",
      VDict [("steps", strs ["welcome"; "api_overview"; "sdk_setup";
                             "first_integration"; "documentation"]);
             ("completion_reward", VStr "api_credits")]);
     ("enterprise",
      VDict [("steps", strs ["welcome"; "enterprise_features"; "team_setup";
                             "security_overview"; "support_channels"]);
             ("completion_reward", VStr "consultation")])].

Definition UserOnboardingAgent_initialize : M astate bool :=
  setattr "onboarding_flows" default_onboarding_flows;;;
  setattr "user_progress" (VDict []);;;
  setattr "conversion_metrics" (VDict []);;;
  ret true.

(** The users of [progress] whose ["flow_type"] is [flow_type]. *)
Definition users_of_flow (flow_type : string) (progress : list (string * value))
  : M astate (list value) :=
  for_each (map snd progress)
    (fun u acc =>
       ft <~ py_getitem u "flow_type";;
       ret (if is_str ft flow_type then acc ++ [u] else acc))
    [].

Definition UserOnboardingAgent__calculate_completion_rates
  : M astate value :=
  flows_v <~ getattr "onboarding_flows";;
  flows <~ as_dict flows_v;;
  rates <~
    for_each flows
      (fun '(flow_type, flow) completion_rates =>
         progress_v <~ getattr "user_progress";;
         progress <~ as_dict progress_v;;
         users <~ users_of_flow flow_type progress;;
         match users with
         | [] => ret (PyDict.set flow_type (VNum 0) completion_rates)
         | _ :: _ =>
             completed <~
               for_each users
                 (fun u n =>
                    done_steps <~ py_getitem u "completed_steps";;
                    k <~ py_len done_steps;;
                    steps <~ py_getitem flow "steps";;
                    m <~ py_len steps;;
                    ret (if Nat.eqb k m then S n else n))
                 0%nat;;
             ret (PyDict.set flow_type
                    (VNum (Z.of_nat completed # Pos.of_nat (length users)))
                    completion_rates)
         end)
      [];;
  ret (VDict rates).

Definition UserOnboardingAgent__gather_conversion_metrics
  : M astate value :=
  flows_v <~ getattr "onboarding_flows";;
  flows <~ as_dict flows_v;;
  metrics <~
    for_each flows
      (fun '(flow_type, _) metrics =>
         cm_v <~ getattr "conversion_metrics";;
         cm <~ as_dict cm_v;;
         match PyDict.get flow_type cm with
         | Some entry =>
             rate <~ py_get entry "rate" (VNum 0);;
             avg_time <~ py_get entry "avg_time" (VNum 0);;
             drop_offs <~ py_get entry "drop_offs" (VDict []);;
             ret (PyDict.set flow_type
                    (VDict [("conversion_rate", rate);
                            ("average_time", avg_time);
                            ("drop_off_points", drop_offs)])
                    metrics)
         | None => ret metrics
         end)
      [];;
  ret (VDict metrics).

Definition UserOnboardingAgent_monitor : M astate value :=
  completion_rates <~ UserOnboardingAgent__calculate_completion_rates;;
  conversion_metrics <~ UserOnboardingAgent__gather_conversion_metrics;;
  progress <~ getattr "user_progress";;
  active_users <~ py_len progress;;
  now <~ utcnow;;
  ret (VDict [("completion_rates", completion_rates);
              ("conversion_metrics", conversion_metrics);
              ("active_users", of_nat active_users);
              ("last_check", VStr (isoformat py now))]).

Definition unknown_task_envelope : value :=
  VDict [("status", VStr "error"); ("message", VStr "Unknown task type")].

Definition UserOnboardingAgent_execute (task : list (string * value))
  : M astate value :=
  t1 <~ task_item task "type";;
  if is_str t1 "start_onboarding"
  then (user_id <~ task_item task "user_id";;
        handler "UserOnboardingAgent._start_onboarding"
          [user_id; PyDict.get_default "flow_type" (VStr "default") task])
  else
    t2 <~ task_item task "type";;
    if is_str t2 "track_progress"
    then (args <~ task_items task ["user_id"; "step"];;
          handler "UserOnboardingAgent._track_progress" args)
    else
      t3 <~ task_item task "type";;
      if is_str t3 "optimize_flow"
      then (args <~ task_items task ["flow_type"];;
            handler "UserOnboardingAgent._optimize_flow" args)
      else ret unknown_task_envelope.

Definition UserOnboardingAgent : pyclass :=
  PyClass "UserOnboardingAgent"
    (["_start_onboarding"; "_track_progress"; "_optimize_flow";
      "_calculate_completion_rates"; "_gather_conversion_metrics";
      "_prepare_step"; "_complete_onboarding"; "_analyze_flow_metrics";
      "_generate_flow_optimizations"; "_apply_flow_optimizations";
      "_calculate_average_completion_time"; "_generate_step_content";
      "_get_step_actions"; "_grant_reward"; "_generate_next_steps";
      "_optimize_step"] ++ BaseAgent_members)
    BaseAgent_init UserOnboardingAgent_initialize.

(** *** The seven other agents: the dispatch of [execute]

    Each tests [task["type"]] against three literals in turn, passes the
    fields the handler needs, and falls through to the error envelope. *)

Definition dispatch3 (task : list (string * value))
    (n1 : string) (h1 : string) (a1 : list string)
    (n2 : string) (h2 : string) (a2 : list string)
    (n3 : string) (h3 : string) (a3 : list string) : M astate value :=
  t1 <~ task_item task "type";;
  if is_str t1 n1
  then (args <~ task_items task a1;; handler h1 args)
  else
    t2 <~ task_item task "type";;
    if is_str t2 n2
    then (args <~ task_items task a2;; handler h2 args)
    else
      t3 <~ task_item task "type";;
      if is_str t3 n3
      then (args <~ task_items task a3;; handler h3 args)
      else ret unknown_task_envelope.

Definition LaunchStrategistAgent_execute (task : list (string * value))
  : M astate value :=
  dispatch3 task
    "phase_transition" "LaunchStrategistAgent._transition_phase"
      ["target_phase"]
    "execute_task" "LaunchStrategistAgent._execute_launch_task"
      ["task_name"]
    "update_strategy" "LaunchStrategistAgent._update_strategy"
      ["updates"].

Definition InfluencerOutreachAgent_execute (task : list (string * value))
  : M astate value :=
  dispatch3 task
    "identify_influencers" "InfluencerOutreachAgent._identify_influencers"
      ["criteria"; "count"]
    "create_campaign" "InfluencerOutreachAgent._create_campaign"
      ["campaign_details"]
    "track_performance" "InfluencerOutreachAgent._track_campaign_performance"
      ["campaign_id"].

Definition DataPrivacyAgent_execute (task : list (string * value))
  : M astate value :=
  dispatch3 task
    "privacy_check" "DataPrivacyAgent._check_privacy_compliance"
      ["data_type"; "operation"]
    "handle_request" "DataPrivacyAgent._handle_privacy_request"
      ["request_type"; "user_id"; "parameters"]
    "audit_access" "DataPrivacyAgent._audit_data_access"
      ["resource"; "access_type"; "user_id"].

Definition RevenueOptimizerAgent_execute (task : list (string * value))
  : M astate value :=
  dispatch3 task
    "optimize_pricing" "RevenueOptimizerAgent._optimize_pricing"
      ["stream"; "parameters"]
    "analyze_revenue" "RevenueOptimizerAgent._analyze_revenue"
      ["timeframe"]
    "implement_strategy" "RevenueOptimizerAgent._implement_revenue_strategy"
      ["strategy"].

Definition CommunityEngagementAgent_execute (task : list (string * value))
  : M astate value :=
  dispatch3 task
    "respond_to_user" "CommunityEngagementAgent._respond_to_user"
      ["platform"; "user_id"; "message"]
    "monitor_sentiment" "CommunityEngagementAgent._monitor_sentiment"
      ["platform"; "timeframe"]
    "create_event" "CommunityEngagementAgent._create_community_event"
      ["event_details"].

Definition ContentCreatorAgent_execute (task : list (string * value))
  : M astate value :=
  dispatch3 task
    "create_content" "ContentCreatorAgent._create_content"
      ["content_type"; "parameters"]
    "optimize_content" "ContentCreatorAgent._optimize_content"
      ["content_id"; "optimization_type"]
    "schedule_content" "ContentCreatorAgent._schedule_content"
      ["content_id"; "schedule_time"].

Definition FeedbackManagerAgent_execute (task : list (string * value))
  : M astate value :=
  dispatch3 task
    "collect_feedback" "FeedbackManagerAgent._collect_feedback"
      ["user_id"; "feedback_type"; "content"]
    "analyze_feedback" "FeedbackManagerAgent._analyze_feedback"
      ["timeframe"]
    "generate_report" "FeedbackManagerAgent._generate_feedback_report"
      ["report_type"; "parameters"].

(** *** The concrete variants *)

Inductive variant : Type :=
| ROIOptimization | MarketplaceManager | Analytics
| UserOnboarding | LaunchStrategist | InfluencerOutreach | DataPrivacy
| RevenueOptimizer | CommunityEngagement | ContentCreator | FeedbackManager.

(** [agent.execute(task)], by the class of the agent. *)
Definition execute (v : variant) : list (string * value) -> M astate value :=
  match v with
  | ROIOptimization => ROIOptimizationAgent_execute
  | MarketplaceManager => MarketplaceManagerAgent_execute
  | Analytics => AnalyticsAgent_execute
  | UserOnboarding => UserOnboardingAgent_execute
  | LaunchStrategist => LaunchStrategistAgent_execute
  | InfluencerOutreach => InfluencerOutreachAgent_execute
  | DataPrivacy => DataPrivacyAgent_execute
  | RevenueOptimizer => RevenueOptimizerAgent_execute
  | CommunityEngagement => CommunityEngagementAgent_execute
  | ContentCreator => ContentCreatorAgent_execute
  | FeedbackManager => FeedbackManagerAgent_execute
  end.

(** The task types the [execute] of a variant has a branch for. *)
Definition task_types (v : variant) : list string :=
  match v with
  | ROIOptimization => ["optimize_roi"]
  | MarketplaceManager => ["analyze_marketplace"; "get_marketplace_stats"]
  | Analytics => ["generate_report"; "analyze_data"]
  | UserOnboarding => ["start_onboarding"; "track_progress"; "optimize_flow"]
  | LaunchStrategist => ["phase_transition"; "execute_task"; "update_strategy"]
  | InfluencerOutreach =>
      ["identify_influencers"; "create_campaign"; "track_performance"]
  | DataPrivacy => ["privacy_check"; "handle_request"; "audit_access"]
  | RevenueOptimizer =>
      ["optimize_pricing"; "analyze_revenue"; "implement_strategy"]
  | CommunityEngagement =>
      ["respond_to_user"; "monitor_sentiment"; "create_event"]
  | ContentCreator =>
      ["create_content"; "optimize_content"; "schedule_content"]
  | FeedbackManager =>
      ["collect_feedback"; "analyze_feedback"; "generate_report"]
  end.

(** *** The seven other agents: [monitor]

    Each builds its own dictionary from helper methods, which are left
    abstract, and from its own attributes; none calls the base [monitor]. *)

Definition now_iso : M astate value :=
  now <~ utcnow;; ret (VStr (isoformat py now)).

Definition len_attr (k : string) : M astate value :=
  v <~ getattr k;; n <~ py_len v;; ret (of_nat n).

Definition LaunchStrategistAgent_monitor : M astate value :=
  metrics <~ handler "LaunchStrategistAgent._gather_launch_metrics" [];;
  status <~ handler "LaunchStrategistAgent._analyze_launch_progress" [];;
  current_phase <~ getattr "current_phase";;
  phases <~ getattr "launch_phases";;
  phase <~ match current_phase with
           | VStr p => py_getitem phases p
           | _ => raise (KeyError (py_str current_phase))
           end;;
  phase_status <~ py_getitem phase "status";;
  ret (VDict [("current_phase", current_phase);
              ("phase_status", phase_status);
              ("metrics", metrics); ("status", status)]).

Definition InfluencerOutreachAgent_monitor : M astate value :=
  campaign_status <~
    handler "InfluencerOutreachAgent._check_campaign_status" [];;
  roi_metrics <~ handler "InfluencerOutreachAgent._calculate_roi_metrics" [];;
  active <~ len_attr "active_campaigns";;
  last_check <~ now_iso;;
  ret (VDict [("active_campaigns", active);
              ("campaign_status", campaign_status);
              ("roi_metrics", roi_metrics); ("last_check", last_check)]).

Definition DataPrivacyAgent_monitor : M astate value :=
  compliance_status <~
    handler "DataPrivacyAgent._check_compliance_status" [];;
  privacy_metrics <~ handler "DataPrivacyAgent._gather_privacy_metrics" [];;
  last_audit <~ handler "DataPrivacyAgent._get_last_audit_time" [];;
  last_check <~ now_iso;;
  ret (VDict [("compliance_status", compliance_status);
              ("privacy_metrics", privacy_metrics);
              ("last_audit", last_audit); ("last_check", last_check)]).

Definition RevenueOptimizerAgent_monitor : M astate value :=
  current_metrics <~
    handler "RevenueOptimizerAgent._gather_revenue_metrics" [];;
  performance <~
    handler "RevenueOptimizerAgent._analyze_performance" [current_metrics];;
  last_check <~ now_iso;;
  ret (VDict [("current_metrics", current_metrics);
              ("performance", performance); ("last_check", last_check)]).

Definition CommunityEngagementAgent_monitor : M astate value :=
  platform_health <~
    handler "CommunityEngagementAgent._check_platform_health" [];;
  engagement_stats <~
    handler "CommunityEngagementAgent._gather_engagement_stats" [];;
  queue_size <~ len_attr "engagement_queue";;
  last_check <~ now_iso;;
  ret (VDict [("platform_health", platform_health);
              ("engagement_stats", engagement_stats);
              ("queue_size", queue_size); ("last_check", last_check)]).

Definition ContentCreatorAgent_monitor : M astate value :=
  metrics <~ handler "ContentCreatorAgent._gather_content_metrics" [];;
  pipeline_status <~ handler "ContentCreatorAgent._check_content_pipeline" [];;
  last_check <~ now_iso;;
  ret (VDict [("content_metrics", metrics);
              ("pipeline_status", pipeline_status);
              ("last_check", last_check)]).

Definition FeedbackManagerAgent_monitor : M astate value :=
  trends <~ handler "FeedbackManagerAgent._analyze_feedback_trends" [];;
  sentiment <~ handler "FeedbackManagerAgent._calculate_sentiment_metrics" [];;
  active <~ len_attr "feedback_database";;
  last_check <~ now_iso;;
  ret (VDict [("trends", trends); ("sentiment", sentiment);
              ("active_feedback_count", active);
              ("last_check", last_check)]).

(** [agent.monitor()], by the class of the agent. *)
Definition monitor (v : variant) : M astate value :=
  match v with
  | ROIOptimization => ROIOptimizationAgent_monitor
  | MarketplaceManager => MarketplaceManagerAgent_monitor
  | Analytics => AnalyticsAgent_monitor
  | UserOnboarding => UserOnboardingAgent_monitor
  | LaunchStrategist => LaunchStrategistAgent_monitor
  | InfluencerOutreach => InfluencerOutreachAgent_monitor
  | DataPrivacy => DataPrivacyAgent_monitor
  | RevenueOptimizer => RevenueOptimizerAgent_monitor
  | CommunityEngagement => CommunityEngagementAgent_monitor
  | ContentCreator => ContentCreatorAgent_monitor
  | FeedbackManager => FeedbackManagerAgent_monitor
  end.

(** The variants whose [monitor] starts from [super().monitor()]. *)
Definition extends_base_monitor (v : variant) : bool :=
  match v with
  | ROIOptimization | MarketplaceManager | Analytics => true
  | _ => false
  end.

(** ** [AgentFactory] *)

Definition with_env (f : fstate) (w : world) : fstate :=
  FState (registered_agents f) (logger f) (journal f) w.

(** [self.logger.info(msg)] *)
Definition factory_info (msg : string) : M fstate unit :=
  modify (fun f => with_env f (emit (logger f) "info" msg (fenv f))).

(** The factory notes a call it is about to make or has just made. *)
Definition note (e : call_event) : M fstate unit :=
  modify (fun f =>
            FState (registered_agents f) (logger f) (journal f ++ [e])
              (fenv f)).

(** A method of an agent, run from the factory on the object [o]: the
    world moves on in either case; the object is given back when the
    method returns. *)
Definition run_on {A : Type} (o : list (string * value)) (m : M astate A)
  : M fstate (A * list (string * value)) :=
  fun f =>
    match m (AState o (fenv f)) with
    | (Ok a, s) => (Ok (a, self s), with_env f (env s))
    | (Raise e, s) => (Raise e, with_env f (env s))
    end.

Definition register_agent (agent_type : string) (agent_class : pyclass)
  : M fstate unit :=
  modify (fun f =>
            FState (PyDict.set agent_type agent_class (registered_agents f))
              (logger f) (journal f) (fenv f));;;
  factory_info ("Registered new agent type: " +:+ agent_type).

Definition AgentFactory_init : M fstate unit :=
  modify (fun f => FState [] "agent.factory" (journal f) (fenv f));;;
  register_agent "roi_optimization" ROIOptimizationAgent;;;
  register_agent "marketplace_manager" MarketplaceManagerAgent;;;
  register_agent "analytics" AnalyticsAgent.

(** [AgentFactory()] in the world [w]. *)
Definition AgentFactory (w : world) : fstate :=
  snd (AgentFactory_init (FState [] "" [] w)).

(** [agent_class(name=name, config=config)] *)
Definition construct (agent_class : pyclass) (name : string) (config : value)
  : M fstate (list (string * value)) :=
  note (Constructed agent_class name config);;;
  r <~ run_on [] (cls_init agent_class name config);;
  ret (snd r).

(** [await agent.initialize()] *)
Definition call_initialize (agent_class : pyclass) (name : string)
    (o : list (string * value)) : M fstate (bool * list (string * value)) :=
  fun f =>
    match run_on o (cls_initialize agent_class) f with
    | (Ok r, f') =>
        (note (Initialized agent_class name (Ok (fst r)));;; ret r) f'
    | (Raise e, f') =>
        (note (Initialized agent_class name (Raise e));;; raise e) f'
    end.

Definition create_agent (agent_type name : string) (config : value)
  : M fstate agent :=
  registered <~ gets registered_agents;;
  match PyDict.get agent_type registered with
  | None => raise (ValueError ("Unknown agent type: " +:+ agent_type))
  | Some agent_class =>
      o <~ construct agent_class name config;;
      r <~ call_initialize agent_class name o;;
      let '(success, o') := r in
      if negb success
      then raise (RuntimeError ("Failed to initialize agent: " +:+ name))
      else
        factory_info ("Created new agent: " +:+ name +:+ " of type "
                      +:+ agent_type);;;
        ret (Agent agent_class o')
  end.

Definition get_available_agent_types : M fstate (list string) :=
  gets (fun f => PyDict.keys (registered_agents f)).





(** ** What the statements below speak about *)

(** How many times the factory has called [initialize]. *)
Definition initialize_calls (j : list call_event) : nat :=
  length (List.filter (fun e => match e with
                                | Initialized _ _ _ => true
                                | Constructed _ _ _ => false
                                end) j).

(** An object carries what [BaseAgent.__init__] gives it, with the types
    the base methods rely on. *)
Definition base_ready (o : list (string * value)) : Prop :=
  (exists n, PyDict.get "name" o = Some n) /\
  (exists s, PyDict.get "status" o = Some s) /\
  (exists t, PyDict.get "last_active" o = Some (VTime t)) /\
  (exists t, PyDict.get "created_at" o = Some (VTime t)) /\
  (exists l, PyDict.get "metrics" o = Some (VList l)) /\
  (exists n, PyDict.get "logger" o = Some (VLogger n)).

(** The attribute a variant reads in [monitor] besides the base ones, and
    which must have a length. *)
Definition monitor_attrs (v : variant) (o : list (string * value)) : Prop :=
  match v with
  | ROIOptimization => exists x, PyDict.get "target_roi" o = Some x
  | MarketplaceManager => exists x, PyDict.get "commission_rate" o = Some x
  | Analytics =>
      (exists x, PyDict.get "metrics_window" o = Some x) /\
      (exists d, PyDict.get "metrics_data" o = Some (VDict d))
  | _ => True
  end.

(** The outcome of [execute] is a failure of the dispatch: the exception
    [ValueError("Unknown task type: ...")], or the returned envelope with
    status ["error"] and message ["Unknown task type"]. *)
Definition dispatch_failure (ty : value) (r : result value) : Prop :=
  r = Raise (ValueError ("Unknown task type: " +:+ py_str ty)) \/
  r = Ok unknown_task_envelope.

(** A returned value is a success envelope. *)
Definition success_envelope (r : result value) : Prop :=
  exists d, r = Ok (VDict d) /\ PyDict.get "status" d = Some (VStr "success").

(** The record [record_metric] builds when the clock has been read
    [n] times. *)
Definition metric_record (name : string) (v : value) (n : nat) : value :=
  VDict [("name", VStr name); ("value", v);
         ("timestamp", VStr (isoformat py (clock py n)))].



(** The variants whose [execute] raises on an unknown task type; the others
    return the error envelope. *)
Definition raises_on_unknown_type (v : variant) : bool :=
  match v with
  | ROIOptimization | MarketplaceManager | Analytics => true
  | _ => false
  end.

(** A snapshot carries the common fields, taken from the object [o], and an
    uptime [u] that is not negative. *)
Definition common_fields (o snapshot : list (string * value)) (u : Q) : Prop :=
  (exists n, PyDict.get "name" o = Some n /\
             PyDict.get "name" snapshot = Some n) /\
  (exists s, PyDict.get "status" o = Some s /\
             PyDict.get "status" snapshot = Some s) /\
  (exists m, PyDict.get "metrics" snapshot = Some (VDict m)) /\
  PyDict.get "uptime" snapshot = Some (VNum u) /\
  (0 <= u)%Q.

(** The tag under which a fresh factory registers the class of a variant. *)
Definition default_tag (v : variant) : option string :=
  match v with
  | ROIOptimization => Some "roi_optimization"
  | MarketplaceManager => Some "marketplace_manager"
  | Analytics => Some "analytics"
  | _ => None
  end.

(** ** Further notions for the statements about the rest of the code *)

(** A computation leaves the state as it found it, whether it returns or
    raises. *)
Definition leaves_state {S A : Type} (m : M S A) : Prop :=
  forall s, snd (m s) = s.

(** ** The rest of the runtime

    [format_1f] is [format(x, ".1f")].  [foreign op operands] is what the
    runtime does for an operation on operands of a kind that the code under
    study never builds itself and that the operations below do not
    describe: repeating a sequence with [*], comparing two strings, indexing
    past the end of a list.  [fromisoformat] is
    [datetime.fromisoformat]. *)
Record runtime_ext : Type := RuntimeExt {
  format_1f : Q -> string;
  foreign : string -> list value -> result value;
  fromisoformat : string -> result Z
}.

Context (rt : runtime_ext).

(** The outcome of an operation of the runtime, which touches no state. *)
Definition from_runtime {S A : Type} (r : result A) : M S A := fun s => (r, s).

(** Truth of a value in a condition. *)
Definition py_truthy (v : value) : bool :=
  match v with
  | VNone => false
  | VBool b => b
  | VNum q => negb (Qeq_bool q 0)
  | VStr s => negb (String.eqb s "")
  | VTime _ => true
  | VLogger _ => true
  | VList l => match l with [] => false | _ :: _ => true end
  | VDict d => match d with [] => false | _ :: _ => true end
  end.

(** [needle in container] for a string [needle]: an element of a list, a
    substring of a string, a key of a dictionary. *)
Definition py_contains {S : Type} (needle : string) (container : value)
  : M S bool :=
  match container with
  | VList l => ret (existsb (fun x => is_str x needle) l)
  | VStr s =>
      ret (match String.index 0 needle s with Some _ => true | None => false end)
  | VDict d => ret (PyDict.mem needle d)
  | _ => raise (TypeError "in")
  end.

(** Arithmetic and comparison where both operands come from the caller:
    numbers are computed with, anything else is left to the runtime. *)
Definition py_times {S : Type} (a b : value) : M S value :=
  match as_num a, as_num b with
  | Some x, Some y => ret (VNum (x * y))
  | _, _ => from_runtime (foreign rt "*" [a; b])
  end.

Definition py_minus {S : Type} (a b : value) : M S value :=
  match as_num a, as_num b with
  | Some x, Some y => ret (VNum (x - y))
  | _, _ => from_runtime (foreign rt "-" [a; b])
  end.

Definition py_over {S : Type} (a b : value) : M S value :=
  match as_num a, as_num b with
  | Some x, Some y =>
      if Qeq_bool y 0 then raise ZeroDivisionError else ret (VNum (x / y))
  | _, _ => from_runtime (foreign rt "/" [a; b])
  end.

Definition py_less {S : Type} (a b : value) : M S bool :=
  match as_num a, as_num b with
  | Some x, Some y => ret (Qltb x y)
  | _, _ => r <~ from_runtime (foreign rt "<" [a; b]);; ret (py_truthy r)
  end.

(** [f"{v:.1f}"] *)
Definition py_format_1f {S : Type} (v : value) : M S string :=
  match as_num v with
  | Some q => ret (format_1f rt q)
  | None => r <~ from_runtime (foreign rt "format .1f" [v]);; ret (py_str r)
  end.

(** [container[key] = v] for a string key. *)
Definition py_setitem {S : Type} (container : value) (key : string) (v : value)
  : M S value :=
  match container with
  | VDict d => ret (VDict (PyDict.set key v d))
  | _ => raise (TypeError "item assignment")
  end.

(** [container[key]] where the key is itself a value. *)
Definition py_getitem_value {S : Type} (container key : value) : M S value :=
  match container with
  | VDict d =>
      match key with
      | VStr k => py_getitem container k
      | VList _ | VDict _ => raise (TypeError "unhashable")
      | _ => raise (KeyError (py_str key))
      end
  | VList _ | VStr _ => from_runtime (foreign rt "[]" [container; key])
  | _ => raise (TypeError "subscript")
  end.

(** The position of the first element of [l] equal to the string [x]. *)
Fixpoint index_of (x : string) (l : list value) : option nat :=
  match l with
  | [] => None
  | y :: l' =>
      if is_str y x then Some 0%nat
      else match index_of x l' with Some i => Some (S i) | None => None end
  end.

(** [steps.index(x)], [steps[i]] and [steps[0]] on a list; another kind of
    container is left to the runtime. *)
Definition py_index {S : Type} (steps : value) (x : string) : M S nat :=
  match steps with
  | VList l =>
      match index_of x l with
      | Some i => ret i
      | None => raise (ValueError ("'" +:+ x +:+ "' is not in list"))
      end
  | _ =>
      r <~ from_runtime (foreign rt "index" [steps; VStr x]);;
      match r with
      | VNum q => ret (Z.to_nat (Qnum q))
      | _ => raise (TypeError "index")
      end
  end.

Definition py_item_at {S : Type} (steps : value) (i : nat) : M S value :=
  match steps with
  | VList l =>
      match nth_error l i with
      | Some x => ret x
      | None => from_runtime (foreign rt "[]" [steps; of_nat i])
      end
  | _ => from_runtime (foreign rt "[]" [steps; of_nat i])
  end.

(** [o.k], read on another object. *)
Definition attr_of {S : Type} (o : list (string * value)) (k : string)
  : M S value :=
  match PyDict.get k o with
  | Some v => ret v
  | None => raise (AttributeError k)
  end.

(** *** [BaseAgent]: messages between agents, [optimize], [__str__] *)

Definition BaseAgent_receive_message (sender : list (string * value))
    (message : value) : M astate value :=
  logger_call "info"
    (n <~ attr_of sender "name";;
     ret ("Received message from " +:+ py_str n));;;
  from <~ attr_of sender "name";;
  now <~ utcnow;;
  ret (VDict [("status", VStr "received"); ("from", from);
              ("timestamp", VTime now)]).

(** [target_agent.receive_message(self, message)] runs with the target as
    its [self] and this agent as the sender.  No class of the repository
    overrides [receive_message], and the base one writes no attribute, so
    both objects come out as they went in. *)
Definition BaseAgent_collaborate (target_agent : list (string * value))
    (message : value) : M astate value :=
  logger_call "info"
    (n <~ attr_of target_agent "name";;
     ret ("Collaborating with " +:+ py_str n));;;
  fun s =>
    let '(r, s') :=
      BaseAgent_receive_message (self s) message (AState target_agent (env s))
    in (r, AState (self s) (env s')).

Definition BaseAgent_optimize (v : variant) : M astate value :=
  logger_call "info" (ret "Running optimization routine");;;
  monitor v.

Definition BaseAgent_str : M astate string :=
  n <~ getattr "name";;
  s <~ getattr "status";;
  ret (py_str n +:+ " Agent (Status: " +:+ py_str s +:+ ")").

(** *** [MarketplaceManagerAgent]: the handlers *)

Definition low_conversion_insights : list value :=
  [VStr "Low conversion rate detected";
   VStr "Consider optimizing listing visibility";
   VStr "Review pricing strategies"].

Definition MarketplaceManagerAgent__analyze_marketplace (data : value)
  : M astate value :=
  active_listings <~ py_get data "active_listings" (VNum 0);;
  total_transactions <~ py_get data "total_transactions" (VNum 0);;
  average_price <~ py_get data "average_price" (VNum 0);;
  positive <~ py_gt active_listings (VNum 0);;
  conversion_rate <~
    (if positive
     then py_truediv total_transactions active_listings
     else ret (VNum 0));;
  revenue <~ py_times total_transactions average_price;;
  commission_rate <~ getattr "commission_rate";;
  commission_revenue <~ py_times revenue commission_rate;;
  low <~ py_lt conversion_rate (VNum (3 # 10));;
  let insights := if low then low_conversion_insights else [] in
  record_metric "conversion_rate" conversion_rate;;;
  record_metric "commission_revenue" commission_revenue;;;
  ret (VDict [("active_listings", active_listings);
              ("total_transactions", total_transactions);
              ("average_price", average_price);
              ("conversion_rate", conversion_rate);
              ("commission_revenue", commission_revenue);
              ("insights", VList insights);
              ("status", VStr "success")]).

Definition MarketplaceManagerAgent__get_marketplace_stats : M astate value :=
  ret (VDict [("listings_count", VNum 100);
              ("transactions_count", VNum 50);
              ("average_price", VNum (19999 # 100))]).

(** *** [AnalyticsAgent]: the handlers *)

Definition AnalyticsAgent__analyze_revenue : value :=
  VDict [("total_revenue", VNum 150000);
         ("growth_rate", VNum (15 # 100));
         ("top_sources", strs ["marketplace"; "subscriptions"; "services"])].

Definition AnalyticsAgent__analyze_user_growth : value :=
  VDict [("total_users", VNum 5000);
         ("growth_rate", VNum (8 # 100));
         ("active_users", VNum 3500)].

Definition AnalyticsAgent__analyze_agent_performance : value :=
  VDict [("total_agents", VNum 10);
         ("active_agents", VNum 8);
         ("average_response_time", VNum (5 # 10));
         ("success_rate", VNum (95 # 100))].

Definition AnalyticsAgent__generate_report (data : value) : M astate value :=
  timeframe <~ py_get data "timeframe" (VStr "last_24h");;
  metrics <~ py_get data "metrics" (VList []);;
  now <~ utcnow;;
  let sections : list (string * value) := [] in
  wants_revenue <~ py_contains "revenue" metrics;;
  let sections :=
    if wants_revenue
    then PyDict.set "revenue" AnalyticsAgent__analyze_revenue sections
    else sections in
  wants_growth <~ py_contains "user_growth" metrics;;
  let sections :=
    if wants_growth
    then PyDict.set "user_growth" AnalyticsAgent__analyze_user_growth sections
    else sections in
  wants_performance <~ py_contains "agent_performance" metrics;;
  let sections :=
    if wants_performance
    then PyDict.set "agent_performance"
           AnalyticsAgent__analyze_agent_performance sections
    else sections in
  record_metric "report_generated" (VNum 1);;;
  ret (VDict [("timestamp", VStr (isoformat py now));
              ("timeframe", timeframe);
              ("metrics", VDict sections)]).

(** The insight on the return, if there is one to give. *)
Definition roi_insight (roi_data : value) : M astate (list value) :=
  if py_truthy roi_data
  then
    current_roi <~ py_get roi_data "current_roi" (VNum 0);;
    target_roi <~ py_get roi_data "target_roi" (VNum 0);;
    below <~ py_less current_roi target_roi;;
    if below
    then
      gap <~ py_minus target_roi current_roi;;
      ratio <~ py_over gap target_roi;;
      gap_percentage <~ py_times ratio (VNum 100);;
      shown <~ py_format_1f gap_percentage;;
      ret [VStr ("ROI is " +:+ shown +:+ "% below target")]
    else ret []
  else ret [].

(** The insight on the marketplace, if there is one to give. *)
Definition marketplace_insight (marketplace_data : value)
  : M astate (list value) :=
  if py_truthy marketplace_data
  then
    listings <~ py_get marketplace_data "listings_count" (VNum 0);;
    transactions <~ py_get marketplace_data "transactions_count" (VNum 0);;
    positive <~ py_gt listings (VNum 0);;
    if positive
    then
      ratio <~ py_truediv transactions listings;;
      conversion_rate <~ py_times ratio (VNum 100);;
      shown <~ py_format_1f conversion_rate;;
      ret [VStr ("Marketplace conversion rate: " +:+ shown +:+ "%")]
    else ret []
  else ret [].

Definition AnalyticsAgent__analyze_data (data : value) : M astate value :=
  roi_data <~ py_get data "roi_data" (VDict []);;
  marketplace_data <~ py_get data "marketplace_data" (VDict []);;
  about_roi <~ roi_insight roi_data;;
  about_marketplace <~ marketplace_insight marketplace_data;;
  record_metric "data_analyzed" (VNum 1);;;
  now <~ utcnow;;
  ret (VDict [("timestamp", VStr (isoformat py now));
              ("insights", VList (about_roi ++ about_marketplace));
              ("status", VStr "success")]).

(** *** [UserOnboardingAgent]: the handlers

    [user_id], [flow_type] and [step] are strings, as the signatures of the
    handlers say.  [progress], which the source binds once to
    [self.user_progress[user_id]] and then reads and writes in place, is
    read and written here through [self.user_progress[user_id]] each time:
    the same object, since no handler rebinds [user_progress] or the
    entry of a user while another one is at work on it. *)

Definition progress_get (user_id k : string) : M astate value :=
  everyone <~ getattr "user_progress";;
  progress <~ py_getitem everyone user_id;;
  py_getitem progress k.

Definition progress_set (user_id k : string) (v : value) : M astate unit :=
  everyone <~ getattr "user_progress";;
  progress <~ py_getitem everyone user_id;;
  progress' <~ py_setitem progress k v;;
  everyone' <~ py_setitem everyone user_id progress';;
  setattr "user_progress" everyone'.

(** [self.onboarding_flows[progress["flow_type"]]] *)
Definition flow_of_user (user_id : string) : M astate value :=
  flows <~ getattr "onboarding_flows";;
  flow_type <~ progress_get user_id "flow_type";;
  py_getitem_value flows flow_type.

Definition error_envelope (message : string) : value :=
  VDict [("status", VStr "error"); ("message", VStr message)].

Definition UserOnboardingAgent__generate_step_content (step : value) : value :=
  VDict [("title", step); ("content", VStr ("Content for " +:+ py_str step))].

Definition UserOnboardingAgent__get_step_actions : value :=
  strs ["complete"; "skip"; "get_help"].

Definition UserOnboardingAgent__prepare_step (user_id : string) (step : value)
  : value :=
  VDict [("step", step);
         ("content", UserOnboardingAgent__generate_step_content step);
         ("actions", UserOnboardingAgent__get_step_actions)].

Definition UserOnboardingAgent__grant_reward (user_id : string)
    (reward_type : value) : value :=
  VDict [("type", reward_type); ("granted", VBool true)].

Definition UserOnboardingAgent__generate_next_steps (user_id : string)
  : value :=
  VList [VDict [("type", VStr "create_agent"); ("priority", VStr "high")];
         VDict [("type", VStr "explore_marketplace");
                ("priority", VStr "medium")]].

Definition UserOnboardingAgent__start_onboarding (user_id flow_type : string)
  : M astate value :=
  flows <~ getattr "onboarding_flows";;
  known <~ py_contains flow_type flows;;
  if negb known
  then ret (error_envelope ("Invalid flow type: " +:+ flow_type))
  else
    flows <~ getattr "onboarding_flows";;
    flow <~ py_getitem flows flow_type;;
    steps <~ py_getitem flow "steps";;
    first <~ py_item_at steps 0;;
    started <~ utcnow;;
    active <~ utcnow;;
    let entry :=
      VDict [("flow_type", VStr flow_type);
             ("current_step", first);
             ("completed_steps", VList []);
             ("start_time", VStr (isoformat py started));
             ("last_activity", VStr (isoformat py active))] in
    everyone <~ getattr "user_progress";;
    everyone' <~ py_setitem everyone user_id entry;;
    setattr "user_progress" everyone';;;
    steps <~ py_getitem flow "steps";;
    first <~ py_item_at steps 0;;
    ret (VDict [("status", VStr "success");
                ("user_id", VStr user_id);
                ("flow_type", VStr flow_type);
                ("first_step",
                 UserOnboardingAgent__prepare_step user_id first)]).

Definition UserOnboardingAgent__complete_onboarding (user_id : string)
  : M astate value :=
  everyone <~ getattr "user_progress";;
  _ <~ py_getitem everyone user_id;;
  flow <~ flow_of_user user_id;;
  reward_type <~ py_getitem flow "completion_reward";;
  ret (VDict [("status", VStr "completed");
              ("reward",
               UserOnboardingAgent__grant_reward user_id reward_type);
              ("next_steps",
               UserOnboardingAgent__generate_next_steps user_id)]).

Definition UserOnboardingAgent__track_progress (user_id step : string)
  : M astate value :=
  everyone <~ getattr "user_progress";;
  known <~ py_contains user_id everyone;;
  if negb known
  then ret (error_envelope "User not found")
  else
    everyone <~ getattr "user_progress";;
    _ <~ py_getitem everyone user_id;;
    flow <~ flow_of_user user_id;;
    steps <~ py_getitem flow "steps";;
    valid <~ py_contains step steps;;
    if negb valid
    then ret (error_envelope "Invalid step")
    else
      completed <~ progress_get user_id "completed_steps";;
      match completed with
      | VList l =>
          current <~ progress_get user_id "current_step";;
          progress_set user_id "completed_steps" (VList (l ++ [current]))
      | _ => raise (AttributeError "append")
      end;;;
      steps <~ py_getitem flow "steps";;
      current_index <~ py_index steps step;;
      steps <~ py_getitem flow "steps";;
      size <~ py_len steps;;
      next_step <~
        (if Nat.ltb (current_index + 1) size
         then
           steps <~ py_getitem flow "steps";;
           next <~ py_item_at steps (current_index + 1);;
           progress_set user_id "current_step" next;;;
           current <~ progress_get user_id "current_step";;
           ret (UserOnboardingAgent__prepare_step user_id current)
         else UserOnboardingAgent__complete_onboarding user_id);;
      now <~ utcnow;;
      progress_set user_id "last_activity" (VStr (isoformat py now));;;
      ret (VDict [("status", VStr "success");
                  ("user_id", VStr user_id);
                  ("completed_step", VStr step);
                  ("next_step", next_step)]).

(** [d.values()] *)
Definition py_values {S : Type} (v : value) : M S (list value) :=
  match v with
  | VDict d => ret (map snd d)
  | _ => raise (AttributeError "values")
  end.

(** The strings of a list whose elements are all strings. *)
Fixpoint all_strings (l : list value) : option (list string) :=
  match l with
  | [] => Some []
  | VStr s :: l' =>
      match all_strings l' with Some ss => Some (s :: ss) | None => None end
  | _ :: _ => None
  end.

(** [datetime.fromisoformat(v)] *)
Definition py_fromisoformat {S : Type} (v : value) : M S Z :=
  match v with
  | VStr s => from_runtime (fromisoformat rt s)
  | _ => raise (TypeError "fromisoformat")
  end.

(** The users of [users] who have completed as many steps as their own flow
    has. *)
Definition completed_users (users : list value) : M astate (list value) :=
  for_each users
    (fun u acc =>
       done_steps <~ py_getitem u "completed_steps";;
       k <~ py_len done_steps;;
       flows <~ getattr "onboarding_flows";;
       flow_type <~ py_getitem u "flow_type";;
       flow <~ py_getitem_value flows flow_type;;
       steps <~ py_getitem flow "steps";;
       m <~ py_len steps;;
       ret (if Nat.eqb k m then acc ++ [u] else acc))
    [].

Definition UserOnboardingAgent__calculate_average_completion_time
    (users : list value) : M astate value :=
  finished <~ completed_users users;;
  match finished with
  | [] => ret (VNum 0)
  | _ :: _ =>
      total_time <~
        for_each finished
          (fun u total =>
             last_activity <~ py_getitem u "last_activity";;
             ended <~ py_fromisoformat last_activity;;
             start_time <~ py_getitem u "start_time";;
             started <~ py_fromisoformat start_time;;
             ret (total + ((ended - started) # 1000000))%Q)
          0%Q;;
      ret (VNum (total_time / inject_Z (Z.of_nat (length finished))))
  end.

(** The body of [_analyze_flow_metrics] for a flow whose steps are the
    strings [steps]. *)
Definition flow_step_completion (steps : list string) (users : list value)
  : M astate (list (string * value)) :=
  for_each steps
    (fun step step_completion =>
       completed <~
         for_each users
           (fun u count =>
              done_steps <~ py_getitem u "completed_steps";;
              has <~ py_contains step done_steps;;
              ret (if has then S count else count))
           0%nat;;
       let rate :=
         match users with
         | [] => VNum 0
         | _ :: _ => VNum (Z.of_nat completed # Pos.of_nat (length users))
         end in
       ret (PyDict.set step rate step_completion))
    [].

(** [_analyze_flow_metrics]; a flow whose steps are not a list of strings
    is left to the abstract handlers. *)
Definition UserOnboardingAgent__analyze_flow_metrics (flow_type : string)
  : M astate value :=
  everyone <~ getattr "user_progress";;
  entries <~ py_values everyone;;
  users <~
    for_each entries
      (fun u acc =>
         ft <~ py_getitem u "flow_type";;
         ret (if is_str ft flow_type then acc ++ [u] else acc))
      [];;
  flows <~ getattr "onboarding_flows";;
  flow <~ py_getitem flows flow_type;;
  steps <~ py_getitem flow "steps";;
  match steps with
  | VList l =>
      match all_strings l with
      | Some names =>
          step_completion <~ flow_step_completion names users;;
          average_time <~
            UserOnboardingAgent__calculate_average_completion_time users;;
          ret (VDict [("step_completion", VDict step_completion);
                      ("average_time", average_time)])
      | None =>
          handler "UserOnboardingAgent._analyze_flow_metrics" [VStr flow_type]
      end
  | _ => handler "UserOnboardingAgent._analyze_flow_metrics" [VStr flow_type]
  end.

Definition step_optimization (step : string) : value :=
  VDict [("type", VStr "step_optimization"); ("step", VStr step);
         ("suggestion", VStr "simplify_content")].

(** [_generate_flow_optimizations], on the [step_completion] that
    [_analyze_flow_metrics] built. *)
Definition UserOnboardingAgent__generate_flow_optimizations
    (flow_type : string) (step_completion : list (string * value))
  : M astate value :=
  changes <~
    for_each step_completion
      (fun '(step, rate) changes =>
         low <~ py_lt rate (VNum (7 # 10));;
         ret (if low then changes ++ [step_optimization step] else changes))
      [];;
  ret (VDict [("changes", VList changes)]).

(** [_optimize_step] is [pass]. *)
Definition UserOnboardingAgent__optimize_step (flow_type : string)
    (step : value) : M astate unit :=
  ret tt.

Definition UserOnboardingAgent__apply_flow_optimizations
    (flow_type : string) (changes : list value) : M astate unit :=
  for_each changes
    (fun change _ =>
       kind <~ py_getitem change "type";;
       if is_str kind "step_optimization"
       then
         step <~ py_getitem change "step";;
         UserOnboardingAgent__optimize_step flow_type step
       else ret tt)
    tt.

Definition UserOnboardingAgent__optimize_flow (flow_type : string)
  : M astate value :=
  flows <~ getattr "onboarding_flows";;
  known <~ py_contains flow_type flows;;
  if negb known
  then ret (error_envelope ("Invalid flow type: " +:+ flow_type))
  else
    metrics <~ UserOnboardingAgent__analyze_flow_metrics flow_type;;
    step_completion <~ py_getitem metrics "step_completion";;
    optimizations <~
      match step_completion with
      | VDict sc =>
          UserOnboardingAgent__generate_flow_optimizations flow_type sc
      | _ =>
          handler "UserOnboardingAgent._generate_flow_optimizations"
            [VStr flow_type; metrics]
      end;;
    changes <~ py_getitem optimizations "changes";;
    (if py_truthy changes
     then
       changes <~ py_getitem optimizations "changes";;
       match changes with
       | VList l => UserOnboardingAgent__apply_flow_optimizations flow_type l
       | _ =>
           _ <~ handler "UserOnboardingAgent._apply_flow_optimizations"
                  [VStr flow_type; changes];;
           ret tt
       end
     else ret tt);;;
    ret (VDict [("status", VStr "success");
                ("flow_type", VStr flow_type);
                ("metrics", metrics);
                ("optimizations", optimizations)]).

(** *** The handlers, those above made concrete

    A call with arguments of another kind than the signature of the handler
    names stays with the abstract handlers. *)
Definition modelled_handlers (name : string) (args : list value)
  : M astate value :=
  if String.eqb name "MarketplaceManagerAgent._analyze_marketplace"
  then match args with
       | [data] => MarketplaceManagerAgent__analyze_marketplace data
       | _ => handler name args
       end
  else if String.eqb name "MarketplaceManagerAgent._get_marketplace_stats"
  then match args with
       | [] => MarketplaceManagerAgent__get_marketplace_stats
       | _ => handler name args
       end
  else if String.eqb name "AnalyticsAgent._generate_report"
  then match args with
       | [data] => AnalyticsAgent__generate_report data
       | _ => handler name args
       end
  else if String.eqb name "AnalyticsAgent._analyze_data"
  then match args with
       | [data] => AnalyticsAgent__analyze_data data
       | _ => handler name args
       end
  else if String.eqb name "UserOnboardingAgent._start_onboarding"
  then match args with
       | [VStr user_id; VStr flow_type] =>
           UserOnboardingAgent__start_onboarding user_id flow_type
       | _ => handler name args
       end
  else if String.eqb name "UserOnboardingAgent._track_progress"
  then match args with
       | [VStr user_id; VStr step] =>
           UserOnboardingAgent__track_progress user_id step
       | _ => handler name args
       end
  else if String.eqb name "UserOnboardingAgent._optimize_flow"
  then match args with
       | [VStr flow_type] => UserOnboardingAgent__optimize_flow flow_type
       | _ => handler name args
       end
  else handler name args.

(** A runtime extension to run examples with. *)
Definition example_runtime_ext : runtime_ext :=
  RuntimeExt
    (fun q => pretty (Qnum q) +:+ "/" +:+ pretty (Zpos (Qden q)))
    (fun op _ => Raise (TypeError op))
    (fun s => Raise (ValueError "Invalid isoformat string")).

(** An agent is in the state [UserOnboardingAgent.initialize] leaves, with
    [everyone] as the progress of its users. *)
Definition onboarding_ready (o : list (string * value))
    (everyone : list (string * value)) : Prop :=
  PyDict.get "onboarding_flows" o = Some default_onboarding_flows /\
  PyDict.get "user_progress" o = Some (VDict everyone).

(** The steps and the reward of the three flows of [initialize]. *)
Definition flow_steps (flow_type : string) : option (list string) :=
  match PyDict.get flow_type
          (match default_onboarding_flows with VDict d => d | _ => [] end) with
  | Some (VDict flow) =>
      match PyDict.get "steps" flow with
      | Some (VList l) => all_strings l
      | _ => None
      end
  | _ => None
  end.

Definition flow_reward (flow_type : string) : option value :=
  match PyDict.get flow_type
          (match default_onboarding_flows with VDict d => d | _ => [] end) with
  | Some (VDict flow) => PyDict.get "completion_reward" flow
  | _ => None
  end.

(** The entry of a user in [user_progress]. *)
Definition progress_entry (flow_type : string) (current : string)
    (completed : list string) (start_time last_activity : value) : value :=
  VDict [("flow_type", VStr flow_type);
         ("current_step", VStr current);
         ("completed_steps", strs completed);
         ("start_time", start_time);
         ("last_activity", last_activity)].

(** The progress of a user as [_start_onboarding] and [_track_progress]
    keep it. *)
Record user_state : Type := UserState {
  progress_flow : string;
  progress_current : string;
  progress_completed : list string;
  progress_start : value;
  progress_last : value
}.

Definition entry_of (p : user_state) : value :=
  progress_entry (progress_flow p) (progress_current p)
    (progress_completed p) (progress_start p) (progress_last p).

Definition progress_of (users : list (string * user_state))
  : list (string * value) :=
  map (fun '(user_id, p) => (user_id, entry_of p)) users.

(** The share of the users of a flow of [size] steps who have [size]
    completed steps on record; 0 for a flow without users. *)
Definition completion_rate (users : list (string * user_state))
    (flow_type : string) (size : nat) : Q :=
  let mine :=
    List.filter (fun p => String.eqb (progress_flow p) flow_type)
      (map snd users) in
  match mine with
  | [] => 0
  | _ :: _ =>
      Z.of_nat
        (length
           (List.filter
              (fun p => Nat.eqb (length (progress_completed p)) size) mine))
      # Pos.of_nat (length mine)
  end.

(** *** Agents to run examples with

    The attributes [BaseAgent.__init__] sets, with those of the class. *)
Definition example_base (name : string) : list (string * value) :=
  [("name", VStr name); ("config", VDict []);
   ("created_at", VTime 0); ("last_active", VTime 0);
   ("status", VStr "initialized");
   ("logger", VLogger ("agent." +:+ name));
   ("metrics", VList [])].

Definition example_roi_agent : astate :=
  AState (example_base "R1" ++ [("target_roi", VNum (15 # 100))]) empty_world.

Definition example_marketplace_agent : astate :=
  AState (example_base "M1" ++ [("commission_rate", VNum (10 # 100))])
    empty_world.

Definition example_analytics_agent : astate :=
  AState (example_base "A1" ++ [("metrics_window", VStr "24h");
                                ("metrics_data", VDict [])])
    empty_world.

Definition example_onboarding_agent : astate :=
  AState (example_base "U1" ++ [("onboarding_flows", default_onboarding_flows);
                                ("user_progress", VDict []);
                                ("conversion_metrics", VDict [])])
    empty_world.

(** ** Facts about dictionaries *)

Lemma get_set_eq {V : Type} (k : string) (v : V) (d : list (string * V)) :
  PyDict.get k (PyDict.set k v d) = Some v.
Proof.
  induction d as [|[k' v'] d IH]; simpl.
  - now rewrite String.eqb_refl.
  - destruct (String.eqb k k') eqn:E; simpl; rewrite ?String.eqb_refl, ?E; auto.
Qed.

Lemma get_set_ne {V : Type} (k k' : string) (v : V) (d : list (string * V)) :
  k <> k' -> PyDict.get k (PyDict.set k' v d) = PyDict.get k d.
Proof.
  intros Hne. apply String.eqb_neq in Hne.
  induction d as [|[k0 v0] d IH]; simpl.
  - now rewrite Hne.
  - destruct (String.eqb k' k0) eqn:E; simpl.
    + apply String.eqb_eq in E. subst k0. now rewrite Hne.
    + now rewrite IH.
Qed.

Lemma keys_set_present {V : Type} (k : string) (v : V) (d : list (string * V)) :
  PyDict.mem k d = true -> PyDict.keys (PyDict.set k v d) = PyDict.keys d.
Proof.
  unfold PyDict.mem, PyDict.keys.
  induction d as [|[k0 v0] d IH]; simpl; [discriminate|].
  destruct (String.eqb k k0) eqn:E; simpl; intros H.
  - apply String.eqb_eq in E. now subst.
  - now rewrite IH.
Qed.

Lemma keys_set_absent {V : Type} (k : string) (v : V) (d : list (string * V)) :
  PyDict.get k d = None -> PyDict.keys (PyDict.set k v d) = PyDict.keys d ++ [k].
Proof.
  unfold PyDict.keys.
  induction d as [|[k0 v0] d IH]; simpl; [reflexivity|].
  destruct (String.eqb k k0) eqn:E; simpl; intros H; [discriminate|].
  now rewrite IH.
Qed.


(** ** The registry *)

Lemma register_agent_run (f : fstate) (agent_type : string) (c : pyclass) :
  register_agent agent_type c f =
    (Ok tt,
     FState (PyDict.set agent_type c (registered_agents f)) (logger f)
       (journal f)
       (emit (logger f) "info" ("Registered new agent type: " +:+ agent_type)
          (fenv f))).
Proof. reflexivity. Qed.

(** C4: for a tag that is not in the registry, [create_agent] raises
    [ValueError("Unknown agent type: <tag>")] and leaves the factory as it
    was: the registry, the journal of calls on agent classes (so no class
    was instantiated) and the world are unchanged. *)
Theorem create_agent_unknown_type
    (f : fstate) (agent_type name : string) (config : value) :
  PyDict.get agent_type (registered_agents f) = None ->
  create_agent agent_type name config f =
    (Raise (ValueError ("Unknown agent type: " +:+ agent_type)), f).
Proof.
  intros Hnone. unfold create_agent, bind, gets. now rewrite Hnone.
Qed.

(** C10: a factory that has just been constructed has exactly the three
    tags ["roi_optimization"], ["marketplace_manager"] and ["analytics"],
    bound to their classes, and [get_available_agent_types] returns those
    three tags, in the order of registration, without changing the
    factory. *)
Theorem fresh_factory_agent_types (w : world) :
  registered_agents (AgentFactory w) =
    [("roi_optimization", ROIOptimizationAgent);
     ("marketplace_manager", MarketplaceManagerAgent);
     ("analytics", AnalyticsAgent)] /\
  get_available_agent_types (AgentFactory w) =
    (Ok ["roi_optimization"; "marketplace_manager"; "analytics"],
     AgentFactory w) /\
  journal (AgentFactory w) = [].
Proof. repeat split. Qed.

(** What [create_agent] does once the tag is found. *)
Lemma create_agent_registered
    (f : fstate) (agent_type name : string) (config : value) (c : pyclass) :
  PyDict.get agent_type (registered_agents f) = Some c ->
  create_agent agent_type name config f =
    (o <~ construct c name config;;
     r <~ call_initialize c name o;;
     let '(success, o') := r in
     if negb success
     then raise (RuntimeError ("Failed to initialize agent: " +:+ name))
     else
       factory_info ("Created new agent: " +:+ name +:+ " of type "
                     +:+ agent_type);;;
       ret (Agent c o')) f.
Proof.
  intros Hc. unfold create_agent at 1, bind at 1, gets. now rewrite Hc.
Qed.




(** ** Construction and initialization *)

Lemma BaseAgent_init_run (name : string) (config : value) (w : world) :
  BaseAgent_init name config (AState [] w) =
    (Ok tt,
     AState [("name", VStr name); ("config", config);
             ("created_at", VTime (clock py (ticks w)));
             ("last_active", VTime (clock py (S (ticks w))));
             ("status", VStr "initialized");
             ("logger", VLogger ("agent." +:+ name));
             ("metrics", VList [])]
       (tick (tick w))).
Proof. reflexivity. Qed.

(** C1: when the tag is bound to a class whose constructor and whose
    [initialize] return, [create_agent] calls [initialize] exactly once, on
    the object it has just constructed; if [initialize] returned true the
    agent handed back is that object as [initialize] left it, and if it
    returned false the call raises
    [RuntimeError("Failed to initialize agent: <name>")] and hands back no
    agent.  The registry is unchanged in both cases. *)
Theorem create_agent_initializes_once
    (f : fstate) (agent_type name : string) (config : value) (c : pyclass)
    (o o' : list (string * value)) (w1 w2 : world) (success : bool) :
  PyDict.get agent_type (registered_agents f) = Some c ->
  cls_init c name config (AState [] (fenv f)) = (Ok tt, AState o w1) ->
  cls_initialize c (AState o w1) = (Ok success, AState o' w2) ->
  exists f',
    create_agent agent_type name config f =
      (if success
       then Ok (Agent c o')
       else Raise (RuntimeError ("Failed to initialize agent: " +:+ name)),
       f') /\
    journal f' =
      journal f ++ [Constructed c name config;
                    Initialized c name (Ok success)] /\
    initialize_calls (journal f') = S (initialize_calls (journal f)) /\
    registered_agents f' = registered_agents f /\
    fenv f' =
      (if success
       then emit (logger f) "info"
              ("Created new agent: " +:+ name +:+ " of type " +:+ agent_type)
              w2
       else w2).
Proof.
  intros Hc Hinit Hrun. rewrite (create_agent_registered _ _ _ _ _ Hc).
  unfold bind, construct, call_initialize, run_on, note, modify, bind; simpl.
  rewrite Hinit; simpl. rewrite Hrun; simpl.
  assert (Hcount : forall j,
             initialize_calls
               (j ++ [Constructed c name config;
                      Initialized c name (Ok success)]) =
               S (initialize_calls j)).
  { intros j. unfold initialize_calls.
    rewrite List.filter_app, length_app. simpl. lia. }
  destruct success; simpl; eexists; (split; [reflexivity|]); simpl;
    rewrite <- app_assoc; simpl; repeat split; auto.
Qed.

(** The three classes a fresh factory knows construct and initialize
    without error when the configuration is a dictionary or [None]. *)
Lemma default_classes_construct (name : string) (config : value) (w : world) :
  (config = VNone \/ exists d, config = VDict d) ->
  forall c, In c [ROIOptimizationAgent; MarketplaceManagerAgent;
                  AnalyticsAgent] ->
  exists o w1 w2,
    cls_init c name config (AState [] w) = (Ok tt, AState o w1) /\
    cls_initialize c (AState o w1) = (Ok true, AState o w2) /\
    base_ready o /\
    PyDict.get "name" o = Some (VStr name) /\
    PyDict.get "status" o = Some (VStr "initialized") /\
    PyDict.get "created_at" o = Some (VTime (clock py (ticks w))) /\
    ticks w2 = S (S (ticks w)).
Proof.
  intros Hcfg c Hc.
  assert (Hd : exists d, (match config with VNone => VDict [] | _ => config end)
                         = VDict d).
  { destruct Hcfg as [->|[d ->]]; eauto. }
  destruct Hd as [d Hd].
  simpl in Hc.
  destruct Hc as [<-|[<-|[<-|[]]]]; simpl;
    unfold ROIOptimizationAgent_init, MarketplaceManagerAgent_init,
      AnalyticsAgent_init; rewrite Hd;
    unfold bind at 1; rewrite BaseAgent_init_run;
    do 3 eexists; (split; [reflexivity|]); (split; [reflexivity|]);
    unfold base_ready; simpl; repeat split; eauto.
Qed.

(** ** Specialization *)





(** ** The metric log *)

Lemma getattr_run (k : string) (st : astate) (v : value) :
  PyDict.get k (self st) = Some v -> getattr k st = (Ok v, st).
Proof. intros H. unfold getattr. now rewrite H. Qed.


Lemma record_metric_run
    (name : string) (v : value) (st : astate) (log : list value)
    (n : string) :
  PyDict.get "metrics" (self st) = Some (VList log) ->
  PyDict.get "logger" (self st) = Some (VLogger n) ->
  record_metric name v st =
    (Ok tt,
     AState
       (PyDict.set "metrics"
          (VList (log ++ [metric_record name v (ticks (env st))])) (self st))
       (emit n "debug" ("Recorded metric: " +:+ name +:+ "=" +:+ py_str v)
          (tick (env st)))).
Proof.
  intros Hm Hl. unfold record_metric, bind, utcnow, logger_call, bind.
  simpl. unfold getattr at 1. simpl. rewrite Hm. simpl.
  unfold getattr. simpl. rewrite get_set_ne by discriminate. rewrite Hl.
  reflexivity.
Qed.



(** ** Running computations step by step *)

Lemma bind_ok {S A B : Type} (m : M S A) (k : A -> M S B) (s s' : S) (a : A) :
  m s = (Ok a, s') -> bind m k s = k a s'.
Proof. intros H. unfold bind. now rewrite H. Qed.

Lemma bind_raise {S A B : Type} (m : M S A) (k : A -> M S B) (s s' : S)
    (e : exn) :
  m s = (Raise e, s') -> bind m k s = (Raise e, s').
Proof. intros H. unfold bind. now rewrite H. Qed.






(** ** The ROI computation *)


(** ** No division by zero *)

















(** ** Dispatch on the task type *)

Lemma task_item_run {S : Type} (task : list (string * value)) (k : string)
    (v : value) (s : S) :
  PyDict.get k task = Some v -> task_item task k s = (Ok v, s).
Proof. intros H. unfold task_item. now rewrite H. Qed.

Lemma dispatch3_unknown (task : list (string * value)) (ty : value)
    (n1 h1 : string) (a1 : list string) (n2 h2 : string) (a2 : list string)
    (n3 h3 : string) (a3 : list string) (st : astate) :
  PyDict.get "type" task = Some ty ->
  is_str ty n1 = false -> is_str ty n2 = false -> is_str ty n3 = false ->
  dispatch3 task n1 h1 a1 n2 h2 a2 n3 h3 a3 st
  = (Ok unknown_task_envelope, st).
Proof.
  intros Hty H1 H2 H3. unfold dispatch3.
  rewrite (bind_ok _ _ st st ty) by (now apply task_item_run). rewrite H1.
  rewrite (bind_ok _ _ st st ty) by (now apply task_item_run). rewrite H2.
  rewrite (bind_ok _ _ st st ty) by (now apply task_item_run). rewrite H3.
  reflexivity.
Qed.

(** What each variant does with a task whose type it has no branch for. *)
Lemma execute_unknown_type_run (v : variant) (task : list (string * value))
    (ty : value) (st : astate) :
  PyDict.get "type" task = Some ty ->
  (forall n, In n (task_types v) -> is_str ty n = false) ->
  execute v task st =
    (if raises_on_unknown_type v
     then Raise (ValueError ("Unknown task type: " +:+ py_str ty))
     else Ok unknown_task_envelope,
     st).
Proof.
  intros Hty Hun.
  assert (Hdef : PyDict.get_default "type" VNone task = ty)
    by (unfold PyDict.get_default; now rewrite Hty).
  destruct v; simpl in Hun; cbn [execute raises_on_unknown_type];
    try (cbv delta [LaunchStrategistAgent_execute
                      InfluencerOutreachAgent_execute DataPrivacyAgent_execute
                      RevenueOptimizerAgent_execute
                      CommunityEngagementAgent_execute
                      ContentCreatorAgent_execute FeedbackManagerAgent_execute];
         apply dispatch3_unknown with (ty := ty);
           [exact Hty|apply Hun; tauto..]).
  - unfold ROIOptimizationAgent_execute. rewrite Hdef.
    now rewrite (Hun "optimize_roi") by (simpl; tauto).
  - unfold MarketplaceManagerAgent_execute. rewrite Hdef.
    rewrite (Hun "analyze_marketplace") by (simpl; tauto).
    now rewrite (Hun "get_marketplace_stats") by (simpl; tauto).
  - unfold AnalyticsAgent_execute. rewrite Hdef.
    rewrite (Hun "generate_report") by (simpl; tauto).
    now rewrite (Hun "analyze_data") by (simpl; tauto).
  - unfold UserOnboardingAgent_execute.
    rewrite (bind_ok _ _ st st ty) by (now apply task_item_run).
    rewrite (Hun "start_onboarding") by (simpl; tauto).
    rewrite (bind_ok _ _ st st ty) by (now apply task_item_run).
    rewrite (Hun "track_progress") by (simpl; tauto).
    rewrite (bind_ok _ _ st st ty) by (now apply task_item_run).
    now rewrite (Hun "optimize_flow") by (simpl; tauto).
Qed.

(** A task without a ["type"] at all: the three variants that read it with
    [get] treat [None] as an unknown type; the others raise [KeyError]. *)
Lemma execute_missing_type (v : variant) (task : list (string * value))
    (st : astate) :
  PyDict.get "type" task = None ->
  execute v task st =
    (if raises_on_unknown_type v
     then Raise (ValueError "Unknown task type: None")
     else Raise (KeyError "type"),
     st).
Proof.
  intros Hty.
  assert (Hdef : PyDict.get_default "type" VNone task = VNone)
    by (unfold PyDict.get_default; now rewrite Hty).
  destruct v; simpl;
    unfold ROIOptimizationAgent_execute, MarketplaceManagerAgent_execute,
      AnalyticsAgent_execute, UserOnboardingAgent_execute,
      LaunchStrategistAgent_execute, InfluencerOutreachAgent_execute,
      DataPrivacyAgent_execute, RevenueOptimizerAgent_execute,
      CommunityEngagementAgent_execute, ContentCreatorAgent_execute,
      FeedbackManagerAgent_execute, dispatch3;
    rewrite ?Hdef; try reflexivity;
    unfold bind, task_item; now rewrite Hty.
Qed.

(** C2: for every concrete variant, [execute] on a task whose type is none
    of those the variant handles fails explicitly and changes nothing: the
    ROI, marketplace and analytics agents raise
    [ValueError("Unknown task type: <type>")], the eight others return the
    envelope with status ["error"] and message ["Unknown task type"].  In
    neither case is the outcome a success envelope. *)
Theorem execute_unknown_type_fails (v : variant) (task : list (string * value))
    (ty : value) (st : astate) :
  PyDict.get "type" task = Some ty ->
  (forall n, In n (task_types v) -> is_str ty n = false) ->
  execute v task st =
    (if raises_on_unknown_type v
     then Raise (ValueError ("Unknown task type: " +:+ py_str ty))
     else Ok unknown_task_envelope,
     st) /\
  dispatch_failure ty (fst (execute v task st)) /\
  ~ success_envelope (fst (execute v task st)).
Proof.
  intros Hty Hun.
  rewrite (execute_unknown_type_run v task ty st Hty Hun).
  split; [reflexivity|]. simpl.
  destruct (raises_on_unknown_type v).
  - split; [now left|]. intros (d & Hd & _). discriminate.
  - split; [now right|]. intros (d & Hd & Hs).
    unfold unknown_task_envelope in Hd. inversion Hd; subst d.
    discriminate.
Qed.

(** ** Monitoring *)

Lemma BaseAgent_monitor_run (st : astate) (n s : value) (la t0 : Z) :
  PyDict.get "name" (self st) = Some n ->
  PyDict.get "status" (self st) = Some s ->
  PyDict.get "last_active" (self st) = Some (VTime la) ->
  PyDict.get "created_at" (self st) = Some (VTime t0) ->
  BaseAgent_monitor st =
    (Ok (VDict [("name", n); ("status", s);
                ("last_active", VStr (isoformat py la));
                ("uptime", VNum ((clock py (ticks (env st)) - t0) # 1000000));
                ("metrics", VDict [])]),
     AState (self st) (tick (env st))).
Proof.
  intros Hn Hs Hla Hc. unfold BaseAgent_monitor.
  rewrite (bind_ok _ _ st st n) by (now apply getattr_run).
  rewrite (bind_ok _ _ st st s) by (now apply getattr_run).
  rewrite (bind_ok _ _ st st (VTime la)) by (now apply getattr_run).
  rewrite (bind_ok _ _ st st (VStr (isoformat py la))) by reflexivity.
  unfold bind, utcnow, getattr. simpl. now rewrite Hc.
Qed.

(** One call of [monitor] on a variant that extends the base snapshot. *)
Lemma monitor_extending_run (v : variant) (st : astate) (t0 : Z) :
  extends_base_monitor v = true ->
  base_ready (self st) -> monitor_attrs v (self st) ->
  PyDict.get "created_at" (self st) = Some (VTime t0) ->
  exists snapshot st',
    monitor v st = (Ok (VDict snapshot), st') /\
    PyDict.get "name" snapshot = PyDict.get "name" (self st) /\
    PyDict.get "status" snapshot = PyDict.get "status" (self st) /\
    (exists m, PyDict.get "metrics" snapshot = Some (VDict m)) /\
    PyDict.get "uptime" snapshot =
      Some (VNum ((clock py (ticks (env st)) - t0) # 1000000)) /\
    self st' = self st.
Proof.
  intros Hv (Hn & Hs & Hla & _ & Hm & _) Hattrs Hc.
  destruct Hn as [n Hn], Hs as [s Hs], Hla as [la Hla], Hm as [l Hm].
  pose proof (BaseAgent_monitor_run st n s la t0 Hn Hs Hla Hc) as Hbase.
  destruct v; try discriminate; simpl in Hattrs; cbn [monitor].
  - destruct Hattrs as [x Hx]. unfold ROIOptimizationAgent_monitor.
    erewrite bind_ok by exact Hbase.
    erewrite bind_ok by (apply getattr_run; simpl; exact Hx).
    erewrite bind_ok by (apply getattr_run; simpl; exact Hm).
    erewrite bind_ok by reflexivity.
    do 2 eexists. split; [reflexivity|]. simpl.
    rewrite Hn, Hs. repeat split; eauto.
  - destruct Hattrs as [x Hx]. unfold MarketplaceManagerAgent_monitor.
    erewrite bind_ok by exact Hbase.
    erewrite bind_ok by (apply getattr_run; simpl; exact Hx).
    erewrite bind_ok by (apply getattr_run; simpl; exact Hm).
    erewrite bind_ok by reflexivity.
    do 2 eexists. split; [reflexivity|]. simpl.
    rewrite Hn, Hs. repeat split; eauto.
  - destruct Hattrs as [[x Hx] [d Hd]]. unfold AnalyticsAgent_monitor.
    erewrite bind_ok by exact Hbase.
    erewrite bind_ok by (apply getattr_run; simpl; exact Hx).
    erewrite bind_ok by (apply getattr_run; simpl; exact Hd).
    erewrite bind_ok by reflexivity.
    erewrite bind_ok by reflexivity.
    do 2 eexists. split; [reflexivity|]. simpl.
    rewrite Hn, Hs. repeat split; eauto.
Qed.

Lemma bind_inv {S A B : Type} (m : M S A) (k : A -> M S B) (s s' : S) (b : B) :
  bind m k s = (Ok b, s') ->
  exists a s1, m s = (Ok a, s1) /\ k a s1 = (Ok b, s').
Proof.
  unfold bind. destruct (m s) as [[a|e] s1]; [|discriminate].
  intros H. now exists a, s1.
Qed.

Ltac invert_binds H :=
  repeat (apply bind_inv in H;
          let a := fresh "a" in
          let s := fresh "s" in
          destruct H as (a & s & _ & H); cbv beta in H).

(** The eight variants that do not extend the base snapshot return a
    dictionary of their own, without the name and the uptime of the agent. *)
Lemma monitor_not_extending_run (v : variant) (st st' : astate) (x : value) :
  extends_base_monitor v = false ->
  monitor v st = (Ok x, st') ->
  exists snapshot,
    x = VDict snapshot /\
    PyDict.get "name" snapshot = None /\
    PyDict.get "uptime" snapshot = None.
Proof.
  intros Hv Hrun.
  destruct v; try discriminate; cbn [monitor] in Hrun;
    unfold UserOnboardingAgent_monitor, LaunchStrategistAgent_monitor,
      InfluencerOutreachAgent_monitor, DataPrivacyAgent_monitor,
      RevenueOptimizerAgent_monitor, CommunityEngagementAgent_monitor,
      ContentCreatorAgent_monitor, FeedbackManagerAgent_monitor in Hrun;
    invert_binds Hrun; unfold ret in Hrun; inversion Hrun; subst;
    eexists; (split; [reflexivity|]); split; reflexivity.
Qed.

(** C3, as the code has it: for the ROI, marketplace and analytics variants,
    whose [monitor] extends the snapshot of the base class, [monitor] on an
    initialized agent returns a snapshot with the name and the status of the
    agent, a metrics section and an uptime that is not negative; and of two
    calls on the same instance, the later one reports an uptime that is not
    smaller.  The clock is assumed not to run backwards.  The eight other
    variants return a dictionary of their own that has neither the name nor
    the uptime. *)
Theorem monitor_common_fields_when_extending_base
    (v : variant) (st1 st2 : astate) (n0 : nat) :
  extends_base_monitor v = true ->
  (forall i j, (i <= j)%nat -> (clock py i <= clock py j)%Z) ->
  base_ready (self st1) -> monitor_attrs v (self st1) ->
  PyDict.get "created_at" (self st1) = Some (VTime (clock py n0)) ->
  (n0 <= ticks (env st1))%nat ->
  base_ready (self st2) -> monitor_attrs v (self st2) ->
  PyDict.get "created_at" (self st2) = Some (VTime (clock py n0)) ->
  (ticks (env st1) <= ticks (env st2))%nat ->
  exists snapshot1 st1' u1 snapshot2 st2' u2,
    monitor v st1 = (Ok (VDict snapshot1), st1') /\
    common_fields (self st1) snapshot1 u1 /\
    self st1' = self st1 /\
    monitor v st2 = (Ok (VDict snapshot2), st2') /\
    common_fields (self st2) snapshot2 u2 /\
    (u1 <= u2)%Q /\
    (forall v' st st' x,
        extends_base_monitor v' = false ->
        monitor v' st = (Ok x, st') ->
        exists snapshot,
          x = VDict snapshot /\
          PyDict.get "name" snapshot = None /\
          PyDict.get "uptime" snapshot = None).
Proof.
  intros Hv Hmono Hr1 Ha1 Hc1 Hn1 Hr2 Ha2 Hc2 Hle.
  destruct (monitor_extending_run v st1 _ Hv Hr1 Ha1 Hc1)
    as (s1 & st1' & Hrun1 & Hname1 & Hstatus1 & Hm1 & Hu1 & Hself1).
  destruct (monitor_extending_run v st2 _ Hv Hr2 Ha2 Hc2)
    as (s2 & st2' & Hrun2 & Hname2 & Hstatus2 & Hm2 & Hu2 & _).
  pose proof (Hmono _ _ Hn1) as H01.
  pose proof (Hmono _ _ Hle) as H12.
  destruct Hr1 as ((n1 & Hn1') & (x1 & Hx1) & _).
  destruct Hr2 as ((n2 & Hn2') & (x2 & Hx2) & _).
  exists s1, st1', ((clock py (ticks (env st1)) - clock py n0) # 1000000).
  exists s2, st2', ((clock py (ticks (env st2)) - clock py n0) # 1000000).
  unfold common_fields.
  split; [exact Hrun1|]. split.
  { split; [exists n1; split; congruence|].
    split; [exists x1; split; congruence|].
    split; [exact Hm1|]. split; [exact Hu1|]. unfold Qle; simpl; lia. }
  split; [exact Hself1|]. split; [exact Hrun2|]. split.
  { split; [exists n2; split; congruence|].
    split; [exists x2; split; congruence|].
    split; [exact Hm2|]. split; [exact Hu2|]. unfold Qle; simpl; lia. }
  split; [unfold Qle; simpl; lia|].
  intros v' st st' x Hv' Hrun.
  exact (monitor_not_extending_run v' st st' x Hv' Hrun).
Qed.

(** An agent that a fresh factory creates for one of its three tags, from a
    configuration that is a dictionary, is ready to be monitored, and its
    [created_at] is the first reading of the clock during the call. *)
Lemma created_agent_ready (v : variant) (tag name : string)
    (d : list (string * value)) (w : world) :
  default_tag v = Some tag ->
  exists a f1,
    create_agent tag name (VDict d) (AgentFactory w) = (Ok a, f1) /\
    base_ready (agent_dict a) /\
    monitor_attrs v (agent_dict a) /\
    PyDict.get "name" (agent_dict a) = Some (VStr name) /\
    PyDict.get "created_at" (agent_dict a)
      = Some (VTime (clock py (ticks w))) /\
    ticks (fenv f1) = S (S (ticks w)).
Proof.
  intros Htag.
  destruct v; simpl in Htag; inversion Htag; subst tag;
    do 2 eexists; (split; [lazy; reflexivity|]);
    unfold base_ready; simpl; repeat split; eauto.
Qed.

(** ** Readiness is kept *)

(** Writing the metric log keeps an agent ready, and keeps every other
    attribute: [created_at] among them, so the uptime goes on from the same
    origin. *)
Lemma set_metrics_keeps_ready (o : list (string * value)) (l : list value) :
  base_ready o -> base_ready (PyDict.set "metrics" (VList l) o).
Proof.
  intros (Hn & Hs & Hla & Hc & _ & Hl). unfold base_ready.
  rewrite get_set_eq.
  rewrite (get_set_ne "name"), (get_set_ne "status"),
    (get_set_ne "last_active"), (get_set_ne "created_at"),
    (get_set_ne "logger") by discriminate.
  repeat split; eauto.
Qed.

Lemma record_metric_keeps_ready (name : string) (v : value) (st : astate) :
  base_ready (self st) ->
  exists st',
    record_metric name v st = (Ok tt, st') /\
    base_ready (self st') /\
    (forall k, k <> "metrics" ->
               PyDict.get k (self st') = PyDict.get k (self st)) /\
    ticks (env st') = S (ticks (env st)).
Proof.
  intros Hready.
  destruct Hready as (Hn & Hs & Hla & Hc & [l Hm] & [n Hl]).
  eexists. split; [apply (record_metric_run name v st l n Hm Hl)|]. simpl.
  split; [apply set_metrics_keeps_ready; unfold base_ready; eauto 10|].
  split; [|reflexivity].
  intros k Hk. now apply get_set_ne.
Qed.

(** ** Either an initialized agent or none *)

(** Whatever the class does, an agent that [create_agent] hands back is of
    the registered class and has been constructed and then initialized
    once, with [initialize] returning true. *)
Lemma create_agent_returns_only_initialized
    (f f' : fstate) (agent_type name : string) (config : value)
    (c : pyclass) (a : agent) :
  PyDict.get agent_type (registered_agents f) = Some c ->
  create_agent agent_type name config f = (Ok a, f') ->
  agent_class a = c /\
  journal f' = journal f ++ [Constructed c name config;
                             Initialized c name (Ok true)].
Proof.
  intros Hc. rewrite (create_agent_registered _ _ _ _ _ Hc).
  unfold bind, construct, call_initialize, run_on, note, modify, bind; simpl.
  destruct (cls_init c name config _) as [[[]|e] s0]; simpl; [|discriminate].
  destruct (cls_initialize c _) as [[b|e] s1]; simpl; [|discriminate].
  destruct b; simpl; [|discriminate].
  intros H. inversion H; subst; simpl. rewrite <- app_assoc. now split.
Qed.

(** ** Computations that only read *)

Lemma leaves_state_case {S A : Type} (m : M S A) (s : S) :
  leaves_state m ->
  (exists a, m s = (Ok a, s)) \/ (exists e, m s = (Raise e, s)).
Proof.
  intros H. specialize (H s). destruct (m s) as [[a|e] s']; simpl in H; subst.
  - left. now exists a.
  - right. now exists e.
Qed.

Lemma leaves_ret {S A : Type} (a : A) : leaves_state (@ret S A a).
Proof. intros s. reflexivity. Qed.

Lemma leaves_raise {S A : Type} (e : exn) : leaves_state (@raise S A e).
Proof. intros s. reflexivity. Qed.

Lemma leaves_bind {S A B : Type} (m : M S A) (k : A -> M S B) :
  leaves_state m -> (forall a, leaves_state (k a)) -> leaves_state (bind m k).
Proof.
  intros Hm Hk s. unfold bind. specialize (Hm s).
  destruct (m s) as [[a|e] s']; simpl in *; subst; [apply Hk|reflexivity].
Qed.

Lemma leaves_getattr (k : string) : leaves_state (getattr k).
Proof. intros s. unfold getattr. now destruct (PyDict.get k (self s)). Qed.

Lemma leaves_py_get {S : Type} (v : value) (k : string) (default : value) :
  leaves_state (@py_get S v k default).
Proof. intros s. now destruct v. Qed.

Lemma leaves_num_op {S : Type} (what : string) (f : Q -> Q -> Q) (a b : value) :
  leaves_state (@num_op S what f a b).
Proof. intros s. unfold num_op. now destruct (as_num a), (as_num b). Qed.

Lemma leaves_py_lt {S : Type} (a b : value) : leaves_state (@py_lt S a b).
Proof. intros s. unfold py_lt. now destruct (as_num a), (as_num b). Qed.

Lemma leaves_py_gt {S : Type} (a b : value) : leaves_state (@py_gt S a b).
Proof. intros s. unfold py_gt. now destruct (as_num a), (as_num b). Qed.

Lemma leaves_py_truediv {S : Type} (a b : value) :
  leaves_state (@py_truediv S a b).
Proof.
  intros s. unfold py_truediv.
  destruct (as_num a), (as_num b); try reflexivity.
  now destruct (Qeq_bool _ 0).
Qed.

Lemma leaves_from_runtime {S A : Type} (r : result A) :
  leaves_state (@from_runtime S A r).
Proof. intros s. reflexivity. Qed.

Lemma leaves_py_getitem {S : Type} (v : value) (k : string) :
  leaves_state (@py_getitem S v k).
Proof.
  intros s. destruct v as [| | | | | | |d]; try reflexivity. simpl.
  now destruct (PyDict.get k d).
Qed.

Lemma leaves_py_len {S : Type} (v : value) : leaves_state (@py_len S v).
Proof. intros s. now destruct v. Qed.

Lemma leaves_py_contains {S : Type} (x : string) (v : value) :
  leaves_state (@py_contains S x v).
Proof. intros s. now destruct v. Qed.

Lemma leaves_py_times {S : Type} (a b : value) : leaves_state (@py_times S a b).
Proof. intros s. unfold py_times. now destruct (as_num a), (as_num b). Qed.

Lemma leaves_py_minus {S : Type} (a b : value) : leaves_state (@py_minus S a b).
Proof. intros s. unfold py_minus. now destruct (as_num a), (as_num b). Qed.

Lemma leaves_py_over {S : Type} (a b : value) : leaves_state (@py_over S a b).
Proof.
  intros s. unfold py_over.
  destruct (as_num a), (as_num b); try reflexivity.
  now destruct (Qeq_bool _ 0).
Qed.

Lemma leaves_py_less {S : Type} (a b : value) : leaves_state (@py_less S a b).
Proof.
  intros s. unfold py_less.
  destruct (as_num a), (as_num b); try reflexivity;
    unfold bind, from_runtime; now destruct (foreign rt _ _).
Qed.

Lemma leaves_py_format_1f {S : Type} (v : value) :
  leaves_state (@py_format_1f S v).
Proof.
  intros s. unfold py_format_1f. destruct (as_num v); [reflexivity|].
  unfold bind, from_runtime. now destruct (foreign rt _ _).
Qed.

Lemma leaves_py_setitem {S : Type} (c : value) (k : string) (v : value) :
  leaves_state (@py_setitem S c k v).
Proof. intros s. now destruct c. Qed.

Lemma leaves_py_getitem_value {S : Type} (c k : value) :
  leaves_state (@py_getitem_value S c k).
Proof.
  intros s. destruct c; try reflexivity.
  destruct k; try reflexivity. apply leaves_py_getitem.
Qed.

Lemma leaves_py_index {S : Type} (c : value) (x : string) :
  leaves_state (@py_index S c x).
Proof.
  intros s. unfold py_index.
  destruct c as [| | | | | |l|];
    try (unfold bind, from_runtime;
         destruct (foreign rt _ _) as [[]|]; reflexivity).
  now destruct (index_of x l).
Qed.

Lemma leaves_py_item_at {S : Type} (c : value) (i : nat) :
  leaves_state (@py_item_at S c i).
Proof.
  intros s. unfold py_item_at. destruct c as [| | | | | |l|]; try reflexivity.
  now destruct (nth_error l i).
Qed.

Lemma leaves_attr_of {S : Type} (o : list (string * value)) (k : string) :
  leaves_state (@attr_of S o k).
Proof. intros s. unfold attr_of. now destruct (PyDict.get k o). Qed.

Lemma leaves_py_values {S : Type} (v : value) : leaves_state (@py_values S v).
Proof. intros s. now destruct v. Qed.

Lemma leaves_py_fromisoformat {S : Type} (v : value) :
  leaves_state (@py_fromisoformat S v).
Proof. intros s. now destruct v. Qed.

Lemma leaves_for_each {S A B : Type} (l : list A) (body : A -> B -> M S B) :
  (forall x acc, leaves_state (body x acc)) ->
  forall acc, leaves_state (for_each l body acc).
Proof.
  intros Hbody. induction l as [|x l IH]; intros acc; simpl.
  - apply leaves_ret.
  - apply leaves_bind; [apply Hbody|intros acc'; apply IH].
Qed.

Ltac leaves_tac :=
  repeat first
    [ apply leaves_ret | apply leaves_raise | apply leaves_getattr
    | apply leaves_py_get | apply leaves_num_op | apply leaves_py_lt
    | apply leaves_py_gt | apply leaves_py_truediv
    | apply leaves_from_runtime | apply leaves_py_getitem
    | apply leaves_py_len | apply leaves_py_contains
    | apply leaves_py_times | apply leaves_py_minus | apply leaves_py_over
    | apply leaves_py_less | apply leaves_py_format_1f
    | apply leaves_py_setitem | apply leaves_py_getitem_value
    | apply leaves_py_index | apply leaves_py_item_at | apply leaves_attr_of
    | apply leaves_py_values | apply leaves_py_fromisoformat
    | apply leaves_bind; [|intros ?]
    | apply leaves_for_each; intros ? ?
    | match goal with
      | |- leaves_state (if ?b then _ else _) => destruct b
      | |- leaves_state (match ?v with _ => _ end) => destruct v
      | |- leaves_state (let '(_, _) := ?p in _) => destruct p
      | |- leaves_state ((let '(_, _) := ?p in _) _) => destruct p
      end ].


(** ** The ROI agent: a failed task changes nothing *)


(** ** The ROI agent: the recommended increase *)



(** ** The ROI agent: what [monitor] counts *)



(** ** The ROI agent: where the target comes from *)


(** ** The registry: other tags, and registering again *)

Lemma set_same {V : Type} (k : string) (v : V) (d : list (string * V)) :
  PyDict.get k d = Some v -> PyDict.set k v d = d.
Proof.
  induction d as [|[k0 v0] d IH]; simpl; [discriminate|].
  destruct (String.eqb_spec k k0) as [->|Hne]; intros H.
  - now inversion H.
  - now rewrite IH.
Qed.

(** X6: registering a class under a tag leaves every other tag bound as it
    was; a tag that is new goes to the end of the available types, a tag
    that was known keeps its place; and [create_agent] for another tag does
    after the registration what it did before, apart from the line the
    registration wrote to the log. *)
Theorem register_agent_leaves_other_tags
    (f : fstate) (tag : string) (c : pyclass) :
  let f' := snd (register_agent tag c f) in
  (forall other, other <> tag ->
     PyDict.get other (registered_agents f')
     = PyDict.get other (registered_agents f)) /\
  (PyDict.get tag (registered_agents f) = None ->
   fst (get_available_agent_types f')
   = Ok (PyDict.keys (registered_agents f) ++ [tag])) /\
  (PyDict.mem tag (registered_agents f) = true ->
   fst (get_available_agent_types f')
   = fst (get_available_agent_types f)) /\
  (forall other name config,
     other <> tag ->
     fst (create_agent other name config f')
     = fst (create_agent other name config
              (with_env f (fenv f')))).
Proof.
  intros f'. subst f'. rewrite register_agent_run. simpl.
  split; [intros other Hne; now apply get_set_ne|].
  split; [intros Hnew; unfold get_available_agent_types, gets; simpl;
          now rewrite keys_set_absent|].
  split; [intros Hold; unfold get_available_agent_types, gets; simpl;
          now rewrite keys_set_present|].
  intros other name config Hne.
  match goal with
  | |- fst (create_agent _ _ _ ?g1) = fst (create_agent _ _ _ ?g2) =>
      set (f1 := g1); set (f2 := g2)
  end.
  assert (H1 : PyDict.get other (registered_agents f1)
               = PyDict.get other (registered_agents f))
    by (subst f1; simpl; now apply get_set_ne).
  assert (H2 : PyDict.get other (registered_agents f2)
               = PyDict.get other (registered_agents f)) by reflexivity.
  destruct (PyDict.get other (registered_agents f)) as [c0|] eqn:Hother.
  - rewrite (create_agent_registered f1 other name config c0 H1).
    rewrite (create_agent_registered f2 other name config c0 H2).
    unfold bind, construct, call_initialize, run_on, note, modify, bind,
      factory_info, modify, with_env, ret, raise; simpl.
    destruct (cls_init c0 name config _) as [[[]|e] s0]; simpl;
      [|reflexivity].
    destruct (cls_initialize c0 _) as [[b|e] s1]; simpl; [|reflexivity].
    now destruct b.
  - unfold create_agent, bind, gets. now rewrite H1, H2.
Qed.

(** X7: registering again the class a tag is already bound to leaves the
    registry exactly as it was (this is what the start-up of the HTTP layer
    does with the three default classes); only a line is written to the
    log. *)
Theorem register_agent_again_is_idempotent
    (f : fstate) (tag : string) (c : pyclass) :
  PyDict.get tag (registered_agents f) = Some c ->
  register_agent tag c f =
    (Ok tt,
     with_env f
       (emit (logger f) "info" ("Registered new agent type: " +:+ tag)
          (fenv f))).
Proof.
  intros Hc. rewrite register_agent_run. unfold with_env.
  now rewrite (set_same tag c _ Hc).
Qed.

(** ** Construction: what happens to an exception *)

(** X8: an exception raised by the constructor of the class, or by its
    [initialize], passes through [create_agent] as it is (it is not turned
    into the [RuntimeError] of a failed initialization); no agent is handed
    back, the registry is unchanged, and when it was the constructor that
    raised, [initialize] has not been called. *)
Theorem create_agent_propagates_exceptions
    (f : fstate) (agent_type name : string) (config : value) (c : pyclass)
    (e : exn) (s : astate) :
  PyDict.get agent_type (registered_agents f) = Some c ->
  (cls_init c name config (AState [] (fenv f)) = (Raise e, s) \/
   exists o w1,
     cls_init c name config (AState [] (fenv f)) = (Ok tt, AState o w1) /\
     cls_initialize c (AState o w1) = (Raise e, s)) ->
  exists f',
    create_agent agent_type name config f = (Raise e, f') /\
    registered_agents f' = registered_agents f /\
    fenv f' = env s /\
    (cls_init c name config (AState [] (fenv f)) = (Raise e, s) ->
     journal f' = journal f ++ [Constructed c name config] /\
     initialize_calls (journal f') = initialize_calls (journal f)).
Proof.
  intros Hc Hraise. rewrite (create_agent_registered _ _ _ _ _ Hc).
  unfold bind, construct, call_initialize, run_on, note, modify, bind; simpl.
  destruct Hraise as [Hinit|(o & w1 & Hinit & Hrun)].
  - rewrite Hinit. simpl. eexists. split; [reflexivity|]. simpl.
    split; [reflexivity|]. split; [reflexivity|]. intros _.
    split; [reflexivity|].
    unfold initialize_calls. rewrite List.filter_app, length_app. simpl. lia.
  - rewrite Hinit. simpl. rewrite Hrun. simpl.
    eexists. split; [reflexivity|]. simpl.
    split; [reflexivity|]. split; [reflexivity|].
    intros Habs. discriminate.
Qed.

(** ** Steps that always succeed *)

Lemma utcnow_run (st : astate) :
  utcnow st = (Ok (clock py (ticks (env st))), AState (self st) (tick (env st))).
Proof. reflexivity. Qed.

Lemma logger_call_run (level : string) (msg : M astate string) (st : astate)
    (n m : string) :
  PyDict.get "logger" (self st) = Some (VLogger n) ->
  msg st = (Ok m, st) ->
  logger_call level msg st
  = (Ok tt, AState (self st) (emit n level m (env st))).
Proof.
  intros Hl Hmsg. unfold logger_call.
  erewrite bind_ok by (apply getattr_run; exact Hl). cbv beta iota.
  erewrite bind_ok by exact Hmsg. reflexivity.
Qed.








(** ** The marketplace manager *)








(** ** The analytics agent *)

Lemma record_metric_then
    {A : Type} (name : string) (v : value) (k : M astate A)
    (st : astate) (log : list value) (n : string) :
  PyDict.get "metrics" (self st) = Some (VList log) ->
  PyDict.get "logger" (self st) = Some (VLogger n) ->
  (record_metric name v;;; k) st =
    k (AState
         (PyDict.set "metrics"
            (VList (log ++ [metric_record name v (ticks (env st))])) (self st))
         (emit n "debug" ("Recorded metric: " +:+ name +:+ "=" +:+ py_str v)
            (tick (env st)))).
Proof.
  intros Hm Hl.
  now erewrite bind_ok by (apply record_metric_run; [exact Hm|exact Hl]).
Qed.

(** The sections of a report for which the request [l] asks. *)
Lemma generate_report_run
    (d : list (string * value)) (st : astate) (l log : list value)
    (n : string) :
  PyDict.get_default "metrics" (VList []) d = VList l ->
  PyDict.get "metrics" (self st) = Some (VList log) ->
  PyDict.get "logger" (self st) = Some (VLogger n) ->
  let asked k := existsb (fun x => is_str x k) l in
  exists sections st',
    AnalyticsAgent__generate_report (VDict d) st =
      (Ok (VDict
             [("timestamp", VStr (isoformat py (clock py (ticks (env st)))));
              ("timeframe", PyDict.get_default "timeframe" (VStr "last_24h") d);
              ("metrics", VDict sections)]),
       st') /\
    PyDict.keys sections
      = List.filter asked ["revenue"; "user_growth"; "agent_performance"] /\
    (asked "revenue" = true ->
     PyDict.get "revenue" sections = Some AnalyticsAgent__analyze_revenue) /\
    (asked "user_growth" = true ->
     PyDict.get "user_growth" sections
       = Some AnalyticsAgent__analyze_user_growth) /\
    (asked "agent_performance" = true ->
     PyDict.get "agent_performance" sections
       = Some AnalyticsAgent__analyze_agent_performance) /\
    PyDict.get "metrics" (self st') =
      Some (VList (log ++ [metric_record "report_generated" (VNum 1)
                             (S (ticks (env st)))])) /\
    (forall k, k <> "metrics" ->
               PyDict.get k (self st') = PyDict.get k (self st)).
Proof.
  intros Hreq Hm Hl asked.
  unfold AnalyticsAgent__generate_report.
  erewrite bind_ok by reflexivity.
  erewrite bind_ok by reflexivity.
  erewrite bind_ok by apply utcnow_run.
  rewrite Hreq.
  erewrite bind_ok by reflexivity.
  erewrite bind_ok by reflexivity.
  erewrite bind_ok by reflexivity.
  erewrite record_metric_then by (simpl; first [exact Hm|exact Hl]).
  unfold ret. do 2 eexists. split; [reflexivity|].
  fold (asked "revenue"). fold (asked "user_growth").
  fold (asked "agent_performance"). simpl.
  split; [|split; [|split; [|split; [|split]]]].
  - now destruct (asked "revenue"), (asked "user_growth"),
      (asked "agent_performance").
  - intros ->. now destruct (asked "user_growth"), (asked "agent_performance").
  - intros ->. now destruct (asked "revenue"), (asked "agent_performance").
  - intros ->. now destruct (asked "revenue"), (asked "user_growth").
  - now rewrite get_set_eq.
  - intros k Hk. now rewrite get_set_ne by exact Hk.
Qed.

(** X14: a report holds a section for each of ["revenue"], ["user_growth"]
    and ["agent_performance"] that occurs in the list asked for, in that
    order whatever the order of asking; other names in the list are ignored
    and a name asked twice gives one section.  The report carries no
    ["status"] field.  One metric is recorded, stamped after the report. *)
Theorem report_sections_are_those_requested
    (d : list (string * value)) (st : astate) (l log : list value)
    (n : string) :
  PyDict.get_default "metrics" (VList []) d = VList l ->
  PyDict.get "metrics" (self st) = Some (VList log) ->
  PyDict.get "logger" (self st) = Some (VLogger n) ->
  exists res sections st',
    AnalyticsAgent__generate_report (VDict d) st = (Ok (VDict res), st') /\
    PyDict.get "metrics" res = Some (VDict sections) /\
    PyDict.keys sections
      = List.filter (fun k => existsb (fun x => is_str x k) l)
          ["revenue"; "user_growth"; "agent_performance"] /\
    PyDict.get "status" res = None /\
    PyDict.get "timestamp" res
      = Some (VStr (isoformat py (clock py (ticks (env st))))) /\
    PyDict.get "metrics" (self st') =
      Some (VList (log ++ [metric_record "report_generated" (VNum 1)
                             (S (ticks (env st)))])).
Proof.
  intros Hreq Hm Hl.
  destruct (generate_report_run d st l log n Hreq Hm Hl)
    as (sections & st' & Hrun & Hkeys & _ & _ & _ & Hlog & _).
  do 3 eexists. split; [exact Hrun|].
  split; [reflexivity|]. split; [exact Hkeys|].
  split; [reflexivity|]. split; [reflexivity|exact Hlog].
Qed.





(** One reading step towards a property of the final state alone. *)
Ltac reading_step_to closing :=
  lazymatch goal with
  | |- match bind ?m ?k ?s with _ => _ end =>
      let H := fresh "Hreads" in
      assert (H : leaves_state m)
        by (unfold roi_insight, marketplace_insight; leaves_tac);
      let a := fresh "a" in
      let e := fresh "e" in
      let Ha := fresh "Ha" in
      destruct (leaves_state_case m s H) as [[a Ha]|[e Ha]];
      [ rewrite (bind_ok m k s s a Ha); cbv beta
      | rewrite (bind_raise m k s s e Ha); closing ];
      clear H
  end.

(** Whatever the data, a report or an analysis leaves every attribute but
    the metric log as it was, and the metric log a list. *)
Lemma generate_report_frame
    (data : value) (st : astate) (log : list value) (n : string) :
  PyDict.get "metrics" (self st) = Some (VList log) ->
  PyDict.get "logger" (self st) = Some (VLogger n) ->
  match AnalyticsAgent__generate_report data st with
  | (_, st') =>
      (exists log', PyDict.get "metrics" (self st') = Some (VList log')) /\
      (forall k, k <> "metrics" ->
                 PyDict.get k (self st') = PyDict.get k (self st))
  end.
Proof.
  intros Hm Hl. unfold AnalyticsAgent__generate_report.
  assert (Hsame : forall w,
             (exists log', PyDict.get "metrics" (self (AState (self st) w))
                           = Some (VList log')) /\
             (forall k, k <> "metrics" ->
                        PyDict.get k (self (AState (self st) w))
                        = PyDict.get k (self st))).
  { intros w. split; [now exists log|reflexivity]. }
  destruct st as [o w]. simpl in *.
  do 2 reading_step_to ltac:(exact (Hsame w)).
  erewrite bind_ok by apply utcnow_run. simpl.
  do 3 reading_step_to ltac:(exact (Hsame (tick w))).
  erewrite record_metric_then by (simpl; first [exact Hm|exact Hl]).
  unfold ret. simpl. split.
  - rewrite get_set_eq. now eexists.
  - intros k Hk. now rewrite get_set_ne by exact Hk.
Qed.

Lemma analyze_data_frame
    (data : value) (st : astate) (log : list value) (n : string) :
  PyDict.get "metrics" (self st) = Some (VList log) ->
  PyDict.get "logger" (self st) = Some (VLogger n) ->
  match AnalyticsAgent__analyze_data data st with
  | (_, st') =>
      (exists log', PyDict.get "metrics" (self st') = Some (VList log')) /\
      (forall k, k <> "metrics" ->
                 PyDict.get k (self st') = PyDict.get k (self st))
  end.
Proof.
  intros Hm Hl. unfold AnalyticsAgent__analyze_data.
  do 4 reading_step_to ltac:(split; [now exists log|reflexivity]).
  erewrite record_metric_then by (simpl; first [exact Hm|exact Hl]).
  erewrite bind_ok by apply utcnow_run.
  unfold ret. simpl. split.
  - rewrite get_set_eq. now eexists.
  - intros k Hk. now rewrite get_set_ne by exact Hk.
Qed.

Lemma analytics_monitor_run (st : astate) (n s mw : value) (la t0 : Z)
    (md : list (string * value)) :
  PyDict.get "name" (self st) = Some n ->
  PyDict.get "status" (self st) = Some s ->
  PyDict.get "last_active" (self st) = Some (VTime la) ->
  PyDict.get "created_at" (self st) = Some (VTime t0) ->
  PyDict.get "metrics_window" (self st) = Some mw ->
  PyDict.get "metrics_data" (self st) = Some (VDict md) ->
  monitor Analytics st =
    (Ok (VDict
           [("name", n); ("status", s);
            ("last_active", VStr (isoformat py la));
            ("uptime", VNum ((clock py (ticks (env st)) - t0) # 1000000));
            ("metrics",
             VDict [("analytics",
                     VDict [("metrics_window", mw);
                            ("metrics_count", of_nat (length md));
                            ("last_report",
                             VStr (isoformat py
                                     (clock py (S (ticks (env st))))))])])]),
     AState (self st) (tick (tick (env st)))).
Proof.
  intros Hn Hs Hla Hc Hw Hd. cbn [monitor]. unfold AnalyticsAgent_monitor.
  erewrite bind_ok by (apply (BaseAgent_monitor_run st n s la t0); assumption).
  erewrite bind_ok by (apply getattr_run; simpl; exact Hw).
  erewrite bind_ok by (apply getattr_run; simpl; exact Hd).
  erewrite bind_ok by reflexivity.
  erewrite bind_ok by apply utcnow_run.
  reflexivity.
Qed.

(** ** Onboarding: the flows and the progress of a user *)

Lemma set_set {V : Type} (k : string) (v v' : V) (d : list (string * V)) :
  PyDict.set k v (PyDict.set k v' d) = PyDict.set k v d.
Proof.
  induction d as [|[k0 v0] d IH]; simpl.
  - now rewrite String.eqb_refl.
  - destruct (String.eqb k k0) eqn:E; simpl.
    + now rewrite String.eqb_refl.
    + now rewrite E, IH.
Qed.

Lemma mem_get_some {V : Type} (k : string) (v : V) (d : list (string * V)) :
  PyDict.get k d = Some v -> PyDict.mem k d = true.
Proof. intros H. unfold PyDict.mem. now rewrite H. Qed.

Lemma mem_get_none {V : Type} (k : string) (d : list (string * V)) :
  PyDict.get k d = None -> PyDict.mem k d = false.
Proof. intros H. unfold PyDict.mem. now rewrite H. Qed.

(** A flow of [initialize], looked up by its name. *)
Lemma known_flow (flow_type : string) (steps : list string) :
  flow_steps flow_type = Some steps ->
  exists reward,
    flow_reward flow_type = Some reward /\
    forall (S : Type) (s : S),
      py_contains flow_type default_onboarding_flows s = (Ok true, s) /\
      py_getitem default_onboarding_flows flow_type s =
        (Ok (VDict [("steps", strs steps); ("completion_reward", reward)]), s).
Proof.
  unfold flow_steps, flow_reward, default_onboarding_flows, py_contains,
    py_getitem, PyDict.mem.
  simpl.
  destruct (String.eqb flow_type "default") eqn:E1;
    [|destruct (String.eqb flow_type "developer") eqn:E2;
      [|destruct (String.eqb flow_type "enterprise") eqn:E3]];
    simpl; intros H; try discriminate;
    injection H as <-; eexists; (split; [reflexivity|]);
    intros S s; split; reflexivity.
Qed.

Lemma unknown_flow (flow_type : string) :
  flow_steps flow_type = None ->
  forall (S : Type) (s : S),
    py_contains flow_type default_onboarding_flows s = (Ok false, s).
Proof.
  unfold flow_steps, default_onboarding_flows, py_contains, PyDict.mem.
  simpl.
  destruct (String.eqb flow_type "default") eqn:E1;
    [|destruct (String.eqb flow_type "developer") eqn:E2;
      [|destruct (String.eqb flow_type "enterprise") eqn:E3]];
    simpl; intros H; try discriminate; reflexivity.
Qed.

Lemma known_flow_has_steps (flow_type : string) (steps : list string) :
  flow_steps flow_type = Some steps ->
  exists first rest, steps = first :: rest.
Proof.
  unfold flow_steps, default_onboarding_flows. simpl.
  destruct (String.eqb flow_type "default");
    [|destruct (String.eqb flow_type "developer");
      [|destruct (String.eqb flow_type "enterprise")]];
    simpl; intros H; try discriminate; injection H as <-; now do 2 eexists.
Qed.

Lemma py_getitem_run {S : Type} (d : list (string * value)) (k : string)
    (v : value) (s : S) :
  PyDict.get k d = Some v -> py_getitem (VDict d) k s = (Ok v, s).
Proof. intros H. unfold py_getitem. now rewrite H. Qed.

Lemma progress_get_run
    (u k : string) (st : astate) (everyone e : list (string * value))
    (v : value) :
  PyDict.get "user_progress" (self st) = Some (VDict everyone) ->
  PyDict.get u everyone = Some (VDict e) ->
  PyDict.get k e = Some v ->
  progress_get u k st = (Ok v, st).
Proof.
  intros Hp Hu Hk. unfold progress_get.
  erewrite bind_ok by (apply getattr_run; exact Hp).
  erewrite bind_ok by (apply py_getitem_run; exact Hu).
  now apply py_getitem_run.
Qed.

Lemma progress_set_run
    (u k : string) (v : value) (st : astate)
    (everyone e : list (string * value)) :
  PyDict.get "user_progress" (self st) = Some (VDict everyone) ->
  PyDict.get u everyone = Some (VDict e) ->
  progress_set u k v st =
    (Ok tt,
     AState
       (PyDict.set "user_progress"
          (VDict (PyDict.set u (VDict (PyDict.set k v e)) everyone)) (self st))
       (env st)).
Proof.
  intros Hp Hu. unfold progress_set.
  erewrite bind_ok by (apply getattr_run; exact Hp).
  erewrite bind_ok by (apply py_getitem_run; exact Hu).
  erewrite bind_ok by reflexivity.
  erewrite bind_ok by reflexivity.
  reflexivity.
Qed.

Lemma flow_of_user_run
    (u flow_type : string) (st : astate) (everyone e : list (string * value))
    (steps : list string) :
  PyDict.get "onboarding_flows" (self st) = Some default_onboarding_flows ->
  PyDict.get "user_progress" (self st) = Some (VDict everyone) ->
  PyDict.get u everyone = Some (VDict e) ->
  PyDict.get "flow_type" e = Some (VStr flow_type) ->
  flow_steps flow_type = Some steps ->
  exists reward,
    flow_reward flow_type = Some reward /\
    flow_of_user u st =
      (Ok (VDict [("steps", strs steps); ("completion_reward", reward)]), st).
Proof.
  intros Hf Hp Hu Hft Hsteps.
  destruct (known_flow flow_type steps Hsteps) as (reward & Hreward & Hflow).
  exists reward. split; [exact Hreward|].
  unfold flow_of_user.
  erewrite bind_ok by (apply getattr_run; exact Hf).
  erewrite bind_ok
    by (apply (progress_get_run u "flow_type" st everyone e); eassumption).
  exact (proj2 (Hflow astate st)).
Qed.

Lemma index_of_found (x : string) (l : list value) (i : nat) :
  index_of x l = Some i -> existsb (fun y => is_str y x) l = true.
Proof.
  revert i. induction l as [|y l IH]; intros i; simpl; [discriminate|].
  destruct (is_str y x); [reflexivity|].
  destruct (index_of x l) as [j|]; [|discriminate].
  intros _. now apply (IH j).
Qed.

Lemma index_of_missing (x : string) (l : list value) :
  index_of x l = None -> existsb (fun y => is_str y x) l = false.
Proof.
  induction l as [|y l IH]; simpl; [reflexivity|].
  destruct (is_str y x); [discriminate|].
  destruct (index_of x l); [discriminate|]. intros _. now apply IH.
Qed.

Lemma start_onboarding_run
    (u flow_type : string) (st : astate) (everyone : list (string * value))
    (first : string) (rest : list string) :
  onboarding_ready (self st) everyone ->
  flow_steps flow_type = Some (first :: rest) ->
  UserOnboardingAgent__start_onboarding u flow_type st =
    (Ok (VDict [("status", VStr "success");
                ("user_id", VStr u);
                ("flow_type", VStr flow_type);
                ("first_step",
                 UserOnboardingAgent__prepare_step u (VStr first))]),
     AState
       (PyDict.set "user_progress"
          (VDict
             (PyDict.set u
                (progress_entry flow_type first []
                   (VStr (isoformat py (clock py (ticks (env st)))))
                   (VStr (isoformat py (clock py (S (ticks (env st)))))))
                everyone))
          (self st))
       (tick (tick (env st)))).
Proof.
  intros [Hf Hp] Hsteps.
  destruct (known_flow flow_type _ Hsteps) as (reward & _ & Hflow).
  unfold UserOnboardingAgent__start_onboarding.
  erewrite bind_ok by (apply getattr_run; exact Hf).
  erewrite bind_ok by (apply (Hflow astate st)). cbn [negb].
  erewrite bind_ok by (apply getattr_run; exact Hf).
  erewrite bind_ok by (apply (Hflow astate st)).
  erewrite bind_ok by reflexivity.
  erewrite bind_ok by reflexivity.
  erewrite bind_ok by apply utcnow_run.
  erewrite bind_ok by apply utcnow_run.
  erewrite bind_ok by (apply getattr_run; exact Hp).
  erewrite bind_ok by reflexivity.
  erewrite bind_ok by reflexivity.
  erewrite bind_ok by reflexivity.
  erewrite bind_ok by reflexivity.
  reflexivity.
Qed.

(** One call of [_track_progress] for a user who is at [cur] in a flow of
    [initialize], with a step of that flow. *)
Lemma track_progress_run
    (u step flow_type cur : string) (done steps : list string)
    (started active : value) (st : astate)
    (everyone : list (string * value)) (i : nat) :
  onboarding_ready (self st) everyone ->
  PyDict.get u everyone
    = Some (progress_entry flow_type cur done started active) ->
  flow_steps flow_type = Some steps ->
  index_of step (map VStr steps) = Some i ->
  exists reward,
    flow_reward flow_type = Some reward /\
    let now := VStr (isoformat py (clock py (ticks (env st)))) in
    let '(next_step, cur') :=
      match nth_error steps (S i) with
      | Some next =>
          (UserOnboardingAgent__prepare_step u (VStr next), next)
      | None =>
          (VDict [("status", VStr "completed");
                  ("reward", UserOnboardingAgent__grant_reward u reward);
                  ("next_steps", UserOnboardingAgent__generate_next_steps u)],
           cur)
      end in
    UserOnboardingAgent__track_progress u step st =
      (Ok (VDict [("status", VStr "success");
                  ("user_id", VStr u);
                  ("completed_step", VStr step);
                  ("next_step", next_step)]),
       AState
         (PyDict.set "user_progress"
            (VDict
               (PyDict.set u
                  (progress_entry flow_type cur' (done ++ [cur]) started now)
                  everyone))
            (self st))
         (tick (env st))).
Proof.
  intros [Hf Hp] Hu Hsteps Hi.
  destruct (flow_of_user_run u flow_type st everyone _ steps Hf Hp Hu eq_refl
              Hsteps) as (reward & Hreward & Hflow).
  exists reward. split; [exact Hreward|]. intros now.
  unfold UserOnboardingAgent__track_progress.
  erewrite bind_ok by (apply getattr_run; exact Hp).
  erewrite bind_ok by (simpl; rewrite (mem_get_some _ _ _ Hu); reflexivity).
  cbn [negb].
  erewrite bind_ok by (apply getattr_run; exact Hp).
  erewrite bind_ok by (apply py_getitem_run; exact Hu).
  erewrite bind_ok by exact Hflow.
  erewrite bind_ok by reflexivity.
  erewrite bind_ok
    by (unfold strs; simpl; rewrite (index_of_found _ _ _ Hi); reflexivity).
  cbn [negb].
  erewrite bind_ok
    by (eapply (progress_get_run u "completed_steps" st everyone);
        [exact Hp|exact Hu|reflexivity]).
  unfold strs at 1.
  set (e0 := [("flow_type", VStr flow_type); ("current_step", VStr cur);
              ("completed_steps", strs done); ("start_time", started);
              ("last_activity", active)]) in *.
  assert (Hu0 : PyDict.get u everyone = Some (VDict e0)) by exact Hu.
  set (e1 := PyDict.set "completed_steps" (VList (map VStr done ++ [VStr cur]))
               e0).
  set (o1 := PyDict.set "user_progress"
               (VDict (PyDict.set u (VDict e1) everyone)) (self st)).
  erewrite (bind_ok _ _ st (AState o1 (env st)) tt).
  2:{ erewrite bind_ok
        by (eapply (progress_get_run u "current_step" st everyone);
            [exact Hp|exact Hu0|reflexivity]).
      apply progress_set_run; [exact Hp|exact Hu0]. }
  erewrite bind_ok by reflexivity.
  erewrite bind_ok by (unfold py_index, strs; rewrite Hi; reflexivity).
  erewrite bind_ok by reflexivity.
  erewrite bind_ok by reflexivity.
  assert (Hp1 : PyDict.get "user_progress" o1
                = Some (VDict (PyDict.set u (VDict e1) everyone)))
    by apply get_set_eq.
  assert (Hf1 : PyDict.get "onboarding_flows" o1
                = Some default_onboarding_flows)
    by (unfold o1; rewrite get_set_ne by discriminate; exact Hf).
  rewrite length_map, Nat.add_1_r.
  destruct (nth_error steps (S i)) as [next|] eqn:Hnext.
  - assert (Hlt : (S i <? length steps)%nat = true).
    { apply Nat.ltb_lt. apply nth_error_Some. now rewrite Hnext. }
    rewrite Hlt.
    set (e2 := PyDict.set "current_step" (VStr next) e1).
    set (o2 := PyDict.set "user_progress"
                 (VDict (PyDict.set u (VDict e2)
                           (PyDict.set u (VDict e1) everyone))) o1).
    erewrite (bind_ok _ _ (AState o1 (env st)) (AState o2 (env st))
                (UserOnboardingAgent__prepare_step u (VStr next))).
    2:{ erewrite bind_ok by reflexivity.
        erewrite bind_ok
          by (unfold py_item_at, strs; rewrite nth_error_map, Hnext;
              reflexivity).
        erewrite bind_ok
          by (apply progress_set_run; [exact Hp1|apply get_set_eq]).
        erewrite bind_ok
          by (eapply (progress_get_run u "current_step");
              [apply get_set_eq|apply get_set_eq|reflexivity]).
        reflexivity. }
    erewrite bind_ok by apply utcnow_run.
    erewrite bind_ok
      by (apply progress_set_run; simpl; apply get_set_eq).
    unfold ret. simpl. unfold o2, o1. rewrite !set_set.
    unfold progress_entry, strs. now rewrite map_app.
  - assert (Hge : (S i <? length steps)%nat = false).
    { apply Nat.ltb_ge. now apply nth_error_None. }
    rewrite Hge.
    erewrite (bind_ok _ _ (AState o1 (env st)) (AState o1 (env st))).
    2:{ unfold UserOnboardingAgent__complete_onboarding.
        erewrite bind_ok by (apply getattr_run; exact Hp1).
        erewrite bind_ok by (apply py_getitem_run; apply get_set_eq).
        destruct (flow_of_user_run u flow_type (AState o1 (env st))
                    _ e1 steps Hf1 Hp1 (get_set_eq _ _ _) eq_refl Hsteps)
          as (reward' & Hreward' & Hflow').
        rewrite Hreward in Hreward'. injection Hreward' as <-.
        erewrite bind_ok by exact Hflow'.
        erewrite bind_ok by reflexivity.
        reflexivity. }
    erewrite bind_ok by apply utcnow_run.
    erewrite bind_ok
      by (apply progress_set_run; simpl; [exact Hp1|apply get_set_eq]).
    unfold ret. simpl. unfold o1. rewrite !set_set.
    unfold progress_entry, strs. now rewrite map_app.
Qed.

(** ** Onboarding: what [monitor] counts *)

Lemma users_of_flow_acc
    (flow_type : string) (users : list (string * user_state))
    (acc : list value) (st : astate) :
  for_each (map snd (progress_of users))
    (fun u acc =>
       ft <~ py_getitem u "flow_type";;
       ret (if is_str ft flow_type then acc ++ [u] else acc))
    acc st =
  (Ok (acc ++ map entry_of
                (List.filter
                   (fun p => String.eqb (progress_flow p) flow_type)
                   (map snd users))),
   st).
Proof.
  revert acc. induction users as [|[uid p] users IH]; intros acc; simpl.
  - now rewrite app_nil_r.
  - erewrite bind_ok by reflexivity. simpl.
    destruct (String.eqb (progress_flow p) flow_type); simpl.
    + unfold ret at 1. rewrite IH. now rewrite <- app_assoc.
    + apply IH.
Qed.

Lemma users_of_flow_run
    (flow_type : string) (users : list (string * user_state)) (st : astate) :
  users_of_flow flow_type (progress_of users) st =
  (Ok (map entry_of
         (List.filter (fun p => String.eqb (progress_flow p) flow_type)
            (map snd users))),
   st).
Proof. unfold users_of_flow. now rewrite users_of_flow_acc. Qed.

Lemma count_completed_acc
    (flow : value) (steps : list value) (ps : list user_state) (n : nat)
    (st : astate) :
  (forall s : astate, py_getitem flow "steps" s = (Ok (VList steps), s)) ->
  for_each (map entry_of ps)
    (fun u n =>
       done_steps <~ py_getitem u "completed_steps";;
       k <~ py_len done_steps;;
       steps <~ py_getitem flow "steps";;
       m <~ py_len steps;;
       ret (if Nat.eqb k m then S n else n))
    n st =
  (Ok (n + length
             (List.filter
                (fun p => Nat.eqb (length (progress_completed p))
                            (length steps))
                ps))%nat,
   st).
Proof.
  intros Hsteps. revert n. induction ps as [|p ps IH]; intros n;
    cbn [map for_each List.filter].
  - unfold ret. simpl. now rewrite Nat.add_0_r.
  - erewrite (bind_ok _ _ st st
                (if Nat.eqb (length (progress_completed p)) (length steps)
                 then S n else n)).
    2:{ erewrite bind_ok by (unfold entry_of, progress_entry; reflexivity).
        erewrite bind_ok by reflexivity.
        erewrite bind_ok by apply Hsteps.
        erewrite bind_ok by reflexivity.
        unfold ret, strs. now rewrite length_map. }
    rewrite IH.
    destruct (Nat.eqb (length (progress_completed p)) (length steps)); simpl;
      [now rewrite Nat.add_succ_r|reflexivity].
Qed.

(** One round of the loop of [_calculate_completion_rates]. *)
Lemma completion_rate_round
    (flow_type : string) (flow : value) (steps : list value)
    (users : list (string * user_state)) (rates : list (string * value))
    (st : astate) :
  PyDict.get "user_progress" (self st) = Some (VDict (progress_of users)) ->
  (forall s : astate, py_getitem flow "steps" s = (Ok (VList steps), s)) ->
  (progress_v <~ getattr "user_progress";;
   progress <~ as_dict progress_v;;
   users <~ users_of_flow flow_type progress;;
   match users with
   | [] => ret (PyDict.set flow_type (VNum 0) rates)
   | _ :: _ =>
       completed <~
         for_each users
           (fun u n =>
              done_steps <~ py_getitem u "completed_steps";;
              k <~ py_len done_steps;;
              steps <~ py_getitem flow "steps";;
              m <~ py_len steps;;
              ret (if Nat.eqb k m then S n else n))
           0%nat;;
       ret (PyDict.set flow_type
              (VNum (Z.of_nat completed # Pos.of_nat (length users)))
              rates)
   end) st =
  (Ok (PyDict.set flow_type
         (VNum (completion_rate users flow_type (length steps))) rates),
   st).
Proof.
  intros Hp Hsteps.
  erewrite bind_ok by (apply getattr_run; exact Hp).
  erewrite bind_ok by reflexivity.
  erewrite bind_ok by apply users_of_flow_run.
  unfold completion_rate.
  destruct (List.filter _ (map snd users)) as [|p ps] eqn:Hmine;
    [reflexivity|].
  change (map entry_of (p :: ps)) with (entry_of p :: map entry_of ps) at 1.
  cbv iota.
  change (entry_of p :: map entry_of ps) with (map entry_of (p :: ps)).
  erewrite bind_ok by (apply count_completed_acc; exact Hsteps).
  unfold ret. now rewrite length_map.
Qed.

Lemma onboarding_monitor_run
    (users : list (string * user_state)) (st : astate) :
  onboarding_ready (self st) (progress_of users) ->
  PyDict.get "conversion_metrics" (self st) = Some (VDict []) ->
  monitor UserOnboarding st =
    (Ok (VDict
           [("completion_rates",
             VDict [("default", VNum (completion_rate users "default" 5));
                    ("developer", VNum (completion_rate users "developer" 5));
                    ("enterprise",
                     VNum (completion_rate users "enterprise" 5))]);
            ("conversion_metrics", VDict []);
            ("active_users", of_nat (length users));
            ("last_check",
             VStr (isoformat py (clock py (ticks (env st)))))]),
     AState (self st) (tick (env st))).
Proof.
  intros [Hf Hp] Hcm. cbn [monitor]. unfold UserOnboardingAgent_monitor.
  erewrite (bind_ok _ _ st st).
  2:{ unfold UserOnboardingAgent__calculate_completion_rates.
      erewrite bind_ok by (apply getattr_run; exact Hf).
      erewrite bind_ok by reflexivity.
      erewrite bind_ok.
      2:{ cbn [for_each].
          erewrite bind_ok
            by (apply completion_rate_round; [exact Hp|reflexivity]).
          erewrite bind_ok
            by (apply completion_rate_round; [exact Hp|reflexivity]).
          erewrite bind_ok
            by (apply completion_rate_round; [exact Hp|reflexivity]).
          reflexivity. }
      reflexivity. }
  erewrite (bind_ok _ _ st st (VDict [])).
  2:{ unfold UserOnboardingAgent__gather_conversion_metrics.
      erewrite bind_ok by (apply getattr_run; exact Hf).
      erewrite bind_ok by reflexivity.
      cbn [for_each].
      erewrite bind_ok.
      2:{ do 3 (erewrite bind_ok;
                [|erewrite bind_ok by (apply getattr_run; exact Hcm);
                  erewrite bind_ok by reflexivity; reflexivity]).
          reflexivity. }
      reflexivity. }
  erewrite bind_ok by (apply getattr_run; exact Hp).
  erewrite bind_ok by reflexivity.
  erewrite bind_ok by apply utcnow_run.
  unfold ret, progress_of. simpl. now rewrite length_map.
Qed.

Lemma known_flow_cases (flow_type : string) (steps : list string) :
  flow_steps flow_type = Some steps ->
  (flow_type = "default" /\
   steps = ["welcome"; "feature_overview"; "first_agent";
            "marketplace_intro"; "support_resources"]) \/
  (flow_type = "developer" /\
   steps = ["welcome"; "api_overview"; "sdk_setup"; "first_integration";
            "documentation"]) \/
  (flow_type = "enterprise" /\
   steps = ["welcome"; "enterprise_features"; "team_setup";
            "security_overview"; "support_channels"]).
Proof.
  unfold flow_steps, default_onboarding_flows. simpl.
  destruct (String.eqb_spec flow_type "default") as [->|_];
    [|destruct (String.eqb_spec flow_type "developer") as [->|_];
      [|destruct (String.eqb_spec flow_type "enterprise") as [->|_]]];
    simpl; intros H; try discriminate; injection H as <-; auto.
Qed.

Lemma index_of_none_iff (x : string) (l : list string) :
  index_of x (map VStr l) = None <-> ~ In x l.
Proof.
  induction l as [|y l IH]; simpl.
  - split; [intros _ []|reflexivity].
  - destruct (String.eqb_spec y x) as [->|Hne].
    + split; [discriminate|]. intros H. exfalso. apply H. now left.
    + destruct (index_of x (map VStr l)) as [i|].
      * split; [discriminate|]. intros H. exfalso.
        assert (Hin : ~ In x l) by (intros Hin; apply H; now right).
        apply (proj2 IH) in Hin. discriminate.
      * split; [|reflexivity]. intros _ [Heq|Hin]; [now apply Hne|].
        now apply (proj1 IH).
Qed.

(** ** Onboarding: requests that are refused *)

(** X16: asked to start a flow that is none of the three of [initialize],
    the agent answers with an error envelope naming the flow (it does not
    raise) and registers nothing: the agent and the world are as before. *)
Theorem start_onboarding_unknown_flow_refused
    (u flow_type : string) (st : astate) (everyone : list (string * value)) :
  onboarding_ready (self st) everyone ->
  flow_steps flow_type = None ->
  UserOnboardingAgent__start_onboarding u flow_type st =
    (Ok (error_envelope ("Invalid flow type: " +:+ flow_type)), st).
Proof.
  intros [Hf _] Hunknown. unfold UserOnboardingAgent__start_onboarding.
  erewrite bind_ok by (apply getattr_run; exact Hf).
  erewrite bind_ok by (apply (unknown_flow flow_type Hunknown)).
  reflexivity.
Qed.

(** X17: progress reported for a user who never started, or with a step
    that is not one of the user's flow, is refused with an error envelope
    (["User not found"], ["Invalid step"]) and changes nothing: the step is
    not recorded, the time of last activity not moved. *)
Theorem track_progress_refusals
    (u step : string) (st : astate) (everyone : list (string * value)) :
  onboarding_ready (self st) everyone ->
  (PyDict.get u everyone = None ->
   UserOnboardingAgent__track_progress u step st =
     (Ok (error_envelope "User not found"), st)) /\
  (forall flow_type cur done started active steps,
     PyDict.get u everyone
       = Some (progress_entry flow_type cur done started active) ->
     flow_steps flow_type = Some steps ->
     ~ In step steps ->
     UserOnboardingAgent__track_progress u step st =
       (Ok (error_envelope "Invalid step"), st)).
Proof.
  intros [Hf Hp]. split.
  - intros Hnone. unfold UserOnboardingAgent__track_progress.
    erewrite bind_ok by (apply getattr_run; exact Hp).
    erewrite bind_ok
      by (simpl; rewrite (mem_get_none _ _ Hnone); reflexivity).
    reflexivity.
  - intros flow_type cur done started active steps Hu Hsteps Hnot.
    destruct (flow_of_user_run u flow_type st everyone _ steps Hf Hp Hu
                eq_refl Hsteps) as (reward & _ & Hflow).
    unfold UserOnboardingAgent__track_progress.
    erewrite bind_ok by (apply getattr_run; exact Hp).
    erewrite bind_ok by (simpl; rewrite (mem_get_some _ _ _ Hu); reflexivity).
    cbn [negb].
    erewrite bind_ok by (apply getattr_run; exact Hp).
    erewrite bind_ok by (apply py_getitem_run; exact Hu).
    erewrite bind_ok by exact Hflow.
    erewrite bind_ok by reflexivity.
    erewrite bind_ok
      by (unfold strs; simpl;
          rewrite (index_of_missing _ _ (proj2 (index_of_none_iff _ _) Hnot));
          reflexivity).
    reflexivity.
Qed.

(** ** Onboarding: starting and advancing *)

(** X18: starting a known flow puts the user at the first step of the flow
    with nothing completed, whatever progress the user had before (starting
    again starts over); the other users and the other attributes are left
    alone, and the first step is handed back prepared. *)
Theorem start_onboarding_starts_over
    (u flow_type : string) (st : astate) (everyone : list (string * value))
    (steps : list string) :
  onboarding_ready (self st) everyone ->
  flow_steps flow_type = Some steps ->
  exists first res st' everyone',
    nth_error steps 0 = Some first /\
    UserOnboardingAgent__start_onboarding u flow_type st
      = (Ok (VDict res), st') /\
    PyDict.get "status" res = Some (VStr "success") /\
    PyDict.get "first_step" res
      = Some (UserOnboardingAgent__prepare_step u (VStr first)) /\
    PyDict.get "user_progress" (self st') = Some (VDict everyone') /\
    PyDict.get u everyone'
      = Some (progress_entry flow_type first []
                (VStr (isoformat py (clock py (ticks (env st)))))
                (VStr (isoformat py (clock py (S (ticks (env st))))))) /\
    (forall other, other <> u ->
                   PyDict.get other everyone' = PyDict.get other everyone) /\
    (forall k, k <> "user_progress" ->
               PyDict.get k (self st') = PyDict.get k (self st)).
Proof.
  intros Hready Hsteps.
  destruct (known_flow_has_steps _ _ Hsteps) as (first & rest & ->).
  exists first. do 3 eexists. split; [reflexivity|].
  split; [apply (start_onboarding_run u flow_type st everyone first rest);
          assumption|].
  split; [reflexivity|]. split; [reflexivity|]. simpl.
  split; [apply get_set_eq|]. split; [apply get_set_eq|].
  split.
  - intros other Hne. now apply get_set_ne.
  - intros k Hk. now apply get_set_ne.
Qed.

(** X19: a step reported for a user moves the user to the step that
    follows the reported one in the flow, and what is appended to the
    completed steps is the step the user was at, not the step reported:
    the order of the flow is not enforced. *)
Theorem track_progress_records_current_step
    (u step flow_type cur next : string) (done steps : list string)
    (started active : value) (st : astate)
    (everyone : list (string * value)) (i : nat) :
  onboarding_ready (self st) everyone ->
  PyDict.get u everyone
    = Some (progress_entry flow_type cur done started active) ->
  flow_steps flow_type = Some steps ->
  index_of step (map VStr steps) = Some i ->
  nth_error steps (S i) = Some next ->
  exists res st' everyone',
    UserOnboardingAgent__track_progress u step st = (Ok (VDict res), st') /\
    PyDict.get "completed_step" res = Some (VStr step) /\
    PyDict.get "next_step" res
      = Some (UserOnboardingAgent__prepare_step u (VStr next)) /\
    PyDict.get "user_progress" (self st') = Some (VDict everyone') /\
    PyDict.get u everyone'
      = Some (progress_entry flow_type next (done ++ [cur]) started
                (VStr (isoformat py (clock py (ticks (env st)))))) /\
    (forall other, other <> u ->
                   PyDict.get other everyone' = PyDict.get other everyone).
Proof.
  intros Hready Hu Hsteps Hi Hnext.
  destruct (track_progress_run u step flow_type cur done steps started active
              st everyone i Hready Hu Hsteps Hi) as (reward & _ & Hrun).
  rewrite Hnext in Hrun. simpl in Hrun.
  do 3 eexists. split; [exact Hrun|].
  split; [reflexivity|]. split; [reflexivity|]. simpl.
  split; [apply get_set_eq|]. split; [apply get_set_eq|].
  intros other Hne. now apply get_set_ne.
Qed.

(** X20: reporting the last step of the flow completes the onboarding: the
    reward of the flow is granted, wherever in the flow the user was; the
    user stays at the current step, which is appended to the completed
    ones. *)
Theorem track_progress_last_step_grants_reward
    (u step flow_type cur : string) (done steps : list string)
    (started active : value) (st : astate)
    (everyone : list (string * value)) (i : nat) :
  onboarding_ready (self st) everyone ->
  PyDict.get u everyone
    = Some (progress_entry flow_type cur done started active) ->
  flow_steps flow_type = Some steps ->
  index_of step (map VStr steps) = Some i ->
  S i = length steps ->
  exists reward res st' everyone',
    flow_reward flow_type = Some reward /\
    UserOnboardingAgent__track_progress u step st = (Ok (VDict res), st') /\
    PyDict.get "next_step" res
      = Some (VDict [("status", VStr "completed");
                     ("reward",
                      VDict [("type", reward); ("granted", VBool true)]);
                     ("next_steps",
                      UserOnboardingAgent__generate_next_steps u)]) /\
    PyDict.get "user_progress" (self st') = Some (VDict everyone') /\
    PyDict.get u everyone'
      = Some (progress_entry flow_type cur (done ++ [cur]) started
                (VStr (isoformat py (clock py (ticks (env st)))))).
Proof.
  intros Hready Hu Hsteps Hi Hlast.
  destruct (track_progress_run u step flow_type cur done steps started active
              st everyone i Hready Hu Hsteps Hi) as (reward & Hreward & Hrun).
  assert (Hnone : nth_error steps (S i) = None)
    by (apply nth_error_None; lia).
  rewrite Hnone in Hrun. simpl in Hrun.
  exists reward. do 3 eexists. split; [exact Hreward|].
  split; [exact Hrun|]. split; [reflexivity|]. simpl.
  split; apply get_set_eq.
Qed.

(** ** Messages between agents *)

(** X21: [collaborate] hands the message to the target, and the base
    [receive_message] acknowledges it without looking at it: the answer
    names the caller (not the target) and carries the time as a [datetime]
    (not as the ISO string [record_metric] writes).  Each agent logs one
    line on its own logger; the attributes of the caller are untouched and
    the clock is read once. *)
Theorem collaborate_is_acknowledged
    (target : list (string * value)) (message : value) (st : astate)
    (n tn : value) (ln tl : string) :
  PyDict.get "name" (self st) = Some n ->
  PyDict.get "logger" (self st) = Some (VLogger ln) ->
  PyDict.get "name" target = Some tn ->
  PyDict.get "logger" target = Some (VLogger tl) ->
  BaseAgent_collaborate target message st =
    (Ok (VDict [("status", VStr "received"); ("from", n);
                ("timestamp", VTime (clock py (ticks (env st))))]),
     AState (self st)
       (tick
          (emit tl "info" ("Received message from " +:+ py_str n)
             (emit ln "info" ("Collaborating with " +:+ py_str tn)
                (env st))))).
Proof.
  intros Hn Hl Htn Htl. unfold BaseAgent_collaborate.
  set (w1 := emit ln "info" ("Collaborating with " +:+ py_str tn) (env st)).
  assert (Hrecv :
    BaseAgent_receive_message (self st) message (AState target w1) =
      (Ok (VDict [("status", VStr "received"); ("from", n);
                  ("timestamp", VTime (clock py (ticks (env st))))]),
       AState target
         (tick (emit tl "info" ("Received message from " +:+ py_str n) w1)))).
  { unfold BaseAgent_receive_message.
    erewrite bind_ok.
    2:{ apply (logger_call_run "info" _ (AState target w1) tl
                 ("Received message from " +:+ py_str n) Htl).
        unfold attr_of. rewrite Hn. reflexivity. }
    erewrite bind_ok by (unfold attr_of; rewrite Hn; reflexivity).
    erewrite bind_ok by apply utcnow_run.
    reflexivity. }
  erewrite bind_ok.
  2:{ apply (logger_call_run "info" _ st ln
               ("Collaborating with " +:+ py_str tn) Hl).
      unfold attr_of. rewrite Htn. reflexivity. }
  cbv beta. simpl self. simpl env. fold w1. rewrite Hrecv. reflexivity.
Qed.

(** X22: an agent of one of the three default types reads, right after the
    factory made it, ["<name> Agent (Status: initialized)"]: neither
    construction nor [initialize] moves the status on. *)
Theorem created_agent_str
    (v : variant) (tag name : string) (d : list (string * value)) (w : world) :
  default_tag v = Some tag ->
  exists a f1,
    create_agent tag name (VDict d) (AgentFactory w) = (Ok a, f1) /\
    BaseAgent_str (AState (agent_dict a) (fenv f1)) =
      (Ok (name +:+ " Agent (Status: initialized)"),
       AState (agent_dict a) (fenv f1)).
Proof.
  intros Htag.
  destruct v; simpl in Htag; inversion Htag; subst tag;
    do 2 eexists; (split; [lazy; reflexivity|]); reflexivity.
Qed.

(** ** Onboarding: [_optimize_flow] *)

Lemma reads_bind {S A B : Type} (m : M S A) (k : A -> M S B) (s : S) :
  snd (m s) = s ->
  (forall a, m s = (Ok a, s) -> snd (k a s) = s) ->
  snd (bind m k s) = s.
Proof.
  intros Hm Hk. unfold bind.
  destruct (m s) as [[a|e] s'] eqn:E; simpl in Hm; subst s'.
  - now apply Hk.
  - reflexivity.
Qed.

Lemma all_strings_strs (l : list string) : all_strings (map VStr l) = Some l.
Proof. induction l as [|x l IH]; simpl; [reflexivity|now rewrite IH]. Qed.

Ltac reads_here :=
  unfold completed_users, flow_step_completion,
    UserOnboardingAgent__calculate_average_completion_time,
    UserOnboardingAgent__generate_flow_optimizations,
    UserOnboardingAgent__apply_flow_optimizations,
    UserOnboardingAgent__optimize_step;
  leaves_tac.

Lemma analyze_flow_metrics_reads
    (flow_type : string) (steps : list string) (st : astate)
    (everyone : list (string * value)) :
  onboarding_ready (self st) everyone ->
  flow_steps flow_type = Some steps ->
  snd (UserOnboardingAgent__analyze_flow_metrics flow_type st) = st /\
  forall metrics,
    UserOnboardingAgent__analyze_flow_metrics flow_type st = (Ok metrics, st) ->
    exists sc average,
      metrics = VDict [("step_completion", VDict sc);
                       ("average_time", average)].
Proof.
  intros [Hf Hp] Hsteps.
  destruct (known_flow flow_type steps Hsteps) as (reward & _ & Hflow).
  unfold UserOnboardingAgent__analyze_flow_metrics.
  erewrite bind_ok by (apply getattr_run; exact Hp).
  erewrite bind_ok by reflexivity.
  match goal with
  | |- context [bind ?m ?k st] =>
      assert (Hreads : leaves_state m) by reads_here;
      destruct (leaves_state_case m st Hreads) as [[users Hu]|[e Hu]];
      [rewrite (bind_ok m k st st users Hu)
      |rewrite (bind_raise m k st st e Hu); split; [reflexivity|discriminate]];
      clear Hreads
  end.
  erewrite bind_ok by (apply getattr_run; exact Hf).
  erewrite bind_ok by (apply (Hflow astate st)).
  erewrite bind_ok by reflexivity.
  unfold strs. rewrite all_strings_strs.
  match goal with
  | |- context [bind ?m ?k st] =>
      assert (Hreads : leaves_state m) by reads_here;
      destruct (leaves_state_case m st Hreads) as [[sc Hsc]|[e Hsc]];
      [rewrite (bind_ok m k st st sc Hsc)
      |rewrite (bind_raise m k st st e Hsc); split; [reflexivity|discriminate]];
      clear Hreads
  end.
  match goal with
  | |- context [bind ?m ?k st] =>
      assert (Hreads : leaves_state m) by reads_here;
      destruct (leaves_state_case m st Hreads) as [[avg Havg]|[e Havg]];
      [rewrite (bind_ok m k st st avg Havg)
      |rewrite (bind_raise m k st st e Havg);
       split; [reflexivity|discriminate]];
      clear Hreads
  end.
  unfold ret. split; [reflexivity|].
  intros metrics H. injection H as <-. now do 2 eexists.
Qed.

(** X23: [_optimize_flow] only reports.  Whatever the users on record, on
    an agent with the flows of [initialize] it returns or raises with the
    agent and the world exactly as before: the changes it proposes are
    not applied to the flow, nothing is logged, the clock is not read. *)
Theorem optimize_flow_changes_nothing
    (flow_type : string) (st : astate) (everyone : list (string * value)) :
  onboarding_ready (self st) everyone ->
  snd (UserOnboardingAgent__optimize_flow flow_type st) = st.
Proof.
  intros Hready. pose proof Hready as [Hf Hp].
  unfold UserOnboardingAgent__optimize_flow.
  erewrite bind_ok by (apply getattr_run; exact Hf).
  destruct (flow_steps flow_type) as [steps|] eqn:Hsteps.
  2:{ erewrite bind_ok by (apply (unknown_flow flow_type Hsteps)).
      reflexivity. }
  destruct (known_flow flow_type steps Hsteps) as (reward & _ & Hflow).
  erewrite bind_ok by (apply (Hflow astate st)). cbn [negb].
  destruct (analyze_flow_metrics_reads flow_type steps st everyone Hready
              Hsteps) as [Hsame Hshape].
  apply reads_bind; [exact Hsame|]. intros metrics Hmetrics.
  destruct (Hshape metrics Hmetrics) as (sc & average & ->).
  erewrite bind_ok by reflexivity. cbv iota.
  apply reads_bind; [apply leaves_bind; [reads_here|intros ?; apply leaves_ret]|].
  intros optimizations Hopt.
  unfold UserOnboardingAgent__generate_flow_optimizations in Hopt.
  apply bind_inv in Hopt. destruct Hopt as (changes & s1 & _ & Hret).
  injection Hret as <- _.
  erewrite bind_ok by reflexivity.
  apply reads_bind.
  - destruct (py_truthy (VList changes)); [|reflexivity].
    erewrite bind_ok by reflexivity. cbv iota.
    assert (Hreads : leaves_state
              (UserOnboardingAgent__apply_flow_optimizations flow_type changes))
      by reads_here.
    apply Hreads.
  - intros _ _. reflexivity.
Qed.

Lemma no_user_of_flow (flow_type : string) (users : list (string * user_state)) :
  (forall uid p, In (uid, p) users -> progress_flow p <> flow_type) ->
  List.filter (fun p => String.eqb (progress_flow p) flow_type)
    (map snd users) = [].
Proof.
  induction users as [|[uid p] users IH]; intros Hnone; simpl; [reflexivity|].
  destruct (String.eqb_spec (progress_flow p) flow_type) as [Heq|_].
  - exfalso. apply (Hnone uid p); [now left|exact Heq].
  - apply IH. intros uid' p' Hin. apply (Hnone uid' p'). now right.
Qed.

(** X24: for a flow that no user on record has started, every rate of
    completion counts as 0.0, which is below the 0.7 asked for: each step
    of the flow is proposed for simplification, in the order of the flow,
    and the average time is 0.0. *)
Theorem optimize_flow_without_users
    (flow_type : string) (steps : list string) (st : astate)
    (users : list (string * user_state)) :
  onboarding_ready (self st) (progress_of users) ->
  flow_steps flow_type = Some steps ->
  (forall uid p, In (uid, p) users -> progress_flow p <> flow_type) ->
  UserOnboardingAgent__optimize_flow flow_type st =
    (Ok (VDict
           [("status", VStr "success");
            ("flow_type", VStr flow_type);
            ("metrics",
             VDict [("step_completion",
                     VDict (map (fun s => (s, VNum 0)) steps));
                    ("average_time", VNum 0)]);
            ("optimizations",
             VDict [("changes", VList (map step_optimization steps))])]),
     st).
Proof.
  intros [Hf Hp] Hsteps Hnone.
  destruct (known_flow flow_type steps Hsteps) as (reward & _ & Hflow).
  unfold UserOnboardingAgent__optimize_flow.
  erewrite bind_ok by (apply getattr_run; exact Hf).
  erewrite bind_ok by (apply (Hflow astate st)). cbn [negb].
  erewrite (bind_ok _ _ st st
              (VDict [("step_completion",
                       VDict (map (fun s => (s, VNum 0)) steps));
                      ("average_time", VNum 0)])).
  2:{ unfold UserOnboardingAgent__analyze_flow_metrics.
      erewrite bind_ok by (apply getattr_run; exact Hp).
      erewrite bind_ok by reflexivity.
      erewrite bind_ok by apply users_of_flow_acc.
      rewrite (no_user_of_flow flow_type users Hnone).
      erewrite bind_ok by (apply getattr_run; exact Hf).
      erewrite bind_ok by (apply (Hflow astate st)).
      destruct (known_flow_cases flow_type steps Hsteps)
        as [[-> ->]|[[-> ->]|[-> ->]]]; reflexivity. }
  destruct (known_flow_cases flow_type steps Hsteps)
    as [[-> ->]|[[-> ->]|[-> ->]]]; reflexivity.
Qed.

(** ** Onboarding: a user followed through several calls *)

(** The state of an agent with attributes [o] in which the progress of [u]
    has been written last. *)
Lemma track_progress_next
    (u step flow_type cur : string) (done steps : list string)
    (started active : value) (o : list (string * value)) (w : world)
    (everyone everyone0 : list (string * value)) (i : nat) :
  onboarding_ready o everyone0 ->
  flow_steps flow_type = Some steps ->
  index_of step (map VStr steps) = Some i ->
  exists reward,
    flow_reward flow_type = Some reward /\
    let now := VStr (isoformat py (clock py (ticks w))) in
    let '(next_step, cur') :=
      match nth_error steps (S i) with
      | Some next =>
          (UserOnboardingAgent__prepare_step u (VStr next), next)
      | None =>
          (VDict [("status", VStr "completed");
                  ("reward", UserOnboardingAgent__grant_reward u reward);
                  ("next_steps", UserOnboardingAgent__generate_next_steps u)],
           cur)
      end in
    UserOnboardingAgent__track_progress u step
      (AState
         (PyDict.set "user_progress"
            (VDict
               (PyDict.set u
                  (progress_entry flow_type cur done started active)
                  everyone))
            o)
         w) =
      (Ok (VDict [("status", VStr "success");
                  ("user_id", VStr u);
                  ("completed_step", VStr step);
                  ("next_step", next_step)]),
       AState
         (PyDict.set "user_progress"
            (VDict
               (PyDict.set u
                  (progress_entry flow_type cur' (done ++ [cur]) started now)
                  everyone))
            o)
         (tick w)).
Proof.
  intros [Hf Hp] Hsteps Hi.
  set (e := progress_entry flow_type cur done started active).
  set (s := AState (PyDict.set "user_progress"
                      (VDict (PyDict.set u e everyone)) o) w).
  assert (Hready : onboarding_ready (self s) (PyDict.set u e everyone)).
  { split; simpl.
    - rewrite get_set_ne by discriminate. exact Hf.
    - apply get_set_eq. }
  destruct (track_progress_run u step flow_type cur done steps started active
              s (PyDict.set u e everyone) i Hready (get_set_eq _ _ _) Hsteps Hi)
    as (reward & Hreward & Hrun).
  exists reward. split; [exact Hreward|]. intros now.
  revert Hrun. cbv zeta.
  destruct (nth_error steps (S i)); intros Hrun; rewrite Hrun;
    unfold s; cbn [self env]; now rewrite !set_set.
Qed.

Ltac track_one Hready :=
  lazymatch goal with
  | |- context [UserOnboardingAgent__track_progress ?u ?step
                  (AState
                     (PyDict.set "user_progress"
                        (VDict
                           (PyDict.set ?u
                              (progress_entry ?ft ?cur ?sofar ?started ?active)
                              ?everyone))
                        ?o)
                     ?w)] =>
      let reward := fresh "reward" in
      let Hreward := fresh "Hreward" in
      let Hrun := fresh "Hrun" in
      destruct (track_progress_next u step ft cur sofar _ started active o w
                  everyone _ _ Hready eq_refl eq_refl)
        as (reward & Hreward & Hrun);
      injection Hreward as <-;
      cbn [nth_error app] in Hrun;
      rewrite Hrun; clear Hrun
  end.

(** A user who starts a flow and then reports its steps in order. *)
Lemma walk_run
    (u flow_type : string) (steps : list string) (st : astate)
    (everyone : list (string * value)) :
  onboarding_ready (self st) everyone ->
  flow_steps flow_type = Some steps ->
  exists reward last_step,
    flow_reward flow_type = Some reward /\
    nth_error steps 4 = Some last_step /\
    (UserOnboardingAgent__start_onboarding u flow_type;;;
     for_each steps
       (fun step _ => UserOnboardingAgent__track_progress u step) VNone) st =
    (Ok (VDict
           [("status", VStr "success");
            ("user_id", VStr u);
            ("completed_step", VStr last_step);
            ("next_step",
             VDict [("status", VStr "completed");
                    ("reward", UserOnboardingAgent__grant_reward u reward);
                    ("next_steps",
                     UserOnboardingAgent__generate_next_steps u)])]),
     AState
       (PyDict.set "user_progress"
          (VDict
             (PyDict.set u
                (progress_entry flow_type last_step steps
                   (VStr (isoformat py (clock py (ticks (env st)))))
                   (VStr (isoformat py (clock py (6 + ticks (env st))))))
                everyone))
          (self st))
       (World (7 + ticks (env st)) (logs (env st)))).
Proof.
  intros Hready Hsteps.
  destruct (known_flow_cases flow_type steps Hsteps)
    as [[-> ->]|[[-> ->]|[-> ->]]];
    do 2 eexists; (split; [reflexivity|]); (split; [reflexivity|]);
    (erewrite bind_ok
       by (eapply start_onboarding_run; [exact Hready|reflexivity]));
    cbn [for_each].
  all: do 5 (unfold bind at 1; track_one Hready); reflexivity.
Qed.

End Ecosystem.

(** * The agents with their handlers in place

    From here on [execute] runs with the handlers that were modelled above;
    [handler] stands for the remaining ones. *)

(** ** The analytics agent: what [monitor] counts *)

Lemma analytics_task_keeps_ready
    (py : builtins) (handler : string -> list value -> M astate value)
    (rt : runtime_ext) (task : list (string * value)) (st : astate) :
  base_ready (self st) ->
  let st' := snd (execute py (modelled_handlers py handler rt) Analytics
                    task st) in
  base_ready (self st') /\
  (forall k, k <> "metrics" ->
             PyDict.get k (self st') = PyDict.get k (self st)).
Proof.
  intros Hready st'. subst st'.
  pose proof Hready as (Hn & Hs & Hla & Hcr & [log Hm] & [ln Hl]).
  assert (Hframe : forall s1,
            (exists log', PyDict.get "metrics" (self s1) = Some (VList log')) ->
            (forall k, k <> "metrics" ->
                       PyDict.get k (self s1) = PyDict.get k (self st)) ->
            base_ready (self s1) /\
            (forall k, k <> "metrics" ->
                       PyDict.get k (self s1) = PyDict.get k (self st))).
  { intros s1 Hlog Hsame. split; [|exact Hsame].
    unfold base_ready.
    rewrite (Hsame "name"), (Hsame "status"), (Hsame "last_active"),
      (Hsame "created_at"), (Hsame "logger") by discriminate.
    repeat split; try assumption. now exists ln. }
  cbn [execute]. unfold AnalyticsAgent_execute.
  destruct (is_str _ "generate_report").
  - change (modelled_handlers py handler rt "AnalyticsAgent._generate_report"
              [PyDict.get_default "data" (VDict []) task])
      with (AnalyticsAgent__generate_report py
              (PyDict.get_default "data" (VDict []) task)).
    pose proof (generate_report_frame py
                  (PyDict.get_default "data" (VDict []) task) st log ln Hm Hl)
      as H.
    destruct (AnalyticsAgent__generate_report py _ st) as [r s1].
    destruct H as [Hlog Hsame]. now apply Hframe.
  - destruct (is_str _ "analyze_data").
    + change (modelled_handlers py handler rt "AnalyticsAgent._analyze_data"
                [PyDict.get_default "data" (VDict []) task])
        with (AnalyticsAgent__analyze_data py rt
                (PyDict.get_default "data" (VDict []) task)).
      pose proof (analyze_data_frame py rt
                    (PyDict.get_default "data" (VDict []) task) st log ln
                    Hm Hl) as H.
      destruct (AnalyticsAgent__analyze_data py rt _ st) as [r s1].
      destruct H as [Hlog Hsame]. now apply Hframe.
    + simpl. split; [exact Hready|reflexivity].
Qed.

(** X25: the [metrics_count] that the analytics agent reports in [monitor]
    is the size of [metrics_data], which no task ever writes: whatever
    tasks the agent has run, reports and analyses, failed or not, the
    count is what it was (0 for an agent made by the factory); the metrics
    the tasks record go to another attribute. *)
Theorem analytics_metrics_count_never_moves
    (py : builtins) (handler : string -> list value -> M astate value)
    (rt : runtime_ext) (tasks : list (list (string * value))) (st : astate)
    (mw : value) (md : list (string * value)) :
  base_ready (self st) ->
  PyDict.get "metrics_window" (self st) = Some mw ->
  PyDict.get "metrics_data" (self st) = Some (VDict md) ->
  let run s task :=
    snd (execute py (modelled_handlers py handler rt) Analytics task s) in
  exists snapshot st' section,
    monitor py (modelled_handlers py handler rt) Analytics
      (fold_left run tasks st) = (Ok (VDict snapshot), st') /\
    PyDict.get "metrics" snapshot
      = Some (VDict [("analytics", VDict section)]) /\
    PyDict.get "metrics_count" section = Some (of_nat (length md)).
Proof.
  intros Hready Hw Hd run.
  assert (Hinv : base_ready (self (fold_left run tasks st)) /\
                 PyDict.get "metrics_window" (self (fold_left run tasks st))
                   = Some mw /\
                 PyDict.get "metrics_data" (self (fold_left run tasks st))
                   = Some (VDict md)).
  { revert st Hready Hw Hd.
    induction tasks as [|task tasks IH]; intros st Hready Hw Hd; simpl;
      [split; [exact Hready|split; assumption]|].
    destruct (analytics_task_keeps_ready py handler rt task st Hready)
      as [Hready' Hsame].
    apply IH; [exact Hready'| |]; unfold run;
      rewrite Hsame by discriminate; assumption. }
  destruct Hinv as ((Hn & Hs & Hla & Hcr & _ & _) & Hw' & Hd').
  destruct Hn as [n Hn], Hs as [s Hs], Hla as [la Hla], Hcr as [t0 Hcr].
  do 3 eexists. split.
  - apply (analytics_monitor_run py _ _ n s mw la t0 md); assumption.
  - split; reflexivity.
Qed.

(** ** The result of one agent as the data of another *)


(** ** Onboarding: a user followed from start to [monitor] *)


(** The agent after the progress of [u] was written, seen by [monitor] when
    [u] is the only user. *)
Lemma monitor_single_user
    (py : builtins) (handler : string -> list value -> M astate value)
    (u : string) (p : user_state) (o : list (string * value)) (w : world) :
  onboarding_ready o [] ->
  PyDict.get "conversion_metrics" o = Some (VDict []) ->
  monitor py handler UserOnboarding
    (AState (PyDict.set "user_progress" (VDict (PyDict.set u (entry_of p) []))
               o) w) =
    (Ok (VDict
           [("completion_rates",
             VDict [("default", VNum (completion_rate [(u, p)] "default" 5));
                    ("developer",
                     VNum (completion_rate [(u, p)] "developer" 5));
                    ("enterprise",
                     VNum (completion_rate [(u, p)] "enterprise" 5))]);
            ("conversion_metrics", VDict []);
            ("active_users", of_nat 1);
            ("last_check", VStr (isoformat py (clock py (ticks w))))]),
     AState (PyDict.set "user_progress" (VDict (PyDict.set u (entry_of p) []))
               o) (tick w)).
Proof.
  intros [Hf _] Hcm.
  apply (onboarding_monitor_run py handler [(u, p)]).
  - split; simpl.
    + rewrite get_set_ne by discriminate. exact Hf.
    + apply get_set_eq.
  - simpl. rewrite get_set_ne by discriminate. exact Hcm.
Qed.

(** X27: a user who starts a flow on a fresh agent and reports its steps
    in their order is told at the last one that the onboarding is
    completed, with the reward of the flow, and [monitor] then gives the
    flow a completion rate of 1 for one active user. *)
Theorem onboarding_walk_completes
    (py : builtins) (handler : string -> list value -> M astate value)
    (rt : runtime_ext) (u flow_type : string) (steps : list string)
    (st : astate) :
  onboarding_ready (self st) [] ->
  PyDict.get "conversion_metrics" (self st) = Some (VDict []) ->
  flow_steps flow_type = Some steps ->
  let agent := execute py (modelled_handlers py handler rt) UserOnboarding in
  let report step :=
    agent [("type", VStr "track_progress"); ("user_id", VStr u);
           ("step", VStr step)] in
  exists reward answer st1 snapshot st2 rates,
    flow_reward flow_type = Some reward /\
    (agent [("type", VStr "start_onboarding"); ("user_id", VStr u);
            ("flow_type", VStr flow_type)];;;
     for_each steps (fun step _ => report step) VNone) st
      = (Ok (VDict answer), st1) /\
    PyDict.get "next_step" answer
      = Some (VDict [("status", VStr "completed");
                     ("reward",
                      VDict [("type", reward); ("granted", VBool true)]);
                     ("next_steps",
                      UserOnboardingAgent__generate_next_steps u)]) /\
    monitor py (modelled_handlers py handler rt) UserOnboarding st1
      = (Ok (VDict snapshot), st2) /\
    PyDict.get "completion_rates" snapshot = Some (VDict rates) /\
    PyDict.get flow_type rates = Some (VNum 1) /\
    PyDict.get "active_users" snapshot = Some (of_nat 1).
Proof.
  intros Hready Hcm Hsteps agent report.
  destruct (walk_run py rt u flow_type steps st [] Hready Hsteps)
    as (reward & last_step & Hreward & Hlast & Hwalk).
  exists reward. do 5 eexists. split; [exact Hreward|].
  split; [exact Hwalk|]. split; [reflexivity|].
  split.
  - apply (monitor_single_user py _ u
             (UserState flow_type last_step steps _ _)); assumption.
  - split; [reflexivity|].
    destruct (known_flow_cases flow_type steps Hsteps)
      as [[-> ->]|[[-> ->]|[-> ->]]]; split; reflexivity.
Qed.

(** X28: the order of the steps is not checked.  A user who has just
    started and reports the last step of the flow is granted the reward at
    once; on record there is one completed step, the first, and [monitor]
    gives the flow a completion rate of 0. *)
Theorem onboarding_reward_without_the_steps
    (py : builtins) (handler : string -> list value -> M astate value)
    (rt : runtime_ext) (u flow_type last_step : string) (steps : list string)
    (st : astate) :
  onboarding_ready (self st) [] ->
  PyDict.get "conversion_metrics" (self st) = Some (VDict []) ->
  flow_steps flow_type = Some steps ->
  last steps = Some last_step ->
  let agent := execute py (modelled_handlers py handler rt) UserOnboarding in
  exists reward first started active answer st1 snapshot st2 rates,
    flow_reward flow_type = Some reward /\
    nth_error steps 0 = Some first /\
    (agent [("type", VStr "start_onboarding"); ("user_id", VStr u);
            ("flow_type", VStr flow_type)];;;
     agent [("type", VStr "track_progress"); ("user_id", VStr u);
            ("step", VStr last_step)]) st
      = (Ok (VDict answer), st1) /\
    PyDict.get "next_step" answer
      = Some (VDict [("status", VStr "completed");
                     ("reward",
                      VDict [("type", reward); ("granted", VBool true)]);
                     ("next_steps",
                      UserOnboardingAgent__generate_next_steps u)]) /\
    PyDict.get "user_progress" (self st1)
      = Some (VDict [(u, progress_entry flow_type first [first]
                           started active)]) /\
    monitor py (modelled_handlers py handler rt) UserOnboarding st1
      = (Ok (VDict snapshot), st2) /\
    PyDict.get "completion_rates" snapshot = Some (VDict rates) /\
    PyDict.get flow_type rates = Some (VNum 0).
Proof.
  intros Hready Hcm Hsteps Hlast agent.
  assert (Hrun : exists reward,
    flow_reward flow_type = Some reward /\
    (UserOnboardingAgent__start_onboarding py rt u flow_type;;;
     UserOnboardingAgent__track_progress py rt u last_step) st =
    (Ok (VDict
           [("status", VStr "success");
            ("user_id", VStr u);
            ("completed_step", VStr last_step);
            ("next_step",
             VDict [("status", VStr "completed");
                    ("reward", UserOnboardingAgent__grant_reward u reward);
                    ("next_steps",
                     UserOnboardingAgent__generate_next_steps u)])]),
     AState
       (PyDict.set "user_progress"
          (VDict
             (PyDict.set u
                (progress_entry flow_type "welcome" ["welcome"]
                   (VStr (isoformat py (clock py (ticks (env st)))))
                   (VStr (isoformat py (clock py (2 + ticks (env st))))))
                []))
          (self st))
       (World (3 + ticks (env st)) (logs (env st))))).
  { destruct (known_flow_cases flow_type steps Hsteps)
      as [[-> ->]|[[-> ->]|[-> ->]]];
      injection Hlast as <-;
      eexists; (split; [reflexivity|]);
      (erewrite bind_ok
         by (eapply start_onboarding_run; [exact Hready|reflexivity]));
      match goal with
      | |- UserOnboardingAgent__track_progress _ _ ?u ?step
             (AState
                (PyDict.set "user_progress"
                   (VDict
                      (PyDict.set ?u
                         (progress_entry ?ft ?cur ?sofar ?started ?active)
                         ?everyone))
                   ?o)
                ?w) = _ =>
          destruct (track_progress_next py rt u step ft cur sofar _ started
                      active o w everyone _ _ Hready eq_refl eq_refl)
            as (reward & Hreward & Hrun);
          injection Hreward as <-;
          cbn [nth_error app] in Hrun;
          rewrite Hrun; reflexivity
      end. }
  destruct Hrun as (reward & Hreward & Hrun).
  exists reward, "welcome". do 7 eexists. split; [exact Hreward|].
  split.
  { now destruct (known_flow_cases flow_type steps Hsteps)
      as [[-> ->]|[[-> ->]|[-> ->]]]. }
  split; [exact Hrun|]. split; [reflexivity|].
  split; [simpl; rewrite get_set_eq; reflexivity|].
  split.
  - apply (monitor_single_user py _ u
             (UserState flow_type "welcome" ["welcome"] _ _)); assumption.
  - split; [reflexivity|].
    destruct (known_flow_cases flow_type steps Hsteps)
      as [[-> ->]|[[-> ->]|[-> ->]]]; reflexivity.
Qed.


(** ** The statements at concrete inputs *)

(** C4 at the tag ["chatbot"], which a fresh factory does not know. *)
Lemma create_agent_unknown_type_witness :
  let f := AgentFactory example_runtime empty_world in
  PyDict.get "chatbot" (registered_agents f) = None /\
  create_agent "chatbot" "A1" (VDict []) f =
    (Raise (ValueError "Unknown agent type: chatbot"), f).
Proof.
  intros f. split; [reflexivity|].
  apply (create_agent_unknown_type f "chatbot" "A1" (VDict [])). reflexivity.
Defined.

(** C1 at the ROI class of a fresh factory. *)
Lemma create_agent_initializes_once_witness :
  let f := AgentFactory example_runtime empty_world in
  let c := ROIOptimizationAgent example_runtime in
  let s1 := snd (cls_init c "A1" (VDict []) (AState [] (fenv f))) in
  let s2 := snd (cls_initialize c s1) in
  PyDict.get "roi_optimization" (registered_agents f) = Some c /\
  cls_init c "A1" (VDict []) (AState [] (fenv f))
    = (Ok tt, AState (self s1) (env s1)) /\
  cls_initialize c (AState (self s1) (env s1))
    = (Ok true, AState (self s2) (env s2)) /\
  exists f',
    create_agent "roi_optimization" "A1" (VDict []) f
      = (Ok (Agent c (self s2)), f') /\
    initialize_calls (journal f') = 1%nat.
Proof.
  intros f c s1 s2.
  assert (H0 : PyDict.get "roi_optimization" (registered_agents f) = Some c)
    by reflexivity.
  assert (H1 : cls_init c "A1" (VDict []) (AState [] (fenv f))
               = (Ok tt, AState (self s1) (env s1))) by reflexivity.
  assert (H2 : cls_initialize c (AState (self s1) (env s1))
               = (Ok true, AState (self s2) (env s2))) by reflexivity.
  repeat (split; [assumption|]).
  destruct (create_agent_initializes_once f "roi_optimization" "A1" (VDict [])
              c (self s1) (self s2) (env s1) (env s2) true H0 H1 H2)
    as (f' & Hrun & _ & Hcalls & _).
  exists f'. split; [exact Hrun|exact Hcalls].
Defined.

(** C2 at the onboarding agent and the task type ["dance"]. *)
Lemma execute_unknown_type_fails_witness :
  let task := [("type", VStr "dance"); ("user_id", VStr "u1")] in
  let st := AState [] empty_world in
  PyDict.get "type" task = Some (VStr "dance") /\
  (forall n, In n (task_types UserOnboarding) ->
             is_str (VStr "dance") n = false) /\
  execute example_runtime no_handlers UserOnboarding task st
    = (Ok unknown_task_envelope, st).
Proof.
  intros task st.
  assert (Hun : forall n, In n (task_types UserOnboarding) ->
                          is_str (VStr "dance") n = false).
  { intros n [<-|[<-|[<-|[]]]]; reflexivity. }
  split; [reflexivity|]. split; [exact Hun|].
  exact (proj1 (execute_unknown_type_fails example_runtime no_handlers
                  UserOnboarding task (VStr "dance") st eq_refl Hun)).
Defined.





(** C3, as amended, at an ROI agent monitored right after its creation and
    again five readings of the clock later. *)
Lemma monitor_common_fields_when_extending_base_witness :
  let o := [("name", VStr "A1"); ("config", VDict []);
            ("created_at", VTime 0); ("last_active", VTime 1000000);
            ("status", VStr "initialized"); ("logger", VLogger "agent.A1");
            ("metrics", VList []); ("target_roi", VNum (15 # 100))] in
  let st1 := AState o (World 2 []) in
  let st2 := AState o (World 7 []) in
  extends_base_monitor ROIOptimization = true /\
  (forall i j, (i <= j)%nat ->
               (clock example_runtime i <= clock example_runtime j)%Z) /\
  base_ready o /\ monitor_attrs ROIOptimization o /\
  PyDict.get "created_at" o = Some (VTime (clock example_runtime 0)) /\
  (0 <= ticks (env st1))%nat /\
  (ticks (env st1) <= ticks (env st2))%nat /\
  exists snapshot1 st1' u1 snapshot2 st2' u2,
    monitor example_runtime no_handlers ROIOptimization st1
      = (Ok (VDict snapshot1), st1') /\
    common_fields o snapshot1 u1 /\
    monitor example_runtime no_handlers ROIOptimization st2
      = (Ok (VDict snapshot2), st2') /\
    common_fields o snapshot2 u2 /\
    (u1 <= u2)%Q.
Proof.
  intros o st1 st2.
  assert (Hmono : forall i j, (i <= j)%nat ->
                    (clock example_runtime i <= clock example_runtime j)%Z).
  { intros i j Hij. simpl. lia. }
  assert (Hready : base_ready o).
  { unfold base_ready, o. simpl. repeat split; eexists; reflexivity. }
  assert (Hattrs : monitor_attrs ROIOptimization o).
  { simpl. eexists. reflexivity. }
  assert (H01 : (0 <= ticks (env st1))%nat) by (simpl; lia).
  assert (H12 : (ticks (env st1) <= ticks (env st2))%nat) by (simpl; lia).
  split; [reflexivity|]. split; [exact Hmono|]. split; [exact Hready|].
  split; [exact Hattrs|]. split; [reflexivity|]. split; [exact H01|].
  split; [exact H12|].
  destruct (monitor_common_fields_when_extending_base example_runtime
              no_handlers ROIOptimization st1 st2 0 eq_refl Hmono
              Hready Hattrs eq_refl H01 Hready Hattrs eq_refl H12)
    as (s1 & st1' & u1 & s2 & st2' & u2 & Hr1 & Hc1 & _ & Hr2 & Hc2 & Hle & _).
  exists s1, st1', u1, s2, st2', u2.
  split; [exact Hr1|]. split; [exact Hc1|]. split; [exact Hr2|].
  split; [exact Hc2|exact Hle].
Defined.

(** C3 as stated fails: the onboarding agent, registered and created through
    the factory, answers [monitor] with a dictionary of its own four fields,
    which has none of [name], [status], [uptime] and [metrics]. *)
Lemma monitor_onboarding_lacks_common_fields :
  let f := snd (register_agent "user_onboarding"
                  (UserOnboardingAgent example_runtime)
                  (AgentFactory example_runtime empty_world)) in
  exists a f1 st',
    create_agent "user_onboarding" "U1" (VDict []) f = (Ok a, f1) /\
    monitor example_runtime no_handlers UserOnboarding
      (AState (agent_dict a) (fenv f1))
    = (Ok (VDict
             [("completion_rates",
               VDict [("default", VNum 0); ("developer", VNum 0);
                      ("enterprise", VNum 0)]);
              ("conversion_metrics", VDict []);
              ("active_users", VNum 0);
              ("last_check", VStr (isoformat example_runtime 2000000))]),
       st') /\
    PyDict.get "name" (agent_dict a) = Some (VStr "U1") /\
    forall snapshot,
      monitor example_runtime no_handlers UserOnboarding
        (AState (agent_dict a) (fenv f1)) = (Ok (VDict snapshot), st') ->
      PyDict.get "name" snapshot = None /\
      PyDict.get "status" snapshot = None /\
      PyDict.get "uptime" snapshot = None /\
      PyDict.get "metrics" snapshot = None /\
      forall u, ~ common_fields (agent_dict a) snapshot u.
Proof.
  intros f. do 3 eexists.
  split; [vm_compute; reflexivity|].
  split; [vm_compute; reflexivity|].
  split; [reflexivity|].
  intros snapshot Hrun. vm_compute in Hrun. inversion Hrun; subst snapshot.
  repeat split; try reflexivity.
  intros u ((n & _ & Hname) & _). vm_compute in Hname. discriminate.
Qed.

(** ** The further statements at concrete inputs *)






(** X7 at the analytics class of a fresh factory. *)
Lemma register_agent_again_is_idempotent_witness :
  let f := AgentFactory example_runtime empty_world in
  let c := AnalyticsAgent example_runtime in
  PyDict.get "analytics" (registered_agents f) = Some c /\
  register_agent "analytics" c f =
    (Ok tt,
     with_env f
       (emit (logger f) "info" "Registered new agent type: analytics"
          (fenv f))).
Proof.
  intros f c. split; [reflexivity|].
  exact (register_agent_again_is_idempotent f "analytics" c eq_refl).
Defined.

(** X8 at a configuration that is a number: the constructor of the ROI
    class calls [config.get] and raises. *)
Lemma create_agent_propagates_exceptions_witness :
  let py := example_runtime in
  let f := AgentFactory py empty_world in
  let c := ROIOptimizationAgent py in
  let e := AttributeError "get" in
  let s := snd (cls_init c "R1" (VNum 1) (AState [] (fenv f))) in
  PyDict.get "roi_optimization" (registered_agents f) = Some c /\
  cls_init c "R1" (VNum 1) (AState [] (fenv f)) = (Raise e, s) /\
  exists f',
    create_agent "roi_optimization" "R1" (VNum 1) f = (Raise e, f') /\
    registered_agents f' = registered_agents f /\
    fenv f' = env s /\
    journal f' = journal f ++ [Constructed c "R1" (VNum 1)] /\
    initialize_calls (journal f') = initialize_calls (journal f).
Proof.
  intros py f c e s. do 2 (split; [reflexivity|]).
  destruct (create_agent_propagates_exceptions f "roi_optimization" "R1"
              (VNum 1) c e s eq_refl (or_introl eq_refl))
    as (f' & Hrun & Hreg & Henv & Hinit).
  exists f'. split; [exact Hrun|]. split; [exact Hreg|].
  split; [exact Henv|]. exact (Hinit eq_refl).
Defined.






(** X14 at a request that asks for two sections out of order and for a
    name that is none. *)
Lemma report_sections_are_those_requested_witness :
  let py := example_runtime in
  let st := example_analytics_agent in
  let l := [VStr "agent_performance"; VStr "bogus"; VStr "revenue"] in
  let d := [("metrics", VList l)] in
  PyDict.get_default "metrics" (VList []) d = VList l /\
  PyDict.get "metrics" (self st) = Some (VList []) /\
  PyDict.get "logger" (self st) = Some (VLogger "agent.A1") /\
  List.filter (fun k => existsb (fun x => is_str x k) l)
    ["revenue"; "user_growth"; "agent_performance"]
    = ["revenue"; "agent_performance"] /\
  exists res sections st',
    AnalyticsAgent__generate_report py (VDict d) st = (Ok (VDict res), st') /\
    PyDict.get "metrics" res = Some (VDict sections) /\
    PyDict.keys sections
      = List.filter (fun k => existsb (fun x => is_str x k) l)
          ["revenue"; "user_growth"; "agent_performance"] /\
    PyDict.get "status" res = None /\
    PyDict.get "timestamp" res
      = Some (VStr (isoformat py (clock py (ticks (env st))))) /\
    PyDict.get "metrics" (self st') =
      Some (VList ([] ++ [metric_record py "report_generated" (VNum 1)
                            (S (ticks (env st)))])).
Proof.
  intros py st l d. do 4 (split; [reflexivity|]).
  exact (report_sections_are_those_requested py d st l [] "agent.A1"
           eq_refl eq_refl eq_refl).
Defined.


(** X16 at a flow named ["vip"]. *)
Lemma start_onboarding_unknown_flow_refused_witness :
  let py := example_runtime in
  let rt := example_runtime_ext in
  let st := example_onboarding_agent in
  onboarding_ready (self st) [] /\
  flow_steps "vip" = None /\
  UserOnboardingAgent__start_onboarding py rt "u1" "vip" st =
    (Ok (error_envelope "Invalid flow type: vip"), st).
Proof.
  intros py rt st.
  assert (Hready : onboarding_ready (self st) []) by (split; reflexivity).
  split; [exact Hready|]. split; [reflexivity|].
  exact (start_onboarding_unknown_flow_refused py rt "u1" "vip" st []
           Hready eq_refl).
Defined.

(** X17 at an agent with one user, for a user it does not know and for a
    step that is none of the flow. *)
Lemma track_progress_refusals_witness :
  let py := example_runtime in
  let rt := example_runtime_ext in
  let entry := progress_entry "default" "welcome" [] (VStr "T+0") (VStr "T+1") in
  let everyone := [("u1", entry)] in
  let st :=
    AState [("onboarding_flows", default_onboarding_flows);
            ("user_progress", VDict everyone)] empty_world in
  onboarding_ready (self st) everyone /\
  PyDict.get "u2" everyone = None /\
  UserOnboardingAgent__track_progress py rt "u2" "welcome" st =
    (Ok (error_envelope "User not found"), st) /\
  PyDict.get "u1" everyone = Some entry /\
  flow_steps "default"
    = Some ["welcome"; "feature_overview"; "first_agent";
            "marketplace_intro"; "support_resources"] /\
  UserOnboardingAgent__track_progress py rt "u1" "checkout" st =
    (Ok (error_envelope "Invalid step"), st).
Proof.
  intros py rt entry everyone st.
  assert (Hready : onboarding_ready (self st) everyone)
    by (split; reflexivity).
  split; [exact Hready|]. split; [reflexivity|].
  split;
    [exact (proj1 (track_progress_refusals py rt "u2" "welcome" st everyone
                     Hready) eq_refl)|].
  split; [reflexivity|]. split; [reflexivity|].
  apply (proj2 (track_progress_refusals py rt "u1" "checkout" st everyone
                  Hready)
           "default" "welcome" [] (VStr "T+0") (VStr "T+1") _ eq_refl eq_refl).
  simpl. intros [H|[H|[H|[H|[H|[]]]]]]; discriminate H.
Defined.

(** X18 at the developer flow on a fresh agent. *)
Lemma start_onboarding_starts_over_witness :
  let py := example_runtime in
  let rt := example_runtime_ext in
  let st := example_onboarding_agent in
  let steps := ["welcome"; "api_overview"; "sdk_setup"; "first_integration";
                "documentation"] in
  onboarding_ready (self st) [] /\
  flow_steps "developer" = Some steps /\
  exists first res st' everyone',
    nth_error steps 0 = Some first /\
    UserOnboardingAgent__start_onboarding py rt "u1" "developer" st
      = (Ok (VDict res), st') /\
    PyDict.get "status" res = Some (VStr "success") /\
    PyDict.get "first_step" res
      = Some (UserOnboardingAgent__prepare_step py "u1" (VStr first)) /\
    PyDict.get "user_progress" (self st') = Some (VDict everyone') /\
    PyDict.get "u1" everyone'
      = Some (progress_entry "developer" first []
                (VStr (isoformat py (clock py (ticks (env st)))))
                (VStr (isoformat py (clock py (S (ticks (env st))))))) /\
    (forall other, other <> "u1" ->
                   PyDict.get other everyone' = PyDict.get other []) /\
    (forall k, k <> "user_progress" ->
               PyDict.get k (self st') = PyDict.get k (self st)).
Proof.
  intros py rt st steps.
  assert (Hready : onboarding_ready (self st) []) by (split; reflexivity).
  split; [exact Hready|]. split; [reflexivity|].
  exact (start_onboarding_starts_over py rt "u1" "developer" st [] steps
           Hready eq_refl).
Defined.

(** X19 at a user who is at the first step and reports the third. *)
Lemma track_progress_records_current_step_witness :
  let py := example_runtime in
  let rt := example_runtime_ext in
  let entry := progress_entry "default" "welcome" [] (VStr "T+0") (VStr "T+1") in
  let everyone := [("u1", entry)] in
  let st :=
    AState [("onboarding_flows", default_onboarding_flows);
            ("user_progress", VDict everyone)] empty_world in
  let steps := ["welcome"; "feature_overview"; "first_agent";
                "marketplace_intro"; "support_resources"] in
  onboarding_ready (self st) everyone /\
  PyDict.get "u1" everyone = Some entry /\
  flow_steps "default" = Some steps /\
  index_of "first_agent" (map VStr steps) = Some 2%nat /\
  nth_error steps 3 = Some "marketplace_intro" /\
  exists res st' everyone',
    UserOnboardingAgent__track_progress py rt "u1" "first_agent" st
      = (Ok (VDict res), st') /\
    PyDict.get "completed_step" res = Some (VStr "first_agent") /\
    PyDict.get "next_step" res
      = Some (UserOnboardingAgent__prepare_step py "u1"
                (VStr "marketplace_intro")) /\
    PyDict.get "user_progress" (self st') = Some (VDict everyone') /\
    PyDict.get "u1" everyone'
      = Some (progress_entry "default" "marketplace_intro" ([] ++ ["welcome"])
                (VStr "T+0")
                (VStr (isoformat py (clock py (ticks (env st)))))) /\
    (forall other, other <> "u1" ->
                   PyDict.get other everyone' = PyDict.get other everyone).
Proof.
  intros py rt entry everyone st steps.
  assert (Hready : onboarding_ready (self st) everyone)
    by (split; reflexivity).
  split; [exact Hready|]. do 4 (split; [reflexivity|]).
  exact (track_progress_records_current_step py rt "u1" "first_agent"
           "default" "welcome" "marketplace_intro" [] steps (VStr "T+0")
           (VStr "T+1") st everyone 2 Hready eq_refl eq_refl eq_refl eq_refl).
Defined.

(** X20 at a user who is at the first step and reports the last. *)
Lemma track_progress_last_step_grants_reward_witness :
  let py := example_runtime in
  let rt := example_runtime_ext in
  let entry := progress_entry "default" "welcome" [] (VStr "T+0") (VStr "T+1") in
  let everyone := [("u1", entry)] in
  let st :=
    AState [("onboarding_flows", default_onboarding_flows);
            ("user_progress", VDict everyone)] empty_world in
  let steps := ["welcome"; "feature_overview"; "first_agent";
                "marketplace_intro"; "support_resources"] in
  onboarding_ready (self st) everyone /\
  PyDict.get "u1" everyone = Some entry /\
  flow_steps "default" = Some steps /\
  index_of "support_resources" (map VStr steps) = Some 4%nat /\
  5%nat = length steps /\
  exists reward res st' everyone',
    flow_reward "default" = Some reward /\
    UserOnboardingAgent__track_progress py rt "u1" "support_resources" st
      = (Ok (VDict res), st') /\
    PyDict.get "next_step" res
      = Some (VDict [("status", VStr "completed");
                     ("reward",
                      VDict [("type", reward); ("granted", VBool true)]);
                     ("next_steps",
                      UserOnboardingAgent__generate_next_steps "u1")]) /\
    PyDict.get "user_progress" (self st') = Some (VDict everyone') /\
    PyDict.get "u1" everyone'
      = Some (progress_entry "default" "welcome" ([] ++ ["welcome"])
                (VStr "T+0")
                (VStr (isoformat py (clock py (ticks (env st)))))).
Proof.
  intros py rt entry everyone st steps.
  assert (Hready : onboarding_ready (self st) everyone)
    by (split; reflexivity).
  split; [exact Hready|]. do 4 (split; [reflexivity|]).
  exact (track_progress_last_step_grants_reward py rt "u1"
           "support_resources" "default" "welcome" [] steps (VStr "T+0")
           (VStr "T+1") st everyone 4 Hready eq_refl eq_refl eq_refl eq_refl).
Defined.

(** X21 at the ROI agent writing to the marketplace agent. *)
Lemma collaborate_is_acknowledged_witness :
  let py := example_runtime in
  let st := example_roi_agent in
  let target := self example_marketplace_agent in
  PyDict.get "name" (self st) = Some (VStr "R1") /\
  PyDict.get "logger" (self st) = Some (VLogger "agent.R1") /\
  PyDict.get "name" target = Some (VStr "M1") /\
  PyDict.get "logger" target = Some (VLogger "agent.M1") /\
  BaseAgent_collaborate py target (VDict [("ask", VStr "stats")]) st =
    (Ok (VDict [("status", VStr "received"); ("from", VStr "R1");
                ("timestamp", VTime (clock py (ticks (env st))))]),
     AState (self st)
       (tick
          (emit "agent.M1" "info" "Received message from R1"
             (emit "agent.R1" "info" "Collaborating with M1" (env st))))).
Proof.
  intros py st target. do 4 (split; [reflexivity|]).
  exact (collaborate_is_acknowledged py target (VDict [("ask", VStr "stats")])
           st (VStr "R1") (VStr "M1") "agent.R1" "agent.M1"
           eq_refl eq_refl eq_refl eq_refl).
Defined.

(** X22 at an analytics agent. *)
Lemma created_agent_str_witness :
  let py := example_runtime in
  default_tag Analytics = Some "analytics" /\
  exists a f1,
    create_agent "analytics" "A1" (VDict []) (AgentFactory py empty_world)
      = (Ok a, f1) /\
    BaseAgent_str py (AState (agent_dict a) (fenv f1)) =
      (Ok "A1 Agent (Status: initialized)", AState (agent_dict a) (fenv f1)).
Proof.
  intros py. split; [reflexivity|].
  exact (created_agent_str py Analytics "analytics" "A1" [] empty_world
           eq_refl).
Defined.

(** X23 at the default flow on a fresh agent. *)
Lemma optimize_flow_changes_nothing_witness :
  let py := example_runtime in
  let rt := example_runtime_ext in
  let st := example_onboarding_agent in
  onboarding_ready (self st) [] /\
  snd (UserOnboardingAgent__optimize_flow py no_handlers rt "default" st) = st.
Proof.
  intros py rt st.
  assert (Hready : onboarding_ready (self st) []) by (split; reflexivity).
  split; [exact Hready|].
  exact (optimize_flow_changes_nothing py no_handlers rt "default" st []
           Hready).
Defined.

(** X24 at the default flow on an agent whose one user follows the
    developer flow. *)
Lemma optimize_flow_without_users_witness :
  let py := example_runtime in
  let rt := example_runtime_ext in
  let users :=
    [("u1", UserState "developer" "welcome" [] (VStr "T+0") (VStr "T+1"))] in
  let st :=
    AState [("onboarding_flows", default_onboarding_flows);
            ("user_progress", VDict (progress_of users))] empty_world in
  let steps := ["welcome"; "feature_overview"; "first_agent";
                "marketplace_intro"; "support_resources"] in
  onboarding_ready (self st) (progress_of users) /\
  flow_steps "default" = Some steps /\
  (forall uid p, In (uid, p) users -> progress_flow p <> "default") /\
  UserOnboardingAgent__optimize_flow py no_handlers rt "default" st =
    (Ok (VDict
           [("status", VStr "success");
            ("flow_type", VStr "default");
            ("metrics",
             VDict [("step_completion",
                     VDict (map (fun s => (s, VNum 0)) steps));
                    ("average_time", VNum 0)]);
            ("optimizations",
             VDict [("changes", VList (map step_optimization steps))])]),
     st).
Proof.
  intros py rt users st steps.
  assert (Hready : onboarding_ready (self st) (progress_of users))
    by (split; reflexivity).
  assert (Hnone : forall uid p,
             In (uid, p) users -> progress_flow p <> "default").
  { intros uid p [H|[]]. injection H as _ <-. discriminate. }
  split; [exact Hready|]. split; [reflexivity|]. split; [exact Hnone|].
  exact (optimize_flow_without_users py no_handlers rt "default" steps st
           users Hready eq_refl Hnone).
Defined.

(** X25 at an agent made without [metrics_data] entries that runs a report,
    an analysis that fails and a task it does not know. *)
Lemma analytics_metrics_count_never_moves_witness :
  let py := example_runtime in
  let rt := example_runtime_ext in
  let st := example_analytics_agent in
  let tasks :=
    [[("type", VStr "generate_report");
      ("data", VDict [("metrics", VList [VStr "revenue"])])];
     [("type", VStr "analyze_data"); ("data", VNum 1)];
     [("type", VStr "dance")]] in
  let run s task :=
    snd (execute py (modelled_handlers py no_handlers rt) Analytics task s) in
  base_ready (self st) /\
  PyDict.get "metrics_window" (self st) = Some (VStr "24h") /\
  PyDict.get "metrics_data" (self st) = Some (VDict []) /\
  exists snapshot st' section,
    monitor py (modelled_handlers py no_handlers rt) Analytics
      (fold_left run tasks st) = (Ok (VDict snapshot), st') /\
    PyDict.get "metrics" snapshot
      = Some (VDict [("analytics", VDict section)]) /\
    PyDict.get "metrics_count" section = Some (of_nat 0).
Proof.
  intros py rt st tasks run.
  assert (Hready : base_ready (self st))
    by (repeat split; eexists; reflexivity).
  split; [exact Hready|]. do 2 (split; [reflexivity|]).
  exact (analytics_metrics_count_never_moves py no_handlers rt tasks st
           (VStr "24h") [] Hready eq_refl eq_refl).
Defined.


(** X27 at the default flow on a fresh agent. *)
Lemma onboarding_walk_completes_witness :
  let py := example_runtime in
  let rt := example_runtime_ext in
  let st := example_onboarding_agent in
  let steps := ["welcome"; "feature_overview"; "first_agent";
                "marketplace_intro"; "support_resources"] in
  let agent :=
    execute py (modelled_handlers py no_handlers rt) UserOnboarding in
  let report step :=
    agent [("type", VStr "track_progress"); ("user_id", VStr "u1");
           ("step", VStr step)] in
  onboarding_ready (self st) [] /\
  PyDict.get "conversion_metrics" (self st) = Some (VDict []) /\
  flow_steps "default" = Some steps /\
  exists reward answer st1 snapshot st2 rates,
    flow_reward "default" = Some reward /\
    (agent [("type", VStr "start_onboarding"); ("user_id", VStr "u1");
            ("flow_type", VStr "default")];;;
     for_each steps (fun step _ => report step) VNone) st
      = (Ok (VDict answer), st1) /\
    PyDict.get "next_step" answer
      = Some (VDict [("status", VStr "completed");
                     ("reward",
                      VDict [("type", reward); ("granted", VBool true)]);
                     ("next_steps",
                      UserOnboardingAgent__generate_next_steps "u1")]) /\
    monitor py (modelled_handlers py no_handlers rt) UserOnboarding st1
      = (Ok (VDict snapshot), st2) /\
    PyDict.get "completion_rates" snapshot = Some (VDict rates) /\
    PyDict.get "default" rates = Some (VNum 1) /\
    PyDict.get "active_users" snapshot = Some (of_nat 1).
Proof.
  intros py rt st steps agent report.
  assert (Hready : onboarding_ready (self st) []) by (split; reflexivity).
  split; [exact Hready|]. do 2 (split; [reflexivity|]).
  exact (onboarding_walk_completes py no_handlers rt "u1" "default" steps st
           Hready eq_refl eq_refl).
Defined.

(** X28 at the enterprise flow on a fresh agent. *)
Lemma onboarding_reward_without_the_steps_witness :
  let py := example_runtime in
  let rt := example_runtime_ext in
  let st := example_onboarding_agent in
  let steps := ["welcome"; "enterprise_features"; "team_setup";
                "security_overview"; "support_channels"] in
  let agent :=
    execute py (modelled_handlers py no_handlers rt) UserOnboarding in
  onboarding_ready (self st) [] /\
  PyDict.get "conversion_metrics" (self st) = Some (VDict []) /\
  flow_steps "enterprise" = Some steps /\
  last steps = Some "support_channels" /\
  exists reward first started active answer st1 snapshot st2 rates,
    flow_reward "enterprise" = Some reward /\
    nth_error steps 0 = Some first /\
    (agent [("type", VStr "start_onboarding"); ("user_id", VStr "u1");
            ("flow_type", VStr "enterprise")];;;
     agent [("type", VStr "track_progress"); ("user_id", VStr "u1");
            ("step", VStr "support_channels")]) st
      = (Ok (VDict answer), st1) /\
    PyDict.get "next_step" answer
      = Some (VDict [("status", VStr "completed");
                     ("reward",
                      VDict [("type", reward); ("granted", VBool true)]);
                     ("next_steps",
                      UserOnboardingAgent__generate_next_steps "u1")]) /\
    PyDict.get "user_progress" (self st1)
      = Some (VDict [("u1", progress_entry "enterprise" first [first]
                              started active)]) /\
    monitor py (modelled_handlers py no_handlers rt) UserOnboarding st1
      = (Ok (VDict snapshot), st2) /\
    PyDict.get "completion_rates" snapshot = Some (VDict rates) /\
    PyDict.get "enterprise" rates = Some (VNum 0).
Proof.
  intros py rt st steps agent.
  assert (Hready : onboarding_ready (self st) []) by (split; reflexivity).
  split; [exact Hready|]. do 3 (split; [reflexivity|]).
  exact (onboarding_reward_without_the_steps py no_handlers rt "u1"
           "enterprise" "support_channels" steps st Hready eq_refl eq_refl
           eq_refl).
Defined.

